(** * The webhook notification channel of PongHub

    A shallow embedding of [internal/notifier/channels/webhook.go]: the
    payload builders, the authentication headers and the [Send] path of
    [WebhookNotifier], followed by the properties the specification states
    about them.

    Go strings are byte strings and are modelled by [string]; a Go
    [map[string]T] is a [gmap string T]; [interface{}] values are the
    inductive [value]; Go's [int] is [Z] (the code only compares it with
    zero).  The functions of the Go standard library that the channel calls
    are modelled in the first part; those whose behaviour is too large to
    model ([text/template], [json.Unmarshal], the Unicode case tables) are
    the fields of the class [GoLib]. *)

From stdpp Require Import gmap strings list fin_maps pretty.
From Stdlib Require Import ZArith Ascii.

#[local] Set Warnings "-register-all".
#[local] Open Scope Z_scope.

(** ** Part I. Definitions *)

(** *** Strings *)

(** The double quote character and a string between double quotes, as
    [fmt.Sprintf] prints it with a quoted [%s] verb. *)
Definition dquote : string := String "034" "".

Definition quoted (s : string) : string := dquote +:+ s +:+ dquote.

(** [strings.Contains]. *)
Fixpoint strings_Contains (s substr : string) : bool :=
  String.prefix substr s ||
  match s with
  | EmptyString => false
  | String _ rest => strings_Contains rest substr
  end.

Definition isASCII (s : string) : bool :=
  forallb (fun c => (Ascii.N_of_ascii c <? 128)%N) (String.list_ascii_of_string s).

Definition ascii_upper (c : ascii) : ascii :=
  let n := Ascii.N_of_ascii c in
  if ((97 <=? n) && (n <=? 122))%N then Ascii.ascii_of_N (n - 32) else c.

Definition ascii_lower (c : ascii) : ascii :=
  let n := Ascii.N_of_ascii c in
  if ((65 <=? n) && (n <=? 90))%N then Ascii.ascii_of_N (n + 32) else c.

Fixpoint map_bytes (f : ascii -> ascii) (s : string) : string :=
  match s with
  | EmptyString => EmptyString
  | String c rest => String (f c) (map_bytes f rest)
  end.

(** *** Values of type [interface{}] *)

(** The dynamic values the channel builds or receives from
    [json.Unmarshal].  A [float64] (which only [json.Unmarshal] produces
    here) is kept as the literal [json.Marshal] prints for it. *)
Inductive value : Type :=
| VNil
| VBool (b : bool)
| VInt (n : Z)
| VNumber (lit : string)
| VString (s : string)
| VList (items : list value)
| VMap (entries : gmap string value).

(** Indexing a [map[string]interface{}]: a missing key reads as [nil]. *)
Definition index (m : gmap string value) (k : string) : value :=
  default VNil (m !! k).

(** *** Errors *)

(** [WebhookError], the last declaration of webhook.go. *)
Record WebhookError : Type := {
  StatusCode : Z;
  Body : string;
  Retryable : bool;
  Message : string
}.

(** Go [error] values, by the way they are made. *)
Inductive error : Type :=
| errorString (msg : string)              (* fmt.Errorf without %w *)
| wrapError (msg : string) (err : error)  (* fmt.Errorf with %w *)
| libError (msg : string)                 (* an error of a library package *)
| webhookError (e : WebhookError).

Definition Error (e : error) : string :=
  match e with
  | errorString msg => msg
  | wrapError msg _ => msg
  | libError msg => msg
  | webhookError e => Message e
  end.

Inductive result (A : Type) : Type :=
| Ok (a : A)
| Err (e : error).
Arguments Ok {A} a.
Arguments Err {A} e.

(** [fmt.Errorf(prefix + "%v", err)] and [fmt.Errorf(prefix + "%w", err)]. *)
Definition Errorf_v (prefix : string) (err : error) : error :=
  errorString (prefix +:+ Error err).

Definition Errorf_w (prefix : string) (err : error) : error :=
  wrapError (prefix +:+ Error err) err.

(** *** unicode/utf8 *)

(** [utf8.RuneError], the replacement character U+FFFD. *)
Definition utf8_RuneError : N := 0xFFFD.

(** [s[i]] as a number; the decoder below reads [s[i]] only after it has
    compared [i] with the length. *)
Definition byte_at (s : string) (i : nat) : N :=
  match String.get i s with
  | Some c => Ascii.N_of_ascii c
  | None => 0
  end.

(** The table [first]: for a leading byte, the length of its sequence in
    the low three bits and the index into [acceptRanges] in the high four;
    0xF0 ([as]) for an ASCII byte, 0xF1 ([xx]) for a byte that leads
    nothing. *)
Definition utf8_first (b : N) : N :=
  (if b <? 0x80 then 0xF0
   else if b <? 0xC2 then 0xF1
   else if b <? 0xE0 then 0x02
   else if b =? 0xE0 then 0x13
   else if b <? 0xED then 0x03
   else if b =? 0xED then 0x23
   else if b <? 0xF0 then 0x03
   else if b =? 0xF0 then 0x34
   else if b <? 0xF4 then 0x04
   else if b =? 0xF4 then 0x44
   else 0xF1)%N.

(** The table [acceptRanges]: the bounds of the second byte. *)
Definition utf8_acceptRanges (i : N) : N * N :=
  match i with
  | 0 => (0x80, 0xBF)
  | 1 => (0xA0, 0xBF)
  | 2 => (0x80, 0x9F)
  | 3 => (0x90, 0xBF)
  | 4 => (0x80, 0x8F)
  | _ => (0, 0)
  end%N.

(** [utf8.DecodeRuneInString]: the first rune of [s] and the number of
    bytes it takes; [(RuneError, 1)] where the bytes are no well-formed
    UTF-8 sequence. *)
Definition utf8_DecodeRuneInString (s : string) : N * nat :=
  let n := String.length s in
  if (n <? 1)%nat then (utf8_RuneError, 0%nat)
  else
    let s0 := byte_at s 0 in
    let x := utf8_first s0 in
    if (0xF0 <=? x)%N then
      ((if N.testbit x 0 then utf8_RuneError else s0), 1%nat)
    else
      let sz := N.to_nat (N.land x 7) in
      let accept := utf8_acceptRanges (N.shiftr x 4) in
      if (n <? sz)%nat then (utf8_RuneError, 1%nat)
      else
        let s1 := byte_at s 1 in
        if ((s1 <? accept.1) || (accept.2 <? s1))%N then (utf8_RuneError, 1%nat)
        else if (sz <=? 2)%nat then
          (N.lor (N.shiftl (N.land s0 0x1F) 6) (N.land s1 0x3F), 2%nat)
        else
          let s2 := byte_at s 2 in
          if ((s2 <? 0x80) || (0xBF <? s2))%N then (utf8_RuneError, 1%nat)
          else if (sz <=? 3)%nat then
            (N.lor (N.lor (N.shiftl (N.land s0 0x0F) 12)
                          (N.shiftl (N.land s1 0x3F) 6))
                   (N.land s2 0x3F), 3%nat)
          else
            let s3 := byte_at s 3 in
            if ((s3 <? 0x80) || (0xBF <? s3))%N then (utf8_RuneError, 1%nat)
            else
              (N.lor (N.lor (N.lor (N.shiftl (N.land s0 0x07) 18)
                                   (N.shiftl (N.land s1 0x3F) 12))
                            (N.shiftl (N.land s2 0x3F) 6))
                     (N.land s3 0x3F), 4%nat).

(** *** encoding/json *)

Definition hex_digit (n : N) : ascii :=
  default "0"%char (String.list_ascii_of_string "0123456789abcdef" !! N.to_nat n).

(** A byte below [utf8.RuneSelf] inside a JSON string literal, as
    [json.Marshal] writes it (HTML escaping on). *)
Definition json_escape_byte (c : ascii) : string :=
  let n := Ascii.N_of_ascii c in
  if (n =? 34)%N then "\" +:+ dquote
  else if (n =? 92)%N then "\\"
  else if (n =? 8)%N then "\b"
  else if (n =? 12)%N then "\f"
  else if (n =? 10)%N then "\n"
  else if (n =? 13)%N then "\r"
  else if (n =? 9)%N then "\t"
  else if ((n <? 32) || (n =? 60) || (n =? 62) || (n =? 38))%N
       then "\u00" +:+ String (hex_digit (n / 16)) (String (hex_digit (n mod 16)) "")
  else String c "".

(** The escape of a code point by its hexadecimal digits. *)
Definition escape_u (hex : string) : string := String "\" (String "u" hex).

(** [s[k:]], and [s] itself where it is shorter than [k]. *)
Fixpoint string_drop (k : nat) (s : string) {struct s} : string :=
  match k, s with
  | S k', String _ rest => string_drop k' rest
  | _, _ => s
  end.

(** The contents of a JSON string literal, as [json.Marshal] writes them
    (the loop of [appendString], HTML escaping on).  A byte below
    [utf8.RuneSelf] goes through [json_escape_byte].  From any other byte
    on, a rune is decoded from the next four bytes at most: a byte that
    starts no well-formed sequence is written as the escape of U+FFFD, the
    separators U+2028 and U+2029 are written as their escapes, and any
    other sequence is copied. *)
Fixpoint json_escape (s : string) : string :=
  match s with
  | EmptyString => EmptyString
  | String b rest =>
      if (Ascii.N_of_ascii b <? 0x80)%N then json_escape_byte b +:+ json_escape rest
      else
        let n := Nat.min (String.length s) 4 in
        let '(c, size) := utf8_DecodeRuneInString (String.substring 0 n s) in
        if (c =? utf8_RuneError)%N && (size =? 1)%nat then
          escape_u "fffd" +:+ json_escape rest
        else if ((c =? 0x2028) || (c =? 0x2029))%N then
          escape_u (String "2" (String "0" (String "2"
                     (String (hex_digit (N.land c 0xF)) "")))) +:+
          json_escape (string_drop (size - 1) rest)
        else
          String.substring 0 size s +:+ json_escape (string_drop (size - 1) rest)
  end.

Definition json_string (s : string) : string := quoted (json_escape s).

(** The [jsonEscape] template function of the two template builders:
    [json.Marshal(s)] without its surrounding quotes. *)
Definition jsonEscape (s : string) : string := json_escape s.

Fixpoint insert_sorted (kv : string * string) (l : list (string * string))
  : list (string * string) :=
  match l with
  | [] => [kv]
  | kv' :: rest =>
      if String.leb kv.1 kv'.1 then kv :: l else kv' :: insert_sorted kv rest
  end.

Definition sort_by_key (l : list (string * string)) : list (string * string) :=
  foldr insert_sorted [] l.

Fixpoint join (sep : string) (l : list string) : string :=
  match l with
  | [] => ""
  | [x] => x
  | x :: rest => x +:+ sep +:+ join sep rest
  end.

(** The text [json.Marshal] produces: object keys in byte order, no
    spaces. *)
Fixpoint json_encode (v : value) : string :=
  match v with
  | VNil => "null"
  | VBool b => if b then "true" else "false"
  | VInt n => pretty n
  | VNumber lit => lit
  | VString s => json_string s
  | VList items => "[" +:+ join "," (json_encode <$> items) +:+ "]"
  | VMap entries =>
      "{" +:+
      join "," ((fun kv => json_string kv.1 +:+ ":" +:+ kv.2) <$>
                sort_by_key (map_to_list (json_encode <$> entries)))
      +:+ "}"
  end.

(** [json.Marshal]: every [value] can be encoded, so no error arises. *)
Definition json_Marshal (v : value) : result string := Ok (json_encode v).

(** *** time *)

(** A [time.Time], by the civil date and clock it shows in its own zone;
    [zone_offset] is in seconds east of UTC. *)
Record Time : Type := {
  year : Z;
  month : Z;
  day : Z;
  hour : Z;
  minute : Z;
  second : Z;
  zone_offset : Z
}.

(** Days from 1970-01-01 to a date of the proleptic Gregorian calendar. *)
Definition days_from_civil (y m d : Z) : Z :=
  let y' := if m <=? 2 then y - 1 else y in
  let era := y' / 400 in
  let yoe := y' - era * 400 in
  let doy := (153 * (if 2 <? m then m - 3 else m + 9) + 2) / 5 + d - 1 in
  let doe := yoe * 365 + yoe / 4 - yoe / 100 + doy in
  era * 146097 + doe - 719468.

(** [t.Unix()]. *)
Definition Unix (t : Time) : Z :=
  days_from_civil (year t) (month t) (day t) * 86400
  + hour t * 3600 + minute t * 60 + second t - zone_offset t.

Fixpoint zeros (n : nat) : string :=
  match n with
  | O => ""
  | S k => String "0" (zeros k)
  end.

(** [appendInt] of package time: decimal, zero-padded to [width]. *)
Definition appendInt (x : Z) (width : nat) : string :=
  let digits := pretty (Z.abs x) in
  (if x <? 0 then "-" else "") +:+
  zeros (width - String.length digits) +:+ digits.

(** [t.Format(time.RFC3339)], the layout [2006-01-02T15:04:05Z07:00]. *)
Definition Format_RFC3339 (t : Time) : string :=
  appendInt (year t) 4 +:+ "-" +:+ appendInt (month t) 2 +:+ "-" +:+
  appendInt (day t) 2 +:+ "T" +:+ appendInt (hour t) 2 +:+ ":" +:+
  appendInt (minute t) 2 +:+ ":" +:+ appendInt (second t) 2 +:+
  (if zone_offset t =? 0 then "Z"
   else
     let zone := Z.quot (zone_offset t) 60 in
     (if zone <? 0 then "-" else "+") +:+
     appendInt (Z.quot (Z.abs zone) 60) 2 +:+ ":" +:+
     appendInt (Z.rem (Z.abs zone) 60) 2).

(** The times whose fields are those of a date and a clock, in a zone less
    than a day from UTC. *)
Definition civil_time (t : Time) : Prop :=
  0 <= year t <= 9999 ∧ 1 <= month t <= 12 ∧ 1 <= day t <= 31 ∧
  0 <= hour t <= 23 ∧ 0 <= minute t <= 59 ∧ 0 <= second t <= 59 ∧
  -86400 < zone_offset t < 86400.

Definition is_digit (c : ascii) : bool :=
  ((48 <=? Ascii.N_of_ascii c) && (Ascii.N_of_ascii c <=? 57))%N.

(** [s] is [n] decimal digits. *)
Fixpoint digits_only (n : nat) (s : string) : bool :=
  match n, s with
  | O, EmptyString => true
  | S k, String c rest => is_digit c && digits_only k rest
  | _, _ => false
  end.

(** Reading [n] digits, or one given character, off the front of a text. *)
Fixpoint digits (n : nat) (s : string) : option string :=
  match n with
  | O => Some s
  | S k =>
      match s with
      | String c rest => if is_digit c then digits k rest else None
      | EmptyString => None
      end
  end.

Definition expect (c : ascii) (s : string) : option string :=
  match s with
  | String c' rest => if Ascii.eqb c c' then Some rest else None
  | EmptyString => None
  end.

Inductive piece : Type :=
| Digits (n : nat)
| Char (c : ascii).

(** Reading a sequence of pieces off the front of a text. *)
Fixpoint scan (pieces : list piece) (s : string) : option string :=
  match pieces with
  | [] => Some s
  | p :: pieces' =>
      match (match p with Digits n => digits n s | Char c => expect c s end) with
      | Some rest => scan pieces' rest
      | None => None
      end
  end.

(** The [date-time] of RFC 3339 without a fraction of a second:
    [dddd-dd-ddTdd:dd:dd] followed by [Z] or by a sign and [dd:dd]. *)
Definition rfc3339_date_time (s : string) : bool :=
  match
    scan [Digits 4; Char "-"; Digits 2; Char "-"; Digits 2; Char "T";
          Digits 2; Char ":"; Digits 2; Char ":"; Digits 2] s
  with
  | Some rest =>
      bool_decide (rest = "Z") ||
      bool_decide (scan [Char "+"; Digits 2; Char ":"; Digits 2] rest = Some "") ||
      bool_decide (scan [Char "-"; Digits 2; Char ":"; Digits 2] rest = Some "")
  | None => false
  end.

(** *** encoding/base64 *)

Definition base64_digit (n : N) : ascii :=
  default "A"%char
    (String.list_ascii_of_string
       "ABCDEFGHIJKLMNOPQRSTUVWXYZabcdefghijklmnopqrstuvwxyz0123456789+/"
     !! N.to_nat n).

Fixpoint base64_groups (bytes : list N) : string :=
  match bytes with
  | [] => ""
  | [a] =>
      String (base64_digit (a / 4))
        (String (base64_digit (a mod 4 * 16)) "==")
  | [a; b] =>
      String (base64_digit (a / 4))
        (String (base64_digit (a mod 4 * 16 + b / 16))
           (String (base64_digit (b mod 16 * 4)) "="))
  | a :: b :: c :: rest =>
      String (base64_digit (a / 4))
        (String (base64_digit (a mod 4 * 16 + b / 16))
           (String (base64_digit (b mod 16 * 4 + c / 64))
              (String (base64_digit (c mod 64)) (base64_groups rest))))
  end%N.

(** [base64.StdEncoding.EncodeToString([]byte(s))]. *)
Definition base64_EncodeToString (s : string) : string :=
  base64_groups (Ascii.N_of_ascii <$> String.list_ascii_of_string s).

(** *** The library functions left abstract *)

(** What the channel needs of [text/template], of [json.Unmarshal], of the
    Unicode case mappings and of [fmt]'s treatment of a [%s] operand that is
    not a string.  [template_Parse] receives the function map of
    [template.New("webhook").Funcs(...)]; [json_Unmarshal] is [None] when
    the Go call returns an error. *)
Class GoLib : Type := {
  template_t : Type;
  template_Parse : list (string * (string -> string)) -> string -> result template_t;
  template_Execute : template_t -> gmap string value -> result string;
  json_Unmarshal : string -> option value;
  unicode_ToUpper : string -> string;
  unicode_ToLower : string -> string;
  fmt_bad_verb_s : value -> string
}.

(** [strings.ToUpper] and [strings.ToLower]: a byte-wise mapping on ASCII
    text, the Unicode mapping otherwise. *)
Definition strings_ToUpper `{GoLib} (s : string) : string :=
  if isASCII s then map_bytes ascii_upper s else unicode_ToUpper s.

Definition strings_ToLower `{GoLib} (s : string) : string :=
  if isASCII s then map_bytes ascii_lower s else unicode_ToLower s.

(** What [fmt.Sprintf] prints for a [%s] verb. *)
Definition fmt_s `{GoLib} (v : value) : string :=
  match v with
  | VString s => s
  | _ => fmt_bad_verb_s v
  end.

(** *** Configuration and state *)

(** A [map[string]string] of the configuration is a reference into the
    store of maps; [None] is the nil map. *)
Definition loc : Type := nat.

Module CustomPayloadConfig.
(** Modelled from the spec: the declaration of
    [configure.CustomPayloadConfig] is not among the sources; the record
    has the fields webhook.go reads, with the types their uses fix. *)
Record t : Type := {
  Template : string;
  ContentType : string;
  Fields : option loc;
  TitleField : string;
  MessageField : string;
  IncludeTitle : bool;
  IncludeMessage : bool
}.
End CustomPayloadConfig.

(** Modelled from the spec: the declaration of [configure.WebhookConfig] is
    not among the sources; the record has the fields webhook.go reads, with
    the types their uses fix.  [CustomPayload] is a pointer in Go: [None] is
    nil. *)
Record WebhookConfig : Type := {
  URL : string;
  Method : string;
  Headers : option loc;
  AuthType : string;
  AuthToken : string;
  AuthUsername : string;
  AuthPassword : string;
  AuthHeader : string;
  Retries : Z;
  Timeout : Z;
  SkipTLSVerify : bool;
  CustomPayload : option CustomPayloadConfig.t;
  Template : string;
  Format : string;
  ContentType : string
}.

(** The arguments of one call of the HTTP helper: the request it is asked
    to issue.  [req_body] is [None] for a nil reader. *)
Record Request : Type := {
  req_url : string;
  req_method : string;
  req_body : option string;
  req_contentType : string;
  req_headers : gmap string string;
  req_maxRetries : Z;
  req_timeout : Z;
  req_skipTLSVerify : bool
}.

Record Response : Type := {
  resp_status : Z;
  resp_body : string
}.

(** What a call of [Send] can read or write: the configuration object the
    notifier points to, the store of string maps, and the requests put on
    the wire so far. *)
Record State : Type := {
  config : WebhookConfig;
  maps : gmap loc (gmap string string);
  wire : list Request
}.

(** The surroundings of a call: the process environment, the clock (the
    time the [n]-th call of [time.Now] returns, counted from 0 within one
    [Send]), and the peer's answer to the [n]-th request on the wire. *)
Record World : Type := {
  Getenv : string -> string;
  Now : nat -> Time;
  respond : nat -> Request -> Response
}.

(** Reading through a map reference; a nil map reads as empty. *)
Definition deref (h : gmap loc (gmap string string)) (r : option loc)
  : gmap string string :=
  match r with
  | None => ∅
  | Some l => default ∅ (h !! l)
  end.

(** *** A state monad for the methods that write *)

Definition M (A : Type) : Type := State -> A * State.

#[export] Instance M_ret : MRet M := fun A (a : A) st => (a, st).

#[export] Instance M_bind : MBind M :=
  fun A B (k : A -> M B) (c : M A) st => let (a, st') := c st in k a st'.

Definition read {A} (f : State -> A) : M A := fun st => (f st, st).

(** [make(map[string]string)]: a fresh, empty map. *)
Definition make_map : M loc :=
  fun st =>
    let l := fresh (dom (maps st)) in
    (l, {| config := config st; maps := <[l := ∅]> (maps st); wire := wire st |}).

(** [m[k] = v] on the map at [l]. *)
Definition map_assign (l : loc) (k v : string) : M unit :=
  fun st =>
    (tt, {| config := config st;
            maps := <[l := <[k := v]> (default ∅ (maps st !! l))]> (maps st);
            wire := wire st |}).

(** [for k, v := range m { body }], for a body that does not touch [m]. *)
Definition range (m : gmap string string) (body : string -> string -> M unit)
  : M unit :=
  map_fold (fun k v acc => acc ;; body k v) (mret tt) m.

(** [for k, v := range src { if keep k { dst[k] = f v } }] on map values. *)
Definition range_set {A B} (keep : string -> bool) (f : A -> B)
    (src : gmap string A) (dst : gmap string B) : gmap string B :=
  map_fold (fun k v acc => if keep k then <[k := f v]> acc else acc) dst src.

(** *** The channel *)

Definition newline : string := String "010" "".

Section Channel.
Context `{lib : GoLib} (world : World).

(** The receiver [w] of the reading methods is the state in which they
    run: [config w] is [w.config]. *)
Implicit Types (w : State) (data : gmap string value).

(** The function map both template builders install. *)
Definition template_funcs : list (string * (string -> string)) :=
  [("jsonEscape", jsonEscape)].

Definition buildTemplatePayloadWithData (templateStr : string) data
    (contentType : string) : result (value * string) :=
  match template_Parse template_funcs templateStr with
  | Err err => Err (Errorf_w "failed to parse template: " err)
  | Ok tmpl =>
      match template_Execute tmpl data with
      | Err err => Err (Errorf_w "failed to execute template: " err)
      | Ok buf =>
          match json_Unmarshal buf with
          | Some jsonData =>
              Ok (jsonData,
                  if bool_decide (contentType ≠ "") then contentType
                  else "application/json")
          | None =>
              Ok (VString buf,
                  if bool_decide (contentType ≠ "") then contentType
                  else "text/plain")
          end
      end
  end.

Definition buildTemplatePayload w data : result (value * string) :=
  match template_Parse template_funcs (Template (config w)) with
  | Err err => Err (Errorf_w "failed to parse template: " err)
  | Ok tmpl =>
      match template_Execute tmpl data with
      | Err err => Err (Errorf_w "failed to execute template: " err)
      | Ok buf =>
          match json_Unmarshal buf with
          | Some jsonData => Ok (jsonData, "application/json")
          | None =>
              Ok (VString buf,
                  if bool_decide (ContentType (config w) ≠ "")
                  then ContentType (config w) else "text/plain")
          end
      end
  end.

(** The test of the last loop of the structured branch of
    [buildCustomPayload]. *)
Definition template_names_key (template key : string) : bool :=
  bool_decide (key ≠ "Title") && bool_decide (key ≠ "Message") &&
  bool_decide (key ≠ "title") && bool_decide (key ≠ "message") &&
  bool_decide (key ≠ "timestamp") && bool_decide (key ≠ "service") &&
  bool_decide (key ≠ "environment") &&
  strings_Contains template (quoted key).

(** The data the custom payload works on: a copy of [data], the custom
    fields, then the title and message under their configured names. *)
Definition enhanced (customPayload : CustomPayloadConfig.t) w data
  : gmap string value :=
  let enhancedData := range_set (fun _ => true) id data ∅ in
  let enhancedData :=
    match CustomPayloadConfig.Fields customPayload with
    | Some l =>
        range_set (fun _ => true) VString (deref (maps w) (Some l)) enhancedData
    | None => enhancedData
    end in
  let enhancedData :=
    if bool_decide (CustomPayloadConfig.TitleField customPayload ≠ "")
       && CustomPayloadConfig.IncludeTitle customPayload
    then <[CustomPayloadConfig.TitleField customPayload := index data "title"]>
           enhancedData
    else enhancedData in
  if bool_decide (CustomPayloadConfig.MessageField customPayload ≠ "")
     && CustomPayloadConfig.IncludeMessage customPayload
  then <[CustomPayloadConfig.MessageField customPayload := index data "message"]>
         enhancedData
  else enhancedData.

(** [buildCustomPayload], called with [w.config.CustomPayload] not nil:
    [customPayload] is the structure it points to. *)
Definition buildCustomPayload (customPayload : CustomPayloadConfig.t) w data
  : result (value * string) :=
  let enhancedData := enhanced customPayload w data in
  let template := CustomPayloadConfig.Template customPayload in
  if bool_decide (template ≠ "") then
    if strings_Contains template (quoted "alert")
       && strings_Contains template (quoted "details")
    then
      let result : gmap string value :=
        <["details" := index enhancedData "Message"]>
          (<["alert" := index enhancedData "Title"]> ∅) in
      let result :=
        if strings_Contains template (quoted "env")
        then <["env" := index enhancedData "environment"]> result
        else result in
      let result :=
        if strings_Contains template (quoted "svc")
        then <["svc" := index enhancedData "service"]> result
        else result in
      let result :=
        range_set (template_names_key template) id enhancedData result in
      Ok (VMap result,
          if bool_decide (CustomPayloadConfig.ContentType customPayload ≠ "")
          then CustomPayloadConfig.ContentType customPayload
          else "application/json")
    else
      buildTemplatePayloadWithData template enhancedData
        (CustomPayloadConfig.ContentType customPayload)
  else
    Ok (VMap enhancedData,
        if bool_decide (CustomPayloadConfig.ContentType customPayload ≠ "")
        then CustomPayloadConfig.ContentType customPayload
        else "application/json").

Definition buildSlackFormat w data : gmap string value :=
  {[ "text" := VString ("*" +:+ fmt_s (index data "title") +:+ "*");
     "attachments" :=
       VList [ VMap {[ "color" := VString "danger";
                       "text" := index data "message";
                       "timestamp" := VInt (Unix (Now world 1));
                       "fields" :=
                         VList [ VMap {[ "title" := VString "Service";
                                         "value" := index data "service";
                                         "short" := VBool true ]} ] ]} ] ]}.

Definition buildDiscordFormat w data : gmap string value :=
  {[ "embeds" :=
       VList [ VMap {[ "title" := index data "title";
                       "description" := index data "message";
                       "color" := VInt 16711680;
                       "timestamp" := index data "timestamp";
                       "fields" :=
                         VList [ VMap {[ "name" := VString "Service";
                                         "value" := index data "service";
                                         "inline" := VBool true ]} ] ]} ] ]}.

Definition buildTeamsFormat w data : gmap string value :=
  {[ "@type" := VString "MessageCard";
     "@context" := VString "http://schema.org/extensions";
     "themeColor" := VString "FF0000";
     "summary" := index data "title";
     "sections" :=
       VList [ VMap {[ "activityTitle" := index data "title";
                       "activityText" := index data "message";
                       "facts" :=
                         VList [ VMap {[ "name" := VString "Service";
                                         "value" := index data "service" ]};
                                 VMap {[ "name" := VString "Timestamp";
                                         "value" := index data "timestamp" ]} ] ]} ] ]}.

Definition buildMattermostFormat w data : gmap string value :=
  {[ "text" :=
       VString ("## " +:+ fmt_s (index data "title") +:+ newline +:+ newline +:+
                fmt_s (index data "message") +:+ newline +:+ newline +:+
                "**Service:** " +:+ fmt_s (index data "service") +:+ newline +:+
                "**Time:** " +:+ fmt_s (index data "timestamp")) ]}.

Definition buildFormattedPayload w data : result (value * string) :=
  let format := strings_ToLower (Format (config w)) in
  if bool_decide (format = "slack") then
    Ok (VMap (buildSlackFormat w data), "application/json")
  else if bool_decide (format = "discord") then
    Ok (VMap (buildDiscordFormat w data), "application/json")
  else if bool_decide (format = "teams") then
    Ok (VMap (buildTeamsFormat w data), "application/json")
  else if bool_decide (format = "mattermost") then
    Ok (VMap (buildMattermostFormat w data), "application/json")
  else Ok (VMap data, "application/json").

(** The map [buildPayload] starts from. *)
Definition payload_data (title message : string) : gmap string value :=
  {[ "title" := VString title;
     "message" := VString message;
     "Title" := VString title;
     "Message" := VString message;
     "timestamp" := VString (Format_RFC3339 (Now world 0));
     "service" := VString "ponghub" ]}.

Definition buildPayload w (title message : string) : result (value * string) :=
  let data := payload_data title message in
  match CustomPayload (config w) with
  | Some customPayload => buildCustomPayload customPayload w data
  | None =>
      if bool_decide (Template (config w) ≠ "") then buildTemplatePayload w data
      else if bool_decide (Format (config w) ≠ "") then buildFormattedPayload w data
      else Ok (VMap data, "application/json")
  end.

Definition base64Encode (s : string) : string := base64_EncodeToString s.

(** [setAuthentication]: [headers] is the map the caller passes. *)
Definition setAuthentication (headers : loc) : M unit :=
  cfg ← read config;
  let authType := strings_ToLower (AuthType cfg) in
  if bool_decide (authType = "bearer") then
    if bool_decide (AuthToken cfg ≠ "")
    then map_assign headers "Authorization" ("Bearer " +:+ AuthToken cfg)
    else mret tt
  else if bool_decide (authType = "basic") then
    if bool_decide (AuthUsername cfg ≠ "") && bool_decide (AuthPassword cfg ≠ "")
    then
      let auth := AuthUsername cfg +:+ ":" +:+ AuthPassword cfg in
      map_assign headers "Authorization" ("Basic " +:+ base64Encode auth)
    else mret tt
  else if bool_decide (authType = "apikey") then
    if bool_decide (AuthToken cfg ≠ "") then
      if bool_decide (AuthHeader cfg ≠ "")
      then map_assign headers (AuthHeader cfg) (AuthToken cfg)
      else map_assign headers "X-API-Key" (AuthToken cfg)
    else mret tt
  else mret tt.

(** How a failed delivery is reported, which the specification leaves
    open: which status codes count as a retryable class of failure, and the
    text of the error. *)
Context (retryable_status : Z -> bool) (failure_message : Response -> string).

Definition is_2xx (r : Response) : bool :=
  (200 <=? resp_status r) && (resp_status r <? 300).

(** Modelled from the spec: the retry loop of
    [sendHTTPRequestWithCustomBody], which is not among the sources.  One
    attempt and, while the answer is not 2xx, up to [retries] more with the
    same request; after the last one a [WebhookError] with the status and
    body of the last answer. *)
Fixpoint attempt (retries : nat) (req : Request) : M (option error) :=
  fun st =>
    let resp := respond world (length (wire st)) req in
    let st' := {| config := config st; maps := maps st;
                  wire := wire st ++ [req] |} in
    if is_2xx resp then (None, st')
    else
      match retries with
      | O =>
          (Some (webhookError {| StatusCode := resp_status resp;
                                 Body := resp_body resp;
                                 Retryable := retryable_status (resp_status resp);
                                 Message := failure_message resp |}),
           st')
      | S k => attempt k req st'
      end.

(** Modelled from the spec: [sendHTTPRequestWithCustomBody] is declared in
    a file of the package that is not among the sources.  Following the
    Send path of the specification, it issues the request with the given
    timeout, takes a 2xx answer as success, otherwise retries up to
    [maxRetries] times without changing the payload, and after the last
    failed attempt returns a [WebhookError] with the last status and body
    and with whether that class of failure is retryable. *)
Definition sendHTTPRequestWithCustomBody (url method : string)
    (body : option string) (contentType : string)
    (headers : gmap string string) (maxRetries timeout : Z)
    (skipTLSVerify : bool) : M (option error) :=
  attempt (Z.to_nat maxRetries)
    {| req_url := url; req_method := method; req_body := body;
       req_contentType := contentType; req_headers := headers;
       req_maxRetries := maxRetries; req_timeout := timeout;
       req_skipTLSVerify := skipTLSVerify |}.

(** The reader [sendWithRetry] hands to the helper: nil for a nil
    payload, the text itself for a string, its JSON encoding otherwise. *)
Definition request_body (payload : value) : result (option string) :=
  match payload with
  | VNil => Ok None
  | VString v => Ok (Some v)
  | _ =>
      match json_Marshal payload with
      | Err err => Err (Errorf_w "failed to marshal payload: " err)
      | Ok jsonData => Ok (Some jsonData)
      end
  end.

Definition sendWithRetry (url method : string) (payload : value)
    (contentType : string) (headers : loc) : M (option error) :=
  cfg ← read config;
  let maxRetries := if 0 <? Retries cfg then Retries cfg else 0 in
  let timeout := if 0 <? Timeout cfg then Timeout cfg else 30 in
  match request_body payload with
  | Err err => mret (Some err)
  | Ok body =>
      sent ← read (fun w => default ∅ (maps w !! headers));
      skip ← read (fun w => SkipTLSVerify (config w));
      sendHTTPRequestWithCustomBody url method body contentType sent
        maxRetries timeout skip
  end.

(** [Send], run on the state that holds the notifier's configuration;
    [None] is the nil error. *)
Definition Send (title message : string) : M (option error) :=
  url ← read (fun w => URL (config w));
  let url := if bool_decide (url = "") then Getenv world "WEBHOOK_URL" else url in
  if bool_decide (url = "") then
    mret (Some (errorString "webhook URL not configured"))
  else
    built ← read (fun w => buildPayload w title message);
    match built with
    | Err err => mret (Some (Errorf_v "failed to build webhook payload: " err))
    | Ok (payload, contentType) =>
        configured ← read (fun w => Method (config w));
        let method :=
          if bool_decide (configured ≠ "") then strings_ToUpper configured
          else "POST" in
        headers ← make_map;
        source ← read (fun w => deref (maps w) (Headers (config w)));
        range source (map_assign headers);;
        authType ← read (fun w => AuthType (config w));
        (if bool_decide (authType ≠ "") then setAuthentication headers
         else mret tt);;
        sendWithRetry url method payload contentType headers
    end.

End Channel.

(** *** Concrete surroundings for the examples *)

(** An instance of [GoLib] that covers templates without actions, which
    render to their own text, the JSON literals [null], [true] and [false],
    and ASCII text; anything else is refused or left as it is. *)
Definition literal_Parse (funcs : list (string * (string -> string)))
    (text : string) : result string :=
  if strings_Contains text "{{"
  then Err (libError "template: webhook: actions are outside this instance")
  else Ok text.

Definition literal_Unmarshal (text : string) : option value :=
  if bool_decide (text = "null") then Some VNil
  else if bool_decide (text = "true") then Some (VBool true)
  else if bool_decide (text = "false") then Some (VBool false)
  else None.

Definition literal_lib : GoLib :=
  {| template_t := string;
     template_Parse := literal_Parse;
     template_Execute := fun tmpl _ => Ok tmpl;
     json_Unmarshal := literal_Unmarshal;
     unicode_ToUpper := fun s => s;
     unicode_ToLower := fun s => s;
     fmt_bad_verb_s := fun _ => "%!s(<nil>)" |}.

Definition sample_time : Time :=
  {| year := 2025; month := 10; day := 12; hour := 10; minute := 0;
     second := 0; zone_offset := 0 |}.

(** A world where [WEBHOOK_URL] is [webhook_url] and no other variable is
    set, whose peer answers the [n]-th request with the [n]-th status of
    [script], and with 200 after that. *)
Definition scripted (webhook_url : string) (script : list Z) : World :=
  {| Getenv := fun name =>
       if bool_decide (name = "WEBHOOK_URL") then webhook_url else "";
     Now := fun _ => sample_time;
     respond := fun n _ =>
       {| resp_status := default 200 (script !! n); resp_body := "answer" |} |}.

Definition status_5xx (status : Z) : bool := (500 <=? status) && (status <? 600).

Definition status_text (r : Response) : string :=
  "webhook request failed with status " +:+ pretty (resp_status r).

(** A configuration with only a URL and a method, the one of the first
    test of the package. *)
Definition basic_config : WebhookConfig :=
  {| URL := "http://hooks.example/notify"; Method := "POST"; Headers := None;
     AuthType := ""; AuthToken := ""; AuthUsername := ""; AuthPassword := "";
     AuthHeader := ""; Retries := 0; Timeout := 0; SkipTLSVerify := false;
     CustomPayload := None; Template := ""; Format := ""; ContentType := "" |}.

(** [NewWebhookNotifier(config)], before its first [Send]: the notifier
    points to [cfg], no map is allocated and nothing is on the wire. *)
Definition NewWebhookNotifier (cfg : WebhookConfig) : State :=
  {| config := cfg; maps := ∅; wire := [] |}.

(** The template of the specification's rendering example, and a custom
    payload that configures nothing but a template. *)
Definition alert_details_template : string :=
  "{" +:+ quoted "alert" +:+ ":" +:+ quoted "{{.Title}}" +:+ "," +:+
  quoted "details" +:+ ":" +:+ quoted "{{.Message}}" +:+ "}".

Definition template_only (template : string) : CustomPayloadConfig.t :=
  {| CustomPayloadConfig.Template := template;
     CustomPayloadConfig.ContentType := "";
     CustomPayloadConfig.Fields := None;
     CustomPayloadConfig.TitleField := "";
     CustomPayloadConfig.MessageField := "";
     CustomPayloadConfig.IncludeTitle := false;
     CustomPayloadConfig.IncludeMessage := false |}.

(** The JSON text of the specification's rendering example. *)
Definition alert_details_body : string :=
  "{" +:+ quoted "alert" +:+ ":" +:+ quoted "Service Down" +:+ "," +:+
  quoted "details" +:+ ":" +:+ quoted "DB failed" +:+ "}".

(** One member of a JSON object, as [json.Marshal] writes it. *)
Definition json_member (key : string) (v : value) : string :=
  json_string key +:+ ":" +:+ json_encode v.

(** The custom payload of the custom-payload test of the package: a
    template that names [env], and the field [environment] in the map at
    [fields]. *)
Definition environment_template : string :=
  "{" +:+ quoted "alert" +:+ ": " +:+ quoted "{{.Title}}" +:+ ", " +:+
  quoted "details" +:+ ": " +:+ quoted "{{.Message}}" +:+ ", " +:+
  quoted "env" +:+ ": " +:+ quoted "{{.environment}}" +:+ "}".

Definition with_fields (template : string) (fields : loc) : CustomPayloadConfig.t :=
  {| CustomPayloadConfig.Template := template;
     CustomPayloadConfig.ContentType := "application/json";
     CustomPayloadConfig.Fields := Some fields;
     CustomPayloadConfig.TitleField := "";
     CustomPayloadConfig.MessageField := "";
     CustomPayloadConfig.IncludeTitle := false;
     CustomPayloadConfig.IncludeMessage := false |}.

Definition custom_config (customPayload : CustomPayloadConfig.t) : WebhookConfig :=
  {| URL := "http://hooks.example/notify"; Method := "POST"; Headers := None;
     AuthType := ""; AuthToken := ""; AuthUsername := ""; AuthPassword := "";
     AuthHeader := ""; Retries := 0; Timeout := 0; SkipTLSVerify := false;
     CustomPayload := Some customPayload; Template := ""; Format := "";
     ContentType := "" |}.

Definition environment_body : string :=
  "{" +:+
  join ","
    [ quoted "alert" +:+ ":" +:+ quoted "Service Down";
      quoted "details" +:+ ":" +:+ quoted "Database connection failed";
      quoted "env" +:+ ":" +:+ quoted "production" ]
  +:+ "}".

(** The body of the first test of the package, as the default payload
    encodes it. *)
Definition basic_send_body : string :=
  "{" +:+
  join ","
    [ quoted "Message" +:+ ":" +:+ quoted "This is a test message";
      quoted "Title" +:+ ":" +:+ quoted "Test Alert";
      quoted "message" +:+ ":" +:+ quoted "This is a test message";
      quoted "service" +:+ ":" +:+ quoted "ponghub";
      quoted "timestamp" +:+ ":" +:+ quoted "2025-10-12T10:00:00Z";
      quoted "title" +:+ ":" +:+ quoted "Test Alert" ]
  +:+ "}".

(** The requests a run of [Send] from [w] adds to the wire. *)
Definition sent_by (w : State) (run : option error * State) : list Request :=
  drop (length (wire w)) (wire run.2).

(** A map reference of the configuration is allocated in [w] when it is
    nil or the store of [w] has a map at it. *)
Definition allocated (w : State) (r : option loc) : Prop :=
  match r with
  | None => True
  | Some l => is_Some (maps w !! l)
  end.

(** The answer to the [i]-th attempt of a delivery that starts in [st]. *)
Definition answer (world : World) (st : State) (req : Request) (i : nat)
  : Response :=
  respond world (length (wire st) + i) req.

(** *** Further definitions for the properties of the third part *)

(** The map [setAuthentication] leaves behind when it is given a map that
    holds [headers], under the configuration of [w]. *)
Definition headers_after_auth `{GoLib} (w : State)
    (headers : gmap string string) : gmap string string :=
  default ∅
    (maps (setAuthentication 0%nat
             {| config := config w; maps := {[ 0%nat := headers ]};
                wire := [] |}).2 !! 0%nat).

(** Configurations for the examples: one that differs from [basic_config]
    in its authentication and has its headers at location 0, one with a raw
    template and a content type, one with a preset format. *)
Definition auth_config (authType token username password header : string)
  : WebhookConfig :=
  {| URL := "http://hooks.example/notify"; Method := "POST"; Headers := Some 0%nat;
     AuthType := authType; AuthToken := token; AuthUsername := username;
     AuthPassword := password; AuthHeader := header;
     Retries := 0; Timeout := 0; SkipTLSVerify := false;
     CustomPayload := None; Template := ""; Format := ""; ContentType := "" |}.

Definition template_config (template contentType : string) : WebhookConfig :=
  {| URL := "http://hooks.example/notify"; Method := "POST"; Headers := None;
     AuthType := ""; AuthToken := ""; AuthUsername := ""; AuthPassword := "";
     AuthHeader := ""; Retries := 0; Timeout := 0; SkipTLSVerify := false;
     CustomPayload := None; Template := template; Format := "";
     ContentType := contentType |}.

Definition format_config (format : string) : WebhookConfig :=
  {| URL := "http://hooks.example/notify"; Method := "POST"; Headers := None;
     AuthType := ""; AuthToken := ""; AuthUsername := ""; AuthPassword := "";
     AuthHeader := ""; Retries := 0; Timeout := 0; SkipTLSVerify := false;
     CustomPayload := None; Template := ""; Format := format;
     ContentType := "" |}.

(** A notifier whose store holds [headers] at location 0. *)
Definition with_headers (cfg : WebhookConfig) (headers : gmap string string)
  : State :=
  {| config := cfg; maps := {[ 0%nat := headers ]}; wire := [] |}.

(** A custom payload with a template and a content type and nothing
    else. *)
Definition content_typed (template contentType : string) : CustomPayloadConfig.t :=
  {| CustomPayloadConfig.Template := template;
     CustomPayloadConfig.ContentType := contentType;
     CustomPayloadConfig.Fields := None;
     CustomPayloadConfig.TitleField := "";
     CustomPayloadConfig.MessageField := "";
     CustomPayloadConfig.IncludeTitle := false;
     CustomPayloadConfig.IncludeMessage := false |}.

(** A custom payload without template that maps the title and the message
    to names of its own and has its fields at [fields]. *)
Definition mapped (titleField messageField : string) (fields : loc)
  : CustomPayloadConfig.t :=
  {| CustomPayloadConfig.Template := "";
     CustomPayloadConfig.ContentType := "";
     CustomPayloadConfig.Fields := Some fields;
     CustomPayloadConfig.TitleField := titleField;
     CustomPayloadConfig.MessageField := messageField;
     CustomPayloadConfig.IncludeTitle := true;
     CustomPayloadConfig.IncludeMessage := true |}.

(** A custom template with [alert] and [details] in double quotes and an
    action that is left open. *)
Definition open_action_template : string :=
  "{" +:+ quoted "alert" +:+ ": " +:+ quoted "{{" +:+ ", " +:+
  quoted "details" +:+ ": 1}".

(** A custom template that names [env] and [svc] besides [alert] and
    [details]. *)
Definition env_svc_template : string :=
  "{" +:+ quoted "alert" +:+ ": " +:+ quoted "{{.Title}}" +:+ ", " +:+
  quoted "details" +:+ ": " +:+ quoted "{{.Message}}" +:+ ", " +:+
  quoted "env" +:+ ": " +:+ quoted "{{.environment}}" +:+ ", " +:+
  quoted "svc" +:+ ": " +:+ quoted "{{.service}}" +:+ "}".

(** A byte that may stand inside a JSON string literal as it is, and that
    HTML does not treat specially. *)
Definition plain_byte (c : ascii) : bool :=
  let n := Ascii.N_of_ascii c in
  ((32 <=? n) && negb (n =? 60) && negb (n =? 62) && negb (n =? 38))%N.

(** No double quote stands outside an escape sequence, and every backslash
    is followed by a character. *)
Fixpoint escapes_closed (s : string) : bool :=
  match s with
  | EmptyString => true
  | String c rest =>
      if Ascii.eqb c "\" then
        match rest with
        | String _ rest' => escapes_closed rest'
        | EmptyString => false
        end
      else if Ascii.eqb c "034" then false
      else escapes_closed rest
  end.

Definition hex_value (c : ascii) : option N :=
  let n := Ascii.N_of_ascii c in
  if ((48 <=? n) && (n <=? 57))%N then Some (n - 48)%N
  else if ((97 <=? n) && (n <=? 102))%N then Some (n - 87)%N
  else None.

(** Reading the contents of a JSON string literal back: the short escapes
    and the four-digit escapes below U+0100. *)
Fixpoint json_unescape (s : string) : option string :=
  match s with
  | EmptyString => Some EmptyString
  | String c rest =>
      if Ascii.eqb c "\" then
        match rest with
        | String "u" (String "0" (String "0" (String h (String l rest')))) =>
            match hex_value h, hex_value l with
            | Some x, Some y =>
                String (Ascii.ascii_of_N (16 * x + y)) <$> json_unescape rest'
            | _, _ => None
            end
        | String e rest' =>
            let plain :=
              if Ascii.eqb e "034" then Some "034"%char
              else if Ascii.eqb e "\" then Some "\"%char
              else if Ascii.eqb e "b" then Some "008"%char
              else if Ascii.eqb e "f" then Some "012"%char
              else if Ascii.eqb e "n" then Some "010"%char
              else if Ascii.eqb e "r" then Some "013"%char
              else if Ascii.eqb e "t" then Some "009"%char
              else None in
            match plain with
            | Some d => String d <$> json_unescape rest'
            | None => None
            end
        | EmptyString => None
        end
      else if Ascii.eqb c "034" then None
      else String c <$> json_unescape rest
  end.

(** Text outside ASCII, in UTF-8: the separators U+2028 and U+2029, a
    character of two bytes, one of four, and the replacement character
    U+FFFD itself. *)
Definition line_separator : string :=
  String "226" (String "128" (String "168" "")).

Definition paragraph_separator : string :=
  String "226" (String "128" (String "169" "")).

Definition e_acute : string := String "195" (String "169" "").

Definition grinning_face : string :=
  String "240" (String "159" (String "152" (String "128" ""))).

Definition replacement_character : string :=
  String "239" (String "191" (String "189" "")).

(** ** Part II. Properties *)

(** *** Loops over maps *)

Lemma lookup_range_set {A B} (keep : string -> bool) (f : A -> B)
    (src : gmap string A) (dst : gmap string B) (k : string) :
  range_set keep f src dst !! k =
    match src !! k with
    | Some v => if keep k then Some (f v) else dst !! k
    | None => dst !! k
    end.
Proof.
  unfold range_set.
  apply (map_fold_weak_ind (fun r m =>
    r !! k = match m !! k with
             | Some v => if keep k then Some (f v) else dst !! k
             | None => dst !! k
             end)).
  - by rewrite lookup_empty.
  - intros i x m r Hfresh IH.
    destruct (decide (i = k)) as [->|Hne].
    + rewrite lookup_insert_eq. rewrite Hfresh in IH.
      destruct (keep k); [by rewrite lookup_insert_eq | done].
    + rewrite (lookup_insert_ne m) by done.
      destruct (keep i); [by rewrite lookup_insert_ne | done].
Qed.

Lemma range_set_copy (data : gmap string value) :
  range_set (fun _ => true) id data ∅ = data.
Proof.
  apply map_eq; intros k. rewrite lookup_range_set, lookup_empty.
  by destruct (data !! k).
Qed.

(** Copying a map into the map at [l], entry by entry. *)
Lemma range_map_assign (st : State) (l : loc) (old source : gmap string string) :
  maps st !! l = Some old ->
  range source (map_assign l) st =
    (tt, {| config := config st; maps := <[l := source ∪ old]> (maps st);
            wire := wire st |}).
Proof.
  intros Hl. unfold range.
  apply (map_fold_weak_ind (fun (r : M unit) m =>
    r st = (tt, {| config := config st; maps := <[l := m ∪ old]> (maps st);
                   wire := wire st |}))).
  - rewrite (left_id_L ∅ (∪)), insert_id by done. by destruct st.
  - intros k v m r Hfresh IH.
    unfold mbind, M_bind. rewrite IH. unfold map_assign; simpl.
    rewrite lookup_insert_eq; simpl.
    by rewrite insert_insert_eq, insert_union_l.
Qed.

(** *** The attempts of the HTTP helper *)

Section Attempts.
Context (world : World) (retryable_status : Z -> bool)
  (failure_message : Response -> string).

#[local] Abbreviation attempt := (attempt world retryable_status failure_message).
#[local] Abbreviation answer := (answer world).

Lemma attempt_frame (retries : nat) (req : Request) (st : State) :
  config (attempt retries req st).2 = config st ∧
  maps (attempt retries req st).2 = maps st ∧
  ∃ k, (1 <= k <= S retries)%nat ∧
       wire (attempt retries req st).2 = wire st ++ replicate k req.
Proof.
  revert st. induction retries as [|n IH]; intros st; simpl.
  - destruct (is_2xx _); simpl; (split; [done|split; [done|]]);
      exists 1%nat; (split; [lia|done]).
  - destruct (is_2xx _); simpl.
    + split; [done|split; [done|]]. exists 1%nat. split; [lia|done].
    + specialize (IH {| config := config st; maps := maps st;
                        wire := wire st ++ [req] |}).
      simpl in IH. destruct IH as (Hc & Hm & k & Hk & Hw).
      split; [done|split; [done|]]. exists (S k). split; [lia|].
      rewrite Hw, <- app_assoc. done.
Qed.

Lemma attempt_success (retries k : nat) (req : Request) (st : State) :
  (k <= retries)%nat ->
  (∀ i, (i < k)%nat -> is_2xx (answer st req i) = false) ->
  is_2xx (answer st req k) = true ->
  attempt retries req st =
    (None, {| config := config st; maps := maps st;
              wire := wire st ++ replicate (S k) req |}).
Proof.
  unfold answer. revert k st.
  induction retries as [|n IH]; intros k st Hk Hfail Hok.
  - assert (k = 0%nat) as -> by lia. simpl.
    rewrite Nat.add_0_r in Hok. by rewrite Hok.
  - destruct k as [|k].
    + simpl. rewrite Nat.add_0_r in Hok. by rewrite Hok.
    + simpl. pose proof (Hfail 0%nat ltac:(lia)) as H0.
      rewrite Nat.add_0_r in H0. rewrite H0.
      rewrite (IH k); simpl.
      * by rewrite <- app_assoc.
      * lia.
      * intros i Hi. rewrite length_app; simpl.
        replace (length (wire st) + 1 + i)%nat
          with (length (wire st) + S i)%nat by lia.
        apply Hfail. lia.
      * rewrite length_app; simpl.
        replace (length (wire st) + 1 + k)%nat
          with (length (wire st) + S k)%nat by lia.
        done.
Qed.

Lemma attempt_exhausted (retries : nat) (req : Request) (st : State) :
  (∀ i, (i <= retries)%nat -> is_2xx (answer st req i) = false) ->
  attempt retries req st =
    (Some (webhookError
             {| StatusCode := resp_status (answer st req retries);
                Body := resp_body (answer st req retries);
                Retryable := retryable_status (resp_status (answer st req retries));
                Message := failure_message (answer st req retries) |}),
     {| config := config st; maps := maps st;
        wire := wire st ++ replicate (S retries) req |}).
Proof.
  unfold answer. revert st.
  induction retries as [|n IH]; intros st Hfail.
  - simpl. pose proof (Hfail 0%nat ltac:(lia)) as H0.
    rewrite Nat.add_0_r in *. by rewrite H0.
  - simpl. pose proof (Hfail 0%nat ltac:(lia)) as H0.
    rewrite Nat.add_0_r in H0. rewrite H0.
    rewrite IH; simpl.
    + rewrite length_app; simpl.
      replace (length (wire st) + 1 + n)%nat
        with (length (wire st) + S n)%nat by lia.
      by rewrite <- app_assoc.
    + intros i Hi. rewrite length_app; simpl.
      replace (length (wire st) + 1 + i)%nat
        with (length (wire st) + S i)%nat by lia.
      apply Hfail. lia.
Qed.

End Attempts.

(** *** The run of [Send] *)

Section Run.
Context `{lib : GoLib} (world : World) (retryable_status : Z -> bool)
  (failure_message : Response -> string).

#[local] Abbreviation send := (Send world retryable_status failure_message).
#[local] Abbreviation attempt := (attempt world retryable_status failure_message).

(** [setAuthentication] writes at most one entry, into the map it is
    given, which is the [Authorization] header in bearer mode. *)
Lemma setAuthentication_run (st : State) (l : loc) (old : gmap string string) :
  maps st !! l = Some old ->
  ∃ new,
    setAuthentication l st =
      (tt, {| config := config st; maps := <[l := new]> (maps st);
              wire := wire st |}) ∧
    (strings_ToLower (AuthType (config st)) = "bearer" ->
     AuthToken (config st) ≠ "" ->
     new !! "Authorization" = Some ("Bearer " +:+ AuthToken (config st))).
Proof.
  intros Hl.
  assert (Hsame : (tt, st) =
    (tt, {| config := config st; maps := <[l := old]> (maps st);
            wire := wire st |})).
  { rewrite insert_id by done. by destruct st. }
  unfold setAuthentication, mbind, M_bind, read, mret, M_ret, map_assign.
  repeat case_bool_decide; simpl; rewrite ?Hl; simpl;
    try (exists old; split; [exact Hsame|intros; congruence]);
    try (eexists; split; [reflexivity|]; intros;
         first [congruence | by rewrite lookup_insert_eq]).
  all: destruct (bool_decide _ && bool_decide _); simpl; rewrite ?Hl; simpl.
  all: try (exists old; split; [exact Hsame|intros; congruence]).
  all: eexists; split; [reflexivity|intros; congruence].
Qed.

(** Every payload has a request body: [json.Marshal] does not fail here. *)
Lemma request_body_total (payload : value) :
  ∃ body, request_body payload = Ok body.
Proof. destruct payload; simpl; eauto. Qed.

(** The URL [Send] posts to. *)
Lemma Send_no_url (w : State) (title message : string) :
  URL (config w) = "" -> Getenv world "WEBHOOK_URL" = "" ->
  send title message w = (Some (errorString "webhook URL not configured"), w).
Proof.
  intros Hurl Henv.
  unfold Send, mbind, M_bind, read, mret, M_ret.
  rewrite Hurl, Henv. done.
Qed.

Lemma url_known (w : State) :
  URL (config w) ≠ "" ∨ Getenv world "WEBHOOK_URL" ≠ "" ->
  bool_decide ((if bool_decide (URL (config w) = "")
                then Getenv world "WEBHOOK_URL" else URL (config w)) = "") = false.
Proof. intros [?|?]; repeat case_bool_decide; done. Qed.

Lemma Send_no_payload (w : State) (title message : string) (err : error) :
  URL (config w) ≠ "" ∨ Getenv world "WEBHOOK_URL" ≠ "" ->
  buildPayload world w title message = Err err ->
  send title message w =
    (Some (Errorf_v "failed to build webhook payload: " err), w).
Proof.
  intros Hurl Hbuild.
  unfold Send, mbind, M_bind, read, mret, M_ret.
  rewrite (url_known w Hurl), Hbuild. done.
Qed.

(** When a URL is known and the payload is built, [Send] hands one request
    to the HTTP helper, after it has written the headers into a map of its
    own. *)
Lemma Send_issues (w : State) (title message : string)
    (payload : value) (contentType : string) :
  URL (config w) ≠ "" ∨ Getenv world "WEBHOOK_URL" ≠ "" ->
  buildPayload world w title message = Ok (payload, contentType) ->
  ∃ body headers,
    request_body payload = Ok body ∧
    (AuthType (config w) = "" ->
     headers = deref (maps w) (Headers (config w))) ∧
    (strings_ToLower (AuthType (config w)) = "bearer" ->
     AuthToken (config w) ≠ "" ->
     headers !! "Authorization" = Some ("Bearer " +:+ AuthToken (config w))) ∧
    send title message w =
      attempt (Z.to_nat (if 0 <? Retries (config w) then Retries (config w) else 0))
        {| req_url := if bool_decide (URL (config w) = "")
                      then Getenv world "WEBHOOK_URL" else URL (config w);
           req_method := if bool_decide (Method (config w) ≠ "")
                         then strings_ToUpper (Method (config w)) else "POST";
           req_body := body;
           req_contentType := contentType;
           req_headers := headers;
           req_maxRetries := if 0 <? Retries (config w) then Retries (config w) else 0;
           req_timeout := if 0 <? Timeout (config w) then Timeout (config w) else 30;
           req_skipTLSVerify := SkipTLSVerify (config w) |}
        {| config := config w;
           maps := <[fresh (dom (maps w)) := headers]> (maps w);
           wire := wire w |}.
Proof.
  intros Hurl Hbuild.
  destruct (request_body_total payload) as [body Hbody].
  set (l := fresh (dom (maps w))).
  set (source := deref (maps w) (Headers (config w))).
  set (w1 := {| config := config w; maps := <[l := ∅]> (maps w); wire := wire w |}).
  assert (Hl : maps w !! l = None).
  { apply not_elem_of_dom, is_fresh. }
  assert (Hcopy : range source (map_assign l) w1 =
    (tt, {| config := config w; maps := <[l := source]> (maps w); wire := wire w |})).
  { rewrite (range_map_assign w1 l ∅ source) by apply lookup_insert_eq.
    subst w1; simpl. by rewrite insert_insert_eq, (right_id_L ∅ (∪)). }
  set (w2 := {| config := config w; maps := <[l := source]> (maps w); wire := wire w |}).
  destruct (setAuthentication_run w2 l source) as (new & Hauth & Hbearer);
    [apply lookup_insert_eq|].
  exists body.
  exists (if bool_decide (AuthType (config w) ≠ "") then new else source).
  split; [done|]. split; [by intros ->|]. split.
  { intros Hb Htok. case_bool_decide as Hty; [by apply Hbearer|].
    rewrite Hty in Hb. by vm_compute in Hb. }
  unfold Send, mbind, M_bind, read, mret, M_ret.
  rewrite (url_known w Hurl), Hbuild. unfold make_map. fold l. fold w1. simpl.
  assert (Hsrc : deref (<[l := ∅]> (maps w)) (Headers (config w)) = source).
  { subst source. unfold deref. destruct (Headers (config w)) as [l'|]; [|done].
    destruct (decide (l = l')) as [<-|Hne].
    - by rewrite lookup_insert_eq, Hl.
    - by rewrite lookup_insert_ne. }
  rewrite Hsrc, Hcopy. simpl.
  case_bool_decide as Hty.
  - subst w2. rewrite Hauth; simpl.
    unfold sendWithRetry, mbind, M_bind, read, mret, M_ret,
      sendHTTPRequestWithCustomBody; simpl.
    rewrite Hbody. cbn [maps config wire].
    rewrite insert_insert_eq, lookup_insert_eq. done.
  - unfold sendWithRetry, mbind, M_bind, read, mret, M_ret,
      sendHTTPRequestWithCustomBody; simpl.
    rewrite Hbody. cbn [maps config wire].
    rewrite lookup_insert_eq. done.
Qed.

(** The requests of one run are copies of one request, and there is at
    least one of them when a URL is known and the payload is built. *)
Lemma Send_requests (w : State) (title message : string)
    (payload : value) (contentType : string) :
  URL (config w) ≠ "" ∨ Getenv world "WEBHOOK_URL" ≠ "" ->
  buildPayload world w title message = Ok (payload, contentType) ->
  ∃ body headers k,
    request_body payload = Ok body ∧
    (AuthType (config w) = "" ->
     headers = deref (maps w) (Headers (config w))) ∧
    (strings_ToLower (AuthType (config w)) = "bearer" ->
     AuthToken (config w) ≠ "" ->
     headers !! "Authorization" = Some ("Bearer " +:+ AuthToken (config w))) ∧
    (1 <= k <= S (Z.to_nat (Z.max 0 (Retries (config w)))))%nat ∧
    sent_by w (send title message w) =
      replicate k
        {| req_url := if bool_decide (URL (config w) = "")
                      then Getenv world "WEBHOOK_URL" else URL (config w);
           req_method := if bool_decide (Method (config w) ≠ "")
                         then strings_ToUpper (Method (config w)) else "POST";
           req_body := body;
           req_contentType := contentType;
           req_headers := headers;
           req_maxRetries := if 0 <? Retries (config w) then Retries (config w) else 0;
           req_timeout := if 0 <? Timeout (config w) then Timeout (config w) else 30;
           req_skipTLSVerify := SkipTLSVerify (config w) |}.
Proof.
  intros Hknown Hbuild.
  destruct (Send_issues w title message payload contentType Hknown Hbuild)
    as (body & headers & Hbody & Hplain & Hbearer & Hrun).
  exists body, headers.
  match type of Hrun with
  | _ = attempt ?n ?req ?st =>
      destruct (attempt_frame world retryable_status failure_message n req st)
        as (_ & _ & k & Hk & Hwire)
  end.
  exists k. rewrite <- Hrun in Hwire. simpl in Hwire.
  repeat (split; [done|]). split.
  { destruct (Z.ltb_spec 0 (Retries (config w))); lia. }
  unfold sent_by. rewrite Hwire. by rewrite drop_app_length.
Qed.

Lemma Send_sent (w : State) (title message : string) :
  sent_by w (send title message w) = [] ∨
  ∃ payload contentType,
    (URL (config w) ≠ "" ∨ Getenv world "WEBHOOK_URL" ≠ "") ∧
    buildPayload world w title message = Ok (payload, contentType).
Proof.
  destruct (decide (URL (config w) = "" ∧ Getenv world "WEBHOOK_URL" = ""))
    as [[Hu He]|Hurl].
  { left. rewrite Send_no_url by done. unfold sent_by; simpl.
    by rewrite drop_all. }
  assert (Hknown : URL (config w) ≠ "" ∨ Getenv world "WEBHOOK_URL" ≠ "").
  { destruct (decide (URL (config w) = "")); [right|left]; naive_solver. }
  destruct (buildPayload world w title message) as [[payload contentType]|err]
    eqn:Hbuild.
  - right. by exists payload, contentType.
  - left. rewrite (Send_no_payload w title message err) by done.
    unfold sent_by; simpl. by rewrite drop_all.
Qed.

End Run.

(** *** Payload construction *)

(** C1. [buildPayload] selects the strategy that builds the payload by a
    fixed precedence: the custom-payload configuration when there is one;
    otherwise the raw template when it is not empty; otherwise the named
    preset format when it is not empty; otherwise the default JSON object,
    which is the data map itself. *)
Theorem buildPayload_precedence `{lib : GoLib} (world : World) (w : State)
    (title message : string) :
  let data := payload_data world title message in
  (∀ customPayload,
     CustomPayload (config w) = Some customPayload ->
     buildPayload world w title message =
       buildCustomPayload customPayload w data) ∧
  (CustomPayload (config w) = None -> Template (config w) ≠ "" ->
   buildPayload world w title message = buildTemplatePayload w data) ∧
  (CustomPayload (config w) = None -> Template (config w) = "" ->
   Format (config w) ≠ "" ->
   buildPayload world w title message = buildFormattedPayload world w data) ∧
  (CustomPayload (config w) = None -> Template (config w) = "" ->
   Format (config w) = "" ->
   buildPayload world w title message = Ok (VMap data, "application/json")).
Proof.
  intros data. unfold buildPayload. fold data.
  repeat split.
  - by intros customPayload ->.
  - intros -> Htemplate. by rewrite bool_decide_eq_true_2.
  - intros -> Htemplate Hformat.
    rewrite bool_decide_eq_false_2 by (by intros []).
    by rewrite bool_decide_eq_true_2.
  - intros -> Htemplate Hformat.
    rewrite !bool_decide_eq_false_2 by (by intros []). done.
Qed.

(** A configuration that sets all three of custom payload, template and
    format builds the custom payload; one that sets template and format
    renders the template. *)
Example precedence_custom_over_template_and_format :
  let cfg := {| URL := "http://hooks.example/notify"; Method := "";
                Headers := None; AuthType := ""; AuthToken := "";
                AuthUsername := ""; AuthPassword := ""; AuthHeader := "";
                Retries := 0; Timeout := 0; SkipTLSVerify := false;
                CustomPayload := Some (template_only "");
                Template := "plain text"; Format := "slack";
                ContentType := "" |} in
  buildPayload (lib := literal_lib) (scripted "" []) (NewWebhookNotifier cfg) "t" "m" =
    Ok (VMap (payload_data (scripted "" []) "t" "m"), "application/json").
Proof. vm_compute. reflexivity. Qed.

Example precedence_template_over_format :
  let cfg := {| URL := "http://hooks.example/notify"; Method := "";
                Headers := None; AuthType := ""; AuthToken := "";
                AuthUsername := ""; AuthPassword := ""; AuthHeader := "";
                Retries := 0; Timeout := 0; SkipTLSVerify := false;
                CustomPayload := None;
                Template := "plain text"; Format := "slack";
                ContentType := "" |} in
  buildPayload (lib := literal_lib) (scripted "" []) (NewWebhookNotifier cfg) "t" "m" =
    Ok (VString "plain text", "text/plain").
Proof. vm_compute. reflexivity. Qed.

(** C10. [buildTemplatePayload], once the raw template has rendered to
    [buf]: when [buf] is not valid JSON the payload is [buf] as a plain
    string, with the configured content type, or [text/plain] when none is
    configured; when [buf] parses as JSON the payload is the parsed value
    with content type [application/json]. *)
Theorem buildTemplatePayload_content_type `{lib : GoLib} (w : State)
    (data : gmap string value) (tmpl : template_t) (buf : string) :
  template_Parse template_funcs (Template (config w)) = Ok tmpl ->
  template_Execute tmpl data = Ok buf ->
  (json_Unmarshal buf = None ->
   buildTemplatePayload w data =
     Ok (VString buf,
         if bool_decide (ContentType (config w) = "") then "text/plain"
         else ContentType (config w))) ∧
  (∀ jsonData,
     json_Unmarshal buf = Some jsonData ->
     buildTemplatePayload w data = Ok (jsonData, "application/json")).
Proof.
  intros Hparse Hexec. unfold buildTemplatePayload.
  rewrite Hparse, Hexec. split.
  - intros ->. by repeat case_bool_decide.
  - by intros jsonData ->.
Qed.

Lemma buildTemplatePayload_content_type_witness :
  let cfg := {| URL := "http://hooks.example/notify"; Method := "";
                Headers := None; AuthType := ""; AuthToken := "";
                AuthUsername := ""; AuthPassword := ""; AuthHeader := "";
                Retries := 0; Timeout := 0; SkipTLSVerify := false;
                CustomPayload := None;
                Template := "service down"; Format := "";
                ContentType := "text/markdown" |} in
  buildTemplatePayload (lib := literal_lib) (NewWebhookNotifier cfg) ∅ =
    Ok (VString "service down", "text/markdown").
Proof.
  intros cfg.
  apply (proj1 (buildTemplatePayload_content_type (lib := literal_lib)
                  (NewWebhookNotifier cfg) ∅ "service down" "service down"
                  eq_refl eq_refl)).
  reflexivity.
Defined.

Example buildTemplatePayload_json_output :
  let cfg := {| URL := "http://hooks.example/notify"; Method := "";
                Headers := None; AuthType := ""; AuthToken := "";
                AuthUsername := ""; AuthPassword := ""; AuthHeader := "";
                Retries := 0; Timeout := 0; SkipTLSVerify := false;
                CustomPayload := None;
                Template := "true"; Format := "";
                ContentType := "text/markdown" |} in
  buildTemplatePayload (lib := literal_lib) (NewWebhookNotifier cfg) ∅ =
    Ok (VBool true, "application/json").
Proof. reflexivity. Qed.

(** *** The request of [Send] *)

(** C9. With an empty configured URL, [Send] uses the value of
    [WEBHOOK_URL]; when that is empty too it returns the error
    [webhook URL not configured] and leaves the state as it was: no request
    is issued, and the payload plays no part (the result is the same
    whether or not a payload could be built). *)
Theorem Send_url_fallback `{lib : GoLib} (world : World)
    (retryable_status : Z -> bool) (failure_message : Response -> string)
    (w : State) (title message : string) :
  URL (config w) = "" ->
  (Getenv world "WEBHOOK_URL" = "" ->
   Send world retryable_status failure_message title message w =
     (Some (errorString "webhook URL not configured"), w)) ∧
  (Getenv world "WEBHOOK_URL" ≠ "" ->
   (∀ req,
      req ∈ sent_by w (Send world retryable_status failure_message title message w) ->
      req_url req = Getenv world "WEBHOOK_URL") ∧
   (∀ payload contentType,
      buildPayload world w title message = Ok (payload, contentType) ->
      ∃ req rest,
        sent_by w (Send world retryable_status failure_message title message w)
          = req :: rest)).
Proof.
  intros Hurl. split; [by apply Send_no_url|].
  intros Henv. split.
  - intros req Hreq.
    destruct (Send_sent world retryable_status failure_message w title message)
      as [Hnone|(payload & contentType & Hknown & Hbuild)].
    { rewrite Hnone in Hreq. by apply elem_of_nil in Hreq. }
    destruct (Send_requests world retryable_status failure_message
                w title message payload contentType Hknown Hbuild)
      as (body & headers & k & _ & _ & _ & _ & Hsent).
    rewrite Hsent in Hreq. apply elem_of_replicate in Hreq as [-> _].
    simpl. by rewrite Hurl.
  - intros payload contentType Hbuild.
    destruct (Send_requests world retryable_status failure_message
                w title message payload contentType (or_intror Henv) Hbuild)
      as (body & headers & k & _ & _ & _ & Hk & Hsent).
    rewrite Hsent. destruct k as [|k]; [lia|]. simpl. eauto.
Qed.

Lemma Send_url_fallback_witness :
  let cfg := {| URL := ""; Method := "POST";
                Headers := None; AuthType := ""; AuthToken := "";
                AuthUsername := ""; AuthPassword := ""; AuthHeader := "";
                Retries := 2; Timeout := 0; SkipTLSVerify := false;
                CustomPayload := None;
                Template := "{{"; Format := "";
                ContentType := "" |} in
  Send (lib := literal_lib) (scripted "" []) status_5xx status_text
    "Service Down" "DB failed" (NewWebhookNotifier cfg) =
    (Some (errorString "webhook URL not configured"), NewWebhookNotifier cfg).
Proof.
  intros cfg.
  apply (proj1 (Send_url_fallback (lib := literal_lib) (scripted "" [])
                  status_5xx status_text (NewWebhookNotifier cfg)
                  "Service Down" "DB failed" eq_refl)).
  reflexivity.
Defined.

Example Send_url_from_environment :
  let cfg := {| URL := ""; Method := "POST";
                Headers := None; AuthType := ""; AuthToken := "";
                AuthUsername := ""; AuthPassword := ""; AuthHeader := "";
                Retries := 2; Timeout := 0; SkipTLSVerify := false;
                CustomPayload := None;
                Template := "down"; Format := "";
                ContentType := "" |} in
  let run := Send (lib := literal_lib) (scripted "http://env.example/hook" [])
               status_5xx status_text "Service Down" "DB failed" (NewWebhookNotifier cfg) in
  run.1 = None ∧ req_url <$> wire run.2 = ["http://env.example/hook"].
Proof. vm_compute. done. Qed.

(** C5. With authentication type [bearer] and a token [T] that is not
    empty, every request [Send] issues carries the header [Authorization]
    with the value [Bearer T]; and [Send] does issue a request as soon as a
    URL is known and the payload is built. *)
Theorem Send_bearer_authorization `{lib : GoLib} (world : World)
    (retryable_status : Z -> bool) (failure_message : Response -> string)
    (w : State) (title message : string) :
  AuthType (config w) = "bearer" ->
  AuthToken (config w) ≠ "" ->
  Forall (fun req =>
            req_headers req !! "Authorization" =
              Some ("Bearer " +:+ AuthToken (config w)))
    (sent_by w (Send world retryable_status failure_message title message w)) ∧
  (URL (config w) ≠ "" ∨ Getenv world "WEBHOOK_URL" ≠ "" ->
   ∀ payload contentType,
     buildPayload world w title message = Ok (payload, contentType) ->
     ∃ req rest,
       sent_by w (Send world retryable_status failure_message title message w)
         = req :: rest).
Proof.
  intros Hty Htoken. split.
  - apply Forall_forall. intros req Hreq.
    destruct (Send_sent world retryable_status failure_message w title message)
      as [Hnone|(payload & contentType & Hknown & Hbuild)].
    { rewrite Hnone in Hreq. by apply elem_of_nil in Hreq. }
    destruct (Send_requests world retryable_status failure_message
                w title message payload contentType Hknown Hbuild)
      as (body & headers & k & _ & _ & Hbearer & _ & Hsent).
    rewrite Hsent in Hreq. apply elem_of_replicate in Hreq as [-> _].
    simpl. apply Hbearer; [|done]. by rewrite Hty.
  - intros Hknown payload contentType Hbuild.
    destruct (Send_requests world retryable_status failure_message
                w title message payload contentType Hknown Hbuild)
      as (body & headers & k & _ & _ & _ & Hk & Hsent).
    rewrite Hsent. destruct k as [|k]; [lia|]. simpl. eauto.
Qed.

(** The configuration of the authentication test of the package. *)
Lemma Send_bearer_authorization_witness :
  let cfg := {| URL := "http://hooks.example/notify"; Method := "POST";
                Headers := None; AuthType := "bearer";
                AuthToken := "test-token-123";
                AuthUsername := ""; AuthPassword := ""; AuthHeader := "";
                Retries := 0; Timeout := 0; SkipTLSVerify := false;
                CustomPayload := None; Template := ""; Format := "";
                ContentType := "" |} in
  let run := Send (lib := literal_lib) (scripted "" []) status_5xx status_text
               "Test" "Test message" (NewWebhookNotifier cfg) in
  Forall (fun req =>
            req_headers req !! "Authorization" = Some "Bearer test-token-123")
    (sent_by (NewWebhookNotifier cfg) run) ∧
  ∃ req rest, sent_by (NewWebhookNotifier cfg) run = req :: rest.
Proof.
  intros cfg run.
  destruct (Send_bearer_authorization (lib := literal_lib) (scripted "" [])
              status_5xx status_text (NewWebhookNotifier cfg) "Test" "Test message"
              eq_refl ltac:(discriminate)) as [Hheader Hsent].
  split; [exact Hheader|].
  eapply Hsent; [left; discriminate|].
  vm_compute. reflexivity.
Defined.

(** C7, as amended. The method of every request [Send] issues is the
    configured method converted to upper case by [strings.ToUpper] when one
    is configured, and [POST] when the configured method is empty. *)
Theorem Send_method `{lib : GoLib} (world : World)
    (retryable_status : Z -> bool) (failure_message : Response -> string)
    (w : State) (title message : string) :
  Forall (fun req =>
            req_method req =
              if bool_decide (Method (config w) = "") then "POST"
              else strings_ToUpper (Method (config w)))
    (sent_by w (Send world retryable_status failure_message title message w)).
Proof.
  apply Forall_forall. intros req Hreq.
  destruct (Send_sent world retryable_status failure_message w title message)
    as [Hnone|(payload & contentType & Hknown & Hbuild)].
  { rewrite Hnone in Hreq. by apply elem_of_nil in Hreq. }
  destruct (Send_requests world retryable_status failure_message
              w title message payload contentType Hknown Hbuild)
    as (body & headers & k & _ & _ & _ & _ & Hsent).
  rewrite Hsent in Hreq. apply elem_of_replicate in Hreq as [-> _].
  simpl. by repeat case_bool_decide.
Qed.

(** A configured method in lower case does not reach the wire as it is
    configured. *)
Lemma Send_method_not_as_configured :
  let cfg := {| URL := "http://hooks.example/notify"; Method := "get";
                Headers := None; AuthType := ""; AuthToken := "";
                AuthUsername := ""; AuthPassword := ""; AuthHeader := "";
                Retries := 0; Timeout := 0; SkipTLSVerify := false;
                CustomPayload := None; Template := ""; Format := "";
                ContentType := "" |} in
  let run := Send (lib := literal_lib) (scripted "" []) status_5xx status_text
               "Test" "Test message" (NewWebhookNotifier cfg) in
  Method (config (NewWebhookNotifier cfg)) = "get" ∧
  req_method <$> sent_by (NewWebhookNotifier cfg) run = ["GET"].
Proof. vm_compute. done. Qed.

(** *** Delivery *)

Lemma retries_max (r : Z) : (if 0 <? r then r else 0) = Z.max 0 r.
Proof. destruct (Z.ltb_spec 0 r); lia. Qed.

(** C3. Once [Send] has a URL and a payload, it issues one request [req]
    whose body is the serialized payload, and with [retries] the configured
    retry count: if the answers to the first [k] attempts are not 2xx and
    the next one is, for some [k] up to [retries], [Send] returns no error,
    having put [k + 1] copies of the same request on the wire; if none of
    the [retries + 1] answers is 2xx, [Send] returns a [WebhookError] with
    the status and body of the last answer and with whether that status is
    of a retryable class, having put [retries + 1] copies of the request on
    the wire. *)
Theorem Send_delivery `{lib : GoLib} (world : World)
    (retryable_status : Z -> bool) (failure_message : Response -> string)
    (w : State) (title message : string) (payload : value)
    (contentType : string) :
  URL (config w) ≠ "" ∨ Getenv world "WEBHOOK_URL" ≠ "" ->
  buildPayload world w title message = Ok (payload, contentType) ->
  let run := Send world retryable_status failure_message title message w in
  let retries := Z.to_nat (Z.max 0 (Retries (config w))) in
  ∃ req,
    request_body payload = Ok (req_body req) ∧
    (∀ k, (k <= retries)%nat ->
       (∀ i, (i < k)%nat -> is_2xx (answer world w req i) = false) ->
       is_2xx (answer world w req k) = true ->
       run.1 = None ∧ sent_by w run = replicate (S k) req) ∧
    ((∀ i, (i <= retries)%nat -> is_2xx (answer world w req i) = false) ->
     run.1 =
       Some (webhookError
               {| StatusCode := resp_status (answer world w req retries);
                  Body := resp_body (answer world w req retries);
                  Retryable :=
                    retryable_status (resp_status (answer world w req retries));
                  Message := failure_message (answer world w req retries) |}) ∧
     sent_by w run = replicate (S retries) req).
Proof.
  intros Hknown Hbuild run retries.
  destruct (Send_issues world retryable_status failure_message
              w title message payload contentType Hknown Hbuild)
    as (body & headers & Hbody & _ & _ & Hrun).
  rewrite retries_max in Hrun. fold retries in Hrun. fold run in Hrun.
  match type of Hrun with
  | _ = attempt _ _ _ _ ?req ?st => exists req; set (w1 := st) in *
  end.
  split; [done|]. split.
  - intros k Hk Hfail Hok.
    rewrite (attempt_success world retryable_status failure_message
               retries k _ w1 Hk Hfail Hok) in Hrun.
    rewrite Hrun. split; [done|].
    unfold sent_by; simpl. by rewrite drop_app_length.
  - intros Hfail.
    rewrite (attempt_exhausted world retryable_status failure_message
               retries _ w1 Hfail) in Hrun.
    rewrite Hrun. split; [done|].
    unfold sent_by; simpl. by rewrite drop_app_length.
Qed.

(** The second scenario of the error-handling test of the package: three
    retries allowed, the peer answers 503, 503, 200. *)
Lemma Send_delivery_witness :
  let cfg := {| URL := "http://hooks.example/notify"; Method := "POST";
                Headers := None; AuthType := ""; AuthToken := "";
                AuthUsername := ""; AuthPassword := ""; AuthHeader := "";
                Retries := 3; Timeout := 5; SkipTLSVerify := false;
                CustomPayload := None; Template := ""; Format := "";
                ContentType := "" |} in
  let world := scripted "" [503; 503; 200] in
  let run := Send (lib := literal_lib) world status_5xx status_text
               "Test Alert" "Test message" (NewWebhookNotifier cfg) in
  ∃ req,
    request_body (VMap (payload_data world "Test Alert" "Test message"))
      = Ok (req_body req) ∧
    run.1 = None ∧ sent_by (NewWebhookNotifier cfg) run = [req; req; req].
Proof.
  intros cfg world run.
  destruct (Send_delivery (lib := literal_lib) world status_5xx status_text
              (NewWebhookNotifier cfg) "Test Alert" "Test message"
              (VMap (payload_data world "Test Alert" "Test message"))
              "application/json")
    as (req & Hbody & Hsuccess & _).
  - left; discriminate.
  - vm_compute. reflexivity.
  - exists req. split; [exact Hbody|].
    apply (Hsuccess 2%nat).
    + vm_compute. lia.
    + intros [|[|i]] Hi; [reflexivity|reflexivity|lia].
    + reflexivity.
Defined.

(** The first scenario of that test: no retry, the peer answers 500. *)
Example Send_reports_last_answer :
  let world := scripted "" [500] in
  let run := Send (lib := literal_lib) world status_5xx status_text
               "Test Alert" "Test message" (NewWebhookNotifier basic_config) in
  run.1 = Some (webhookError
                  {| StatusCode := 500; Body := "answer"; Retryable := true;
                     Message := "webhook request failed with status 500" |}) ∧
  length (sent_by (NewWebhookNotifier basic_config) run) = 1%nat.
Proof. vm_compute. done. Qed.

(** *** What [Send] leaves untouched *)

(** C8. [Send] does not write to the configuration of the notifier: after
    any call the configuration object is the one before the call, every map
    reference allocated before the call (the [Headers] map and the custom
    [Fields] map among them) reads as before, also when authentication
    headers are injected, and the only map of the store that differs is the
    one [Send] made for itself.  Calls on the same notifier thus share no
    state that any of them writes. *)
Theorem Send_frame `{lib : GoLib} (world : World)
    (retryable_status : Z -> bool) (failure_message : Response -> string)
    (w : State) (title message : string) :
  let run := Send world retryable_status failure_message title message w in
  config run.2 = config w ∧
  (∀ r, allocated w r -> deref (maps run.2) r = deref (maps w) r) ∧
  (∀ l, l ≠ fresh (dom (maps w)) -> maps run.2 !! l = maps w !! l).
Proof.
  intros run.
  assert (Hlocal : config run.2 = config w ∧
    ∀ l, l ≠ fresh (dom (maps w)) -> maps run.2 !! l = maps w !! l).
  { subst run.
    destruct (decide (URL (config w) = "" ∧ Getenv world "WEBHOOK_URL" = ""))
      as [[Hu He]|Hurl].
    { by rewrite Send_no_url. }
    assert (Hknown : URL (config w) ≠ "" ∨ Getenv world "WEBHOOK_URL" ≠ "").
    { destruct (decide (URL (config w) = "")); [right|left]; naive_solver. }
    destruct (buildPayload world w title message) as [[payload contentType]|err]
      eqn:Hbuild.
    - destruct (Send_issues world retryable_status failure_message
                  w title message payload contentType Hknown Hbuild)
        as (body & headers & _ & _ & _ & Hrun).
      rewrite Hrun.
      match goal with
      | |- context [attempt _ _ _ ?n ?req ?st] =>
          destruct (attempt_frame world retryable_status failure_message n req st)
            as (Hc & Hm & _)
      end.
      rewrite Hc, Hm. simpl. split; [done|].
      intros l Hl. by rewrite lookup_insert_ne.
    - by rewrite (Send_no_payload world retryable_status failure_message
                    w title message err). }
  destruct Hlocal as [Hconfig Hmaps].
  split; [done|]. split; [|done].
  intros [l|] Hr; [|done]. unfold deref. rewrite Hmaps; [done|].
  intros ->. destruct Hr as [m Hm].
  pose proof (is_fresh (dom (maps w))) as Hfresh.
  apply Hfresh, elem_of_dom. eauto.
Qed.

(** A notifier whose configured headers already hold an [Authorization]
    entry: the request carries the bearer token, the configured map keeps
    its own entry. *)
Example Send_keeps_configured_headers :
  let cfg := {| URL := "http://hooks.example/notify"; Method := "POST";
                Headers := Some 0%nat; AuthType := "bearer";
                AuthToken := "test-token-123";
                AuthUsername := ""; AuthPassword := ""; AuthHeader := "";
                Retries := 0; Timeout := 0; SkipTLSVerify := false;
                CustomPayload := None; Template := ""; Format := "";
                ContentType := "" |} in
  let configured : gmap string string :=
    {[ "Authorization" := "Basic b2xk"; "X-Source" := "ponghub" ]} in
  let w := {| config := cfg; maps := {[ 0%nat := configured ]}; wire := [] |} in
  let run := Send (lib := literal_lib) (scripted "" []) status_5xx status_text
               "Test" "Test message" w in
  map_to_list <$> (req_headers <$> sent_by w run) =
    [[("Authorization", "Bearer test-token-123"); ("X-Source", "ponghub")]] ∧
  map_to_list (deref (maps run.2) (Headers (config run.2))) =
    [("Authorization", "Basic b2xk"); ("X-Source", "ponghub")].
Proof. vm_compute. done. Qed.

(** *** The custom payload *)

Lemma lookup_enhanced (customPayload : CustomPayloadConfig.t)
    (w : State) (data : gmap string value) (k : string) :
  enhanced customPayload w data !! k =
    if bool_decide (CustomPayloadConfig.MessageField customPayload ≠ "")
       && CustomPayloadConfig.IncludeMessage customPayload
       && bool_decide (CustomPayloadConfig.MessageField customPayload = k)
    then Some (index data "message")
    else if bool_decide (CustomPayloadConfig.TitleField customPayload ≠ "")
            && CustomPayloadConfig.IncludeTitle customPayload
            && bool_decide (CustomPayloadConfig.TitleField customPayload = k)
    then Some (index data "title")
    else match deref (maps w) (CustomPayloadConfig.Fields customPayload) !! k with
         | Some v => Some (VString v)
         | None => data !! k
         end.
Proof.
  unfold enhanced.
  assert (Hfields :
    match CustomPayloadConfig.Fields customPayload with
    | Some l => range_set (fun _ => true) VString (deref (maps w) (Some l))
                  (range_set (fun _ => true) id data ∅)
    | None => range_set (fun _ => true) id data ∅
    end !! k =
    match deref (maps w) (CustomPayloadConfig.Fields customPayload) !! k with
    | Some v => Some (VString v)
    | None => data !! k
    end).
  { destruct (CustomPayloadConfig.Fields customPayload) as [l|].
    - rewrite lookup_range_set, range_set_copy. by destruct (_ !! k).
    - by rewrite range_set_copy. }
  destruct (bool_decide (CustomPayloadConfig.MessageField customPayload ≠ "")
            && CustomPayloadConfig.IncludeMessage customPayload);
  destruct (bool_decide (CustomPayloadConfig.TitleField customPayload ≠ "")
            && CustomPayloadConfig.IncludeTitle customPayload);
  simpl; rewrite ?lookup_insert; repeat case_decide;
  repeat case_bool_decide; simpl; try done; try congruence.
Qed.

(** The data map holds its six keys and nothing else. *)
Lemma lookup_payload_data_other (world : World) (title message k : string) :
  k ≠ "title" -> k ≠ "message" -> k ≠ "Title" -> k ≠ "Message" ->
  k ≠ "timestamp" -> k ≠ "service" ->
  payload_data world title message !! k = None.
Proof.
  intros. unfold payload_data.
  rewrite !lookup_insert_ne by done. by apply lookup_singleton_ne.
Qed.

Lemma template_names_key_data (world : World) (template title message k : string) :
  template_names_key template k = true ->
  payload_data world title message !! k = None.
Proof.
  unfold template_names_key. intros H.
  repeat (apply andb_prop in H as [H ?]).
  repeat match goal with
         | H : bool_decide _ = true |- _ => apply bool_decide_eq_true_1 in H
         end.
  by apply lookup_payload_data_other.
Qed.

Lemma index_payload_data (world : World) (title message : string) :
  index (payload_data world title message) "title" = VString title ∧
  index (payload_data world title message) "message" = VString message ∧
  index (payload_data world title message) "Title" = VString title ∧
  index (payload_data world title message) "Message" = VString message ∧
  index (payload_data world title message) "timestamp" =
    VString (Format_RFC3339 (Now world 0)) ∧
  index (payload_data world title message) "service" = VString "ponghub".
Proof.
  unfold index, payload_data.
  repeat split;
    repeat first [ rewrite lookup_insert_eq
                 | rewrite lookup_insert_ne by done
                 | rewrite lookup_singleton_eq ];
    done.
Qed.

(** The structured branch of [buildCustomPayload]: the two fixed members,
    [env] and [svc] when the template names them, and every other entry of
    the enhanced data whose quoted name occurs in the template. *)
Lemma buildCustomPayload_structured `{lib : GoLib}
    (customPayload : CustomPayloadConfig.t) (w : State)
    (data : gmap string value) :
  let template := CustomPayloadConfig.Template customPayload in
  let enhancedData := enhanced customPayload w data in
  strings_Contains template (quoted "alert") = true ->
  strings_Contains template (quoted "details") = true ->
  ∃ result,
    buildCustomPayload customPayload w data =
      Ok (VMap result,
          if bool_decide (CustomPayloadConfig.ContentType customPayload ≠ "")
          then CustomPayloadConfig.ContentType customPayload
          else "application/json") ∧
    ∀ k,
      result !! k =
        if template_names_key template k && bool_decide (is_Some (enhancedData !! k))
        then enhancedData !! k
        else if bool_decide (k = "svc") && strings_Contains template (quoted "svc")
        then Some (index enhancedData "service")
        else if bool_decide (k = "env") && strings_Contains template (quoted "env")
        then Some (index enhancedData "environment")
        else if bool_decide (k = "details") then Some (index enhancedData "Message")
        else if bool_decide (k = "alert") then Some (index enhancedData "Title")
        else None.
Proof.
  intros template enhancedData Halert Hdetails.
  assert (Hne : template ≠ "").
  { intros Heq. rewrite Heq in Halert. by vm_compute in Halert. }
  unfold buildCustomPayload. fold template. fold enhancedData.
  rewrite bool_decide_eq_true_2 by done.
  rewrite Halert, Hdetails. simpl.
  eexists. split; [reflexivity|].
  intros k. rewrite lookup_range_set.
  destruct (enhancedData !! k) as [v|] eqn:Hk; simpl.
  - rewrite ?andb_true_r.
    destruct (template_names_key template k) eqn:Hnames; [done|].
    destruct (strings_Contains template (quoted "svc"));
    destruct (strings_Contains template (quoted "env"));
    rewrite ?andb_true_r, ?andb_false_r;
    repeat case_bool_decide; subst;
    repeat first [ rewrite lookup_insert_eq
                 | rewrite lookup_insert_ne by done
                 | rewrite lookup_empty ];
    done.
  - rewrite ?andb_false_r.
    destruct (strings_Contains template (quoted "svc"));
    destruct (strings_Contains template (quoted "env"));
    rewrite ?andb_true_r, ?andb_false_r;
    repeat case_bool_decide; subst;
    repeat first [ rewrite lookup_insert_eq
                 | rewrite lookup_insert_ne by done
                 | rewrite lookup_empty ];
    done.
Qed.

(** *** What goes on the wire *)

Section Wire.
Context `{lib : GoLib} (world : World) (retryable_status : Z -> bool)
  (failure_message : Response -> string).

#[local] Abbreviation send := (Send world retryable_status failure_message).

(** A payload that is a map travels as its JSON encoding, under the content
    type its builder chose. *)
Lemma Send_body (w : State) (title message : string)
    (m : gmap string value) (contentType : string) :
  buildPayload world w title message = Ok (VMap m, contentType) ->
  Forall (fun req =>
            req_body req = Some (json_encode (VMap m)) ∧
            req_contentType req = contentType)
    (sent_by w (send title message w)).
Proof.
  intros Hbuild. apply Forall_forall. intros req Hreq.
  destruct (Send_sent world retryable_status failure_message w title message)
    as [Hnone|(payload & contentType' & Hknown & Hbuild')].
  { rewrite Hnone in Hreq. by apply elem_of_nil in Hreq. }
  destruct (Send_requests world retryable_status failure_message
              w title message (VMap m) contentType Hknown Hbuild)
    as (body & headers & k & Hbody & _ & _ & _ & Hsent).
  rewrite Hsent in Hreq. apply elem_of_replicate in Hreq as [-> _].
  simpl in *. split; [|done]. congruence.
Qed.

Lemma Send_sends (w : State) (title message : string)
    (payload : value) (contentType : string) :
  URL (config w) ≠ "" ∨ Getenv world "WEBHOOK_URL" ≠ "" ->
  buildPayload world w title message = Ok (payload, contentType) ->
  ∃ req rest, sent_by w (send title message w) = req :: rest.
Proof.
  intros Hknown Hbuild.
  destruct (Send_requests world retryable_status failure_message
              w title message payload contentType Hknown Hbuild)
    as (body & headers & k & _ & _ & _ & Hk & Hsent).
  rewrite Hsent. destruct k as [|k]; [lia|]. simpl. eauto.
Qed.

End Wire.

(** The payload of the structured branch when the custom payload adds
    nothing to the data and the template names neither [env] nor [svc]. *)
Lemma alert_details_payload `{lib : GoLib} (world : World) (w : State)
    (customPayload : CustomPayloadConfig.t) (title message : string) :
  CustomPayload (config w) = Some customPayload ->
  CustomPayloadConfig.Template customPayload = alert_details_template ->
  deref (maps w) (CustomPayloadConfig.Fields customPayload) = ∅ ->
  CustomPayloadConfig.TitleField customPayload = ""
    ∨ CustomPayloadConfig.IncludeTitle customPayload = false ->
  CustomPayloadConfig.MessageField customPayload = ""
    ∨ CustomPayloadConfig.IncludeMessage customPayload = false ->
  buildPayload world w title message =
    Ok (VMap {[ "alert" := VString title; "details" := VString message ]},
        if bool_decide (CustomPayloadConfig.ContentType customPayload ≠ "")
        then CustomPayloadConfig.ContentType customPayload
        else "application/json").
Proof.
  intros Hcustom Htemplate Hfields Htitle Hmessage.
  unfold buildPayload. rewrite Hcustom.
  set (data := payload_data world title message).
  destruct (buildCustomPayload_structured customPayload w data)
    as (result & -> & Hresult).
  { by rewrite Htemplate. }
  { by rewrite Htemplate. }
  do 3 f_equal. apply map_eq. intros k.
  assert (Henhanced : ∀ k', enhanced customPayload w data !! k' = data !! k').
  { intros k'. rewrite lookup_enhanced, Hfields, lookup_empty.
    destruct Htitle as [->| ->], Hmessage as [->| ->];
      rewrite ?andb_false_r; simpl; done. }
  assert (Hindex : ∀ k', index (enhanced customPayload w data) k' = index data k').
  { intros k'. unfold index. by rewrite Henhanced. }
  destruct (index_payload_data world title message)
    as (_ & _ & HTitle & HMessage & _ & _).
  rewrite Hresult, Henhanced, !Hindex, Htemplate. fold data in HTitle, HMessage.
  rewrite HTitle, HMessage.
  destruct (template_names_key alert_details_template k) eqn:Hnames.
  - pose proof (template_names_key_data world _ title message k Hnames)
      as Hnone.
    fold data in Hnone. rewrite Hnone. simpl.
    change (strings_Contains alert_details_template (quoted "svc")) with false.
    change (strings_Contains alert_details_template (quoted "env")) with false.
    rewrite !andb_false_r.
    repeat case_bool_decide; subst;
    repeat first [ rewrite lookup_insert_eq
                 | rewrite lookup_insert_ne by done
                 | rewrite lookup_singleton_eq
                 | rewrite lookup_singleton_ne by done ];
    done.
  - simpl.
    change (strings_Contains alert_details_template (quoted "svc")) with false.
    change (strings_Contains alert_details_template (quoted "env")) with false.
    rewrite !andb_false_r.
    repeat case_bool_decide; subst;
    repeat first [ rewrite lookup_insert_eq
                 | rewrite lookup_insert_ne by done
                 | rewrite lookup_singleton_eq
                 | rewrite lookup_singleton_ne by done ];
    done.
Qed.

(** C2. For a custom payload that configures the template
    [{"alert":"{{.Title}}","details":"{{.Message}}"}] and nothing that adds
    to the data (no custom field, no title or message field mapping), the
    payload built for the title [Service Down] and the message [DB failed]
    is the object with the two members [alert] and [details] and no other,
    and the body of every request [Send] issues is the JSON text
    [{"alert":"Service Down","details":"DB failed"}]; a request is issued
    as soon as a URL is known. *)
Theorem custom_template_rendering `{lib : GoLib} (world : World)
    (retryable_status : Z -> bool) (failure_message : Response -> string)
    (w : State) (customPayload : CustomPayloadConfig.t) :
  CustomPayload (config w) = Some customPayload ->
  CustomPayloadConfig.Template customPayload = alert_details_template ->
  deref (maps w) (CustomPayloadConfig.Fields customPayload) = ∅ ->
  CustomPayloadConfig.TitleField customPayload = ""
    ∨ CustomPayloadConfig.IncludeTitle customPayload = false ->
  CustomPayloadConfig.MessageField customPayload = ""
    ∨ CustomPayloadConfig.IncludeMessage customPayload = false ->
  let run := Send world retryable_status failure_message
               "Service Down" "DB failed" w in
  (∃ contentType,
     buildPayload world w "Service Down" "DB failed" =
       Ok (VMap {[ "alert" := VString "Service Down";
                   "details" := VString "DB failed" ]}, contentType)) ∧
  Forall (fun req => req_body req = Some alert_details_body) (sent_by w run) ∧
  (URL (config w) ≠ "" ∨ Getenv world "WEBHOOK_URL" ≠ "" ->
   ∃ req rest, sent_by w run = req :: rest).
Proof.
  intros Hcustom Htemplate Hfields Htitle Hmessage run.
  pose proof (alert_details_payload world w customPayload
                "Service Down" "DB failed"
                Hcustom Htemplate Hfields Htitle Hmessage) as Hbuild.
  split; [eauto|]. split.
  - eapply Forall_impl.
    + apply (Send_body world retryable_status failure_message _ _ _ _ _ Hbuild).
    + intros req [Hbody _]. rewrite Hbody. f_equal.
  - intros Hknown.
    by apply (Send_sends world retryable_status failure_message _ _ _ _ _
                Hknown Hbuild).
Qed.

(** The configuration of the real-world test of the package, with the
    title and message of the specification. *)
Lemma custom_template_rendering_witness :
  let cfg := {| URL := "http://hooks.example/notify"; Method := "POST";
                Headers := None; AuthType := ""; AuthToken := "";
                AuthUsername := ""; AuthPassword := ""; AuthHeader := "";
                Retries := 0; Timeout := 0; SkipTLSVerify := false;
                CustomPayload := Some (template_only alert_details_template);
                Template := ""; Format := ""; ContentType := "" |} in
  let run := Send (lib := literal_lib) (scripted "" []) status_5xx status_text
               "Service Down" "DB failed" (NewWebhookNotifier cfg) in
  Forall (fun req => req_body req = Some alert_details_body)
    (sent_by (NewWebhookNotifier cfg) run) ∧
  ∃ req rest, sent_by (NewWebhookNotifier cfg) run = req :: rest.
Proof.
  intros cfg run.
  destruct (custom_template_rendering (lib := literal_lib) (scripted "" [])
              status_5xx status_text (NewWebhookNotifier cfg)
              (template_only alert_details_template)
              eq_refl eq_refl eq_refl (or_introl eq_refl) (or_introl eq_refl))
    as (_ & Hbody & Hsent).
  split; [exact Hbody|].
  apply Hsent. left. discriminate.
Defined.

(** *** The timestamp *)

Lemma appendInt_digits_2 (x : Z) :
  0 <= x <= 99 -> digits_only 2 (appendInt x 2) = true.
Proof.
  intros Hx.
  assert (Hall : forallb (fun x => digits_only 2 (appendInt x 2)) (seqZ 0 100) = true)
    by (vm_compute; reflexivity).
  eapply forallb_forall in Hall; [exact Hall|].
  apply list_elem_of_In, elem_of_seqZ. lia.
Qed.

Lemma appendInt_digits_4 (x : Z) :
  0 <= x <= 9999 -> digits_only 4 (appendInt x 4) = true.
Proof.
  intros Hx.
  assert (Hall : forallb (fun x => digits_only 4 (appendInt x 4)) (seqZ 0 10000) = true)
    by (vm_compute; reflexivity).
  eapply forallb_forall in Hall; [exact Hall|].
  apply list_elem_of_In, elem_of_seqZ. lia.
Qed.

Lemma append_empty_r (s : string) : s +:+ "" = s.
Proof.
  induction s as [|c s IH]; [done|].
  change (String c (s +:+ "") = String c s). by rewrite IH.
Qed.

Lemma digits_append (n : nat) (a rest : string) :
  digits_only n a = true -> digits n (a +:+ rest) = Some rest.
Proof.
  revert a. induction n as [|n IH]; intros [|c a]; simpl; try done.
  intros [Hc Ha]%andb_prop. rewrite Hc. by apply IH.
Qed.

Lemma scan_digits (n : nat) (pieces : list piece) (a rest : string) :
  digits_only n a = true ->
  scan (Digits n :: pieces) (a +:+ rest) = scan pieces rest.
Proof. intros Ha. simpl. by rewrite digits_append. Qed.

Lemma scan_char (c : ascii) (pieces : list piece) (rest : string) :
  scan (Char c :: pieces) (String c "" +:+ rest) = scan pieces rest.
Proof. simpl. by rewrite Ascii.eqb_refl. Qed.

(** [Format(time.RFC3339)] of a civil time is an RFC 3339 date-time. *)
Lemma Format_RFC3339_shape (t : Time) :
  civil_time t -> rfc3339_date_time (Format_RFC3339 t) = true.
Proof.
  intros (Hy & Hmo & Hd & Hh & Hmi & Hs & Hz).
  unfold rfc3339_date_time, Format_RFC3339.
  rewrite scan_digits by (apply appendInt_digits_4; lia).
  rewrite scan_char, scan_digits by (apply appendInt_digits_2; lia).
  rewrite scan_char, scan_digits by (apply appendInt_digits_2; lia).
  rewrite scan_char, scan_digits by (apply appendInt_digits_2; lia).
  rewrite scan_char, scan_digits by (apply appendInt_digits_2; lia).
  rewrite scan_char, scan_digits by (apply appendInt_digits_2; lia).
  change (scan [] ?rest) with (Some rest). cbv beta iota.
  destruct (Z.eqb_spec (zone_offset t) 0) as [Hzero|Hzero]; [done|].
  set (zone := Z.quot (zone_offset t) 60).
  assert (Habs : 0 <= Z.abs zone < 1440).
  { subst zone. rewrite <- Z.quot_abs by lia.
    change (Z.abs 60) with 60.
    rewrite Z.quot_div_nonneg by lia.
    split; [apply Z.div_pos; lia|apply Z.div_lt_upper_bound; lia]. }
  assert (Hhours : digits_only 2 (appendInt (Z.quot (Z.abs zone) 60) 2) = true).
  { apply appendInt_digits_2. rewrite Z.quot_div_nonneg by lia.
    split; [apply Z.div_pos; lia|].
    assert (Z.abs zone / 60 < 24) by (apply Z.div_lt_upper_bound; lia). lia. }
  assert (Hminutes : digits_only 2 (appendInt (Z.rem (Z.abs zone) 60) 2) = true).
  { apply appendInt_digits_2. rewrite Z.rem_mod_nonneg by lia.
    pose proof (Z.mod_pos_bound (Z.abs zone) 60 ltac:(lia)). lia. }
  destruct (zone <? 0).
  - rewrite orb_true_iff. right. apply bool_decide_eq_true_2.
    rewrite scan_char, scan_digits, scan_char by done.
    rewrite <- (append_empty_r (appendInt _ 2)) at 1.
    by rewrite scan_digits.
  - rewrite orb_true_iff. left. rewrite orb_true_iff. right.
    apply bool_decide_eq_true_2.
    rewrite scan_char, scan_digits, scan_char by done.
    rewrite <- (append_empty_r (appendInt _ 2)) at 1.
    by rewrite scan_digits.
Qed.

(** *** The default payload *)

Lemma json_encode_VMap (m : gmap string value) :
  json_encode (VMap m) =
    "{" +:+
    join "," ((fun kv : string * string => json_string kv.1 +:+ ":" +:+ kv.2) <$>
              sort_by_key (map_to_list (json_encode <$> m)))
    +:+ "}".
Proof. reflexivity. Qed.

Lemma json_encode_payload_data (world : World) (title message : string) :
  json_encode (VMap (payload_data world title message)) =
    "{" +:+
    join ","
      [ json_member "Message" (VString message);
        json_member "Title" (VString title);
        json_member "message" (VString message);
        json_member "service" (VString "ponghub");
        json_member "timestamp" (VString (Format_RFC3339 (Now world 0)));
        json_member "title" (VString title) ]
    +:+ "}".
Proof.
  rewrite json_encode_VMap. unfold payload_data, json_member.
  rewrite !fmap_insert, map_fmap_singleton.
  generalize (json_encode (VString (Format_RFC3339 (Now world 0)))).
  generalize (json_encode (VString title)).
  generalize (json_encode (VString message)).
  generalize (json_encode (VString "ponghub")).
  intros service_text message_text title_text timestamp_text.
  vm_compute. reflexivity.
Qed.

Lemma dom_payload_data (world : World) (title message : string) :
  dom (payload_data world title message) =
    ({[ "title"; "message"; "Title"; "Message"; "timestamp"; "service" ]}
       : gset string).
Proof.
  unfold payload_data. rewrite !dom_insert_L, dom_singleton_L. set_solver.
Qed.

(** C4, as amended. With no custom payload, no template and no named
    format configured, the payload is the data map: the JSON object with
    the six keys [title], [message], [Title], [Message], [timestamp] and
    [service] and no other, where [Title] and [Message] repeat the title
    and the message, [timestamp] is the current time in the RFC 3339 layout
    and [service] is [ponghub]; every request [Send] issues has the
    encoding of that object as its body, with content type
    [application/json], and a request is issued as soon as a URL is
    known. *)
Theorem default_payload `{lib : GoLib} (world : World)
    (retryable_status : Z -> bool) (failure_message : Response -> string)
    (w : State) (title message : string) :
  CustomPayload (config w) = None ->
  Template (config w) = "" ->
  Format (config w) = "" ->
  let data := payload_data world title message in
  let run := Send world retryable_status failure_message title message w in
  buildPayload world w title message = Ok (VMap data, "application/json") ∧
  dom data =
    ({[ "title"; "message"; "Title"; "Message"; "timestamp"; "service" ]}
       : gset string) ∧
  json_encode (VMap data) =
    "{" +:+
    join ","
      [ json_member "Message" (VString message);
        json_member "Title" (VString title);
        json_member "message" (VString message);
        json_member "service" (VString "ponghub");
        json_member "timestamp" (VString (Format_RFC3339 (Now world 0)));
        json_member "title" (VString title) ]
    +:+ "}" ∧
  (civil_time (Now world 0) ->
   rfc3339_date_time (Format_RFC3339 (Now world 0)) = true) ∧
  Forall (fun req =>
            req_body req = Some (json_encode (VMap data)) ∧
            req_contentType req = "application/json")
    (sent_by w run) ∧
  (URL (config w) ≠ "" ∨ Getenv world "WEBHOOK_URL" ≠ "" ->
   ∃ req rest, sent_by w run = req :: rest).
Proof.
  intros Hcustom Htemplate Hformat data run.
  assert (Hbuild : buildPayload world w title message =
                     Ok (VMap data, "application/json")).
  { unfold buildPayload. by rewrite Hcustom, Htemplate, Hformat. }
  split; [done|].
  split; [apply dom_payload_data|].
  split; [apply json_encode_payload_data|].
  split; [apply Format_RFC3339_shape|].
  split.
  - by apply Send_body.
  - intros Hknown. by eapply Send_sends.
Qed.

(** The first test of the package. *)
Lemma default_payload_witness :
  let w := NewWebhookNotifier basic_config in
  let world := scripted "" [] in
  let run := Send (lib := literal_lib) world status_5xx status_text
               "Test Alert" "This is a test message" w in
  Forall (fun req =>
            req_body req =
              Some (json_encode
                      (VMap (payload_data world "Test Alert"
                               "This is a test message"))) ∧
            req_contentType req = "application/json")
    (sent_by w run) ∧
  ∃ req rest, sent_by w run = req :: rest.
Proof.
  intros w world run.
  destruct (default_payload (lib := literal_lib) world status_5xx status_text
              w "Test Alert" "This is a test message" eq_refl eq_refl eq_refl)
    as (_ & _ & _ & _ & Hbody & Hsent).
  split; [exact Hbody|].
  apply Hsent. left. discriminate.
Defined.

(** The body of that test has six members, [Title] and [Message] among
    them, not the four of [title], [message], [timestamp] and [service]. *)
Lemma default_body_has_six_members :
  let w := NewWebhookNotifier basic_config in
  let world := scripted "" [] in
  let run := Send (lib := literal_lib) world status_5xx status_text
               "Test Alert" "This is a test message" w in
  req_body <$> sent_by w run = [Some basic_send_body] ∧
  size (payload_data world "Test Alert" "This is a test message") = 6%nat.
Proof. vm_compute. done. Qed.

(** *** Custom fields *)

(** C6, as amended. A custom field [k] with value [v], whose name is not
    the one the title or the message is mapped to (by a [TitleField] or
    [MessageField] that is set and included), is merged into the data the
    custom payload is built from.  With no custom template the payload
    is that data, so [Send] transmits [k] with [v].  With a template that
    contains [alert] and [details] in double quotes, the payload holds [k]
    with [v] when [k] is none of [Title], [Message], [title], [message],
    [timestamp], [service], [environment] and the template contains [k] in
    double quotes, and otherwise does not hold [k] at all (unless [k] is one
    of the member names [alert], [details], [env], [svc]).  With any other
    template the payload is that template rendered on the merged data. *)
Theorem custom_fields_merged `{lib : GoLib} (world : World)
    (retryable_status : Z -> bool) (failure_message : Response -> string)
    (w : State) (customPayload : CustomPayloadConfig.t)
    (title message k v : string) :
  CustomPayload (config w) = Some customPayload ->
  deref (maps w) (CustomPayloadConfig.Fields customPayload) !! k = Some v ->
  CustomPayloadConfig.TitleField customPayload = ""
    ∨ CustomPayloadConfig.TitleField customPayload ≠ k
    ∨ CustomPayloadConfig.IncludeTitle customPayload = false ->
  CustomPayloadConfig.MessageField customPayload = ""
    ∨ CustomPayloadConfig.MessageField customPayload ≠ k
    ∨ CustomPayloadConfig.IncludeMessage customPayload = false ->
  let data := payload_data world title message in
  let template := CustomPayloadConfig.Template customPayload in
  let run := Send world retryable_status failure_message title message w in
  enhanced customPayload w data !! k = Some (VString v) ∧
  (template = "" ->
   ∃ m contentType,
     buildPayload world w title message = Ok (VMap m, contentType) ∧
     m !! k = Some (VString v) ∧
     Forall (fun req => req_body req = Some (json_encode (VMap m)))
       (sent_by w run)) ∧
  (strings_Contains template (quoted "alert") = true ->
   strings_Contains template (quoted "details") = true ->
   ∃ m contentType,
     buildPayload world w title message = Ok (VMap m, contentType) ∧
     (template_names_key template k = true -> m !! k = Some (VString v)) ∧
     (template_names_key template k = false ->
      k ≠ "alert" -> k ≠ "details" -> k ≠ "env" -> k ≠ "svc" ->
      m !! k = None) ∧
     Forall (fun req => req_body req = Some (json_encode (VMap m)))
       (sent_by w run)) ∧
  (template ≠ "" ->
   strings_Contains template (quoted "alert")
     && strings_Contains template (quoted "details") = false ->
   buildPayload world w title message =
     buildTemplatePayloadWithData template (enhanced customPayload w data)
       (CustomPayloadConfig.ContentType customPayload)).
Proof.
  intros Hcustom Hfield Htitle Hmessage data template run.
  assert (Hmerged : enhanced customPayload w data !! k = Some (VString v)).
  { assert (Ht : bool_decide (CustomPayloadConfig.TitleField customPayload ≠ "")
                 && CustomPayloadConfig.IncludeTitle customPayload
                 && bool_decide (CustomPayloadConfig.TitleField customPayload = k)
                 = false).
    { destruct Htitle as [Ht|[Ht|Ht]].
      - by rewrite Ht.
      - by rewrite (bool_decide_eq_false_2 _ Ht), andb_false_r.
      - by rewrite Ht, andb_false_r. }
    assert (Hm : bool_decide (CustomPayloadConfig.MessageField customPayload ≠ "")
                 && CustomPayloadConfig.IncludeMessage customPayload
                 && bool_decide (CustomPayloadConfig.MessageField customPayload = k)
                 = false).
    { destruct Hmessage as [Hm|[Hm|Hm]].
      - by rewrite Hm.
      - by rewrite (bool_decide_eq_false_2 _ Hm), andb_false_r.
      - by rewrite Hm, andb_false_r. }
    by rewrite lookup_enhanced, Ht, Hm, Hfield. }
  assert (Hbuild : buildPayload world w title message =
                     buildCustomPayload customPayload w data).
  { unfold buildPayload. by rewrite Hcustom. }
  split; [done|]. split; [|split].
  - intros Hempty.
    assert (Hpayload : buildPayload world w title message =
      Ok (VMap (enhanced customPayload w data),
          if bool_decide (CustomPayloadConfig.ContentType customPayload ≠ "")
          then CustomPayloadConfig.ContentType customPayload
          else "application/json")).
    { rewrite Hbuild. unfold buildCustomPayload. fold template.
      rewrite Hempty. done. }
    eexists _, _. split; [exact Hpayload|]. split; [done|].
    eapply Forall_impl.
    + apply (Send_body world retryable_status failure_message _ _ _ _ _ Hpayload).
    + by intros req [? _].
  - intros Halert Hdetails.
    destruct (buildCustomPayload_structured customPayload w data Halert Hdetails)
      as (m & Hpayload & Hlookup).
    rewrite <- Hbuild in Hpayload.
    exists m. eexists. split; [exact Hpayload|].
    fold template in Hlookup. fold data in Hlookup.
    split; [|split].
    + intros Hnames. by rewrite Hlookup, Hnames, Hmerged.
    + intros Hnames ? ? ? ?. rewrite Hlookup, Hnames. simpl.
      rewrite !bool_decide_eq_false_2 by done. done.
    + eapply Forall_impl.
      * apply (Send_body world retryable_status failure_message _ _ _ _ _ Hpayload).
      * by intros req [? _].
  - intros Hne Hother. rewrite Hbuild. unfold buildCustomPayload.
    fold template. fold data.
    rewrite bool_decide_eq_true_2 by done. by rewrite Hother.
Qed.

(** The custom-payload test of the package: the field [environment] is in
    the data, and the payload does not hold it under its name. *)
Lemma custom_fields_merged_witness :
  let customPayload := with_fields environment_template 0%nat in
  let w := {| config := custom_config customPayload;
              maps := {[ 0%nat := {[ "environment" := "production" ]} ]};
              wire := [] |} in
  let world := scripted "" [] in
  let data := payload_data world "Service Down" "Database connection failed" in
  enhanced customPayload w data !! "environment"
    = Some (VString "production") ∧
  ∃ m contentType,
    buildPayload (lib := literal_lib) world w
      "Service Down" "Database connection failed" = Ok (VMap m, contentType) ∧
    m !! "environment" = None.
Proof.
  intros customPayload w world data.
  assert (Hfield : deref (maps w) (CustomPayloadConfig.Fields customPayload)
                     !! "environment" = Some "production")
    by (vm_compute; reflexivity).
  assert (Halert : strings_Contains (CustomPayloadConfig.Template customPayload)
                     (quoted "alert") = true)
    by (vm_compute; reflexivity).
  assert (Hdetails : strings_Contains (CustomPayloadConfig.Template customPayload)
                       (quoted "details") = true)
    by (vm_compute; reflexivity).
  assert (Hnames : template_names_key (CustomPayloadConfig.Template customPayload)
                     "environment" = false)
    by (vm_compute; reflexivity).
  destruct (custom_fields_merged (lib := literal_lib) world status_5xx status_text
              w customPayload "Service Down" "Database connection failed"
              "environment" "production"
              eq_refl Hfield (or_introl eq_refl) (or_introl eq_refl))
    as (Hmerged & _ & Hstructured & _).
  split; [exact Hmerged|].
  destruct (Hstructured Halert Hdetails) as (m & contentType & Hbuild & _ & Hout & _).
  exists m, contentType. split; [exact Hbuild|].
  apply Hout; [exact Hnames|discriminate..].
Defined.

(** What that test receives: [env] carries the value of the field. *)
Example custom_payload_test_body :
  let customPayload := with_fields environment_template 0%nat in
  let w := {| config := custom_config customPayload;
              maps := {[ 0%nat := {[ "environment" := "production" ]} ]};
              wire := [] |} in
  let run := Send (lib := literal_lib) (scripted "" []) status_5xx status_text
               "Service Down" "Database connection failed" w in
  req_body <$> sent_by w run = [Some environment_body].
Proof. vm_compute. reflexivity. Qed.

(** A declared field that the template does not name is not transmitted:
    the body is the one of a configuration without the field. *)
Lemma declared_field_not_transmitted :
  let customPayload := with_fields alert_details_template 0%nat in
  let w := {| config := custom_config customPayload;
              maps := {[ 0%nat := {[ "team" := "operations" ]} ]};
              wire := [] |} in
  let run := Send (lib := literal_lib) (scripted "" []) status_5xx status_text
               "Service Down" "DB failed" w in
  deref (maps w) (CustomPayloadConfig.Fields customPayload) !! "team"
    = Some "operations" ∧
  req_body <$> sent_by w run = [Some alert_details_body].
Proof. vm_compute. done. Qed.

(** With no custom template the declared field travels under its name. *)
Example declared_field_without_template :
  let customPayload := with_fields "" 0%nat in
  let w := {| config := custom_config customPayload;
              maps := {[ 0%nat := {[ "team" := "operations" ]} ]};
              wire := [] |} in
  let world := scripted "" [] in
  buildPayload (lib := literal_lib) world w "Service Down" "DB failed" =
    Ok (VMap (<["team" := VString "operations"]>
                (payload_data world "Service Down" "DB failed")),
        "application/json").
Proof. vm_compute. reflexivity. Qed.

(** A custom field named [Title] replaces the title in the data, and with
    it the [alert] member of the structured branch. *)
Example custom_field_named_Title :
  let customPayload := with_fields alert_details_template 0%nat in
  let w := {| config := custom_config customPayload;
              maps := {[ 0%nat := {[ "Title" := "overridden" ]} ]};
              wire := [] |} in
  buildPayload (lib := literal_lib) (scripted "" []) w "Service Down" "DB failed" =
    Ok (VMap {[ "alert" := VString "overridden";
                "details" := VString "DB failed" ]},
        "application/json").
Proof. vm_compute. reflexivity. Qed.

(** *** Other authentication modes *)

Example basic_authorization_header :
  let cfg := {| URL := "http://hooks.example/notify"; Method := "POST";
                Headers := None; AuthType := "Basic"; AuthToken := "";
                AuthUsername := "user"; AuthPassword := "pass";
                AuthHeader := "";
                Retries := 0; Timeout := 0; SkipTLSVerify := false;
                CustomPayload := None; Template := ""; Format := "";
                ContentType := "" |} in
  let w := NewWebhookNotifier cfg in
  let run := Send (lib := literal_lib) (scripted "" []) status_5xx status_text
               "Test" "Test message" w in
  map_to_list <$> (req_headers <$> sent_by w run) =
    [[("Authorization", "Basic dXNlcjpwYXNz")]].
Proof. vm_compute. reflexivity. Qed.

Example api_key_header :
  let cfg := {| URL := "http://hooks.example/notify"; Method := "POST";
                Headers := None; AuthType := "apikey"; AuthToken := "secret";
                AuthUsername := ""; AuthPassword := ""; AuthHeader := "";
                Retries := 0; Timeout := 0; SkipTLSVerify := false;
                CustomPayload := None; Template := ""; Format := "";
                ContentType := "" |} in
  let w := NewWebhookNotifier cfg in
  let run := Send (lib := literal_lib) (scripted "" []) status_5xx status_text
               "Test" "Test message" w in
  map_to_list <$> (req_headers <$> sent_by w run) = [[("X-API-Key", "secret")]].
Proof. vm_compute. reflexivity. Qed.

(** ** Part III. Further properties of the channel *)

(** *** Authentication headers *)

Section Authentication.
Context `{lib : GoLib} (world : World) (retryable_status : Z -> bool)
  (failure_message : Response -> string).

#[local] Abbreviation send := (Send world retryable_status failure_message).
#[local] Abbreviation attempt := (attempt world retryable_status failure_message).

(** [setAuthentication] replaces the map it is given by
    [headers_after_auth] of it and touches nothing else. *)
Lemma setAuthentication_exact (st : State) (l : loc) (old : gmap string string) :
  maps st !! l = Some old ->
  setAuthentication l st =
    (tt, {| config := config st;
            maps := <[l := headers_after_auth st old]> (maps st);
            wire := wire st |}).
Proof.
  intros Hl.
  assert (Hsame : (tt, st) =
    (tt, {| config := config st; maps := <[l := old]> (maps st);
            wire := wire st |})).
  { rewrite insert_id by done. by destruct st. }
  unfold headers_after_auth, setAuthentication, mbind, M_bind, read, mret,
    M_ret, map_assign.
  cbn [config maps wire].
  repeat case_bool_decide; cbn [config maps wire fst snd];
    rewrite ?Hl, ?lookup_insert_eq, ?lookup_singleton_eq; simpl; try done.
  all: rewrite ?Hl, ?lookup_insert_eq; simpl;
    rewrite ?lookup_singleton_eq; simpl; done.
Qed.

(** The request of a run, with its headers spelled out: the configured
    headers, passed through [setAuthentication] when an authentication type
    is configured. *)
Lemma Send_requests_exact (w : State) (title message : string)
    (payload : value) (contentType : string) :
  URL (config w) ≠ "" ∨ Getenv world "WEBHOOK_URL" ≠ "" ->
  buildPayload world w title message = Ok (payload, contentType) ->
  ∃ body k,
    request_body payload = Ok body ∧
    (1 <= k <= S (Z.to_nat (Z.max 0 (Retries (config w)))))%nat ∧
    sent_by w (send title message w) =
      replicate k
        {| req_url := if bool_decide (URL (config w) = "")
                      then Getenv world "WEBHOOK_URL" else URL (config w);
           req_method := if bool_decide (Method (config w) ≠ "")
                         then strings_ToUpper (Method (config w)) else "POST";
           req_body := body;
           req_contentType := contentType;
           req_headers :=
             if bool_decide (AuthType (config w) ≠ "")
             then headers_after_auth w (deref (maps w) (Headers (config w)))
             else deref (maps w) (Headers (config w));
           req_maxRetries := if 0 <? Retries (config w) then Retries (config w) else 0;
           req_timeout := if 0 <? Timeout (config w) then Timeout (config w) else 30;
           req_skipTLSVerify := SkipTLSVerify (config w) |}.
Proof.
  intros Hknown Hbuild.
  destruct (request_body_total payload) as [body Hbody].
  set (l := fresh (dom (maps w))).
  set (source := deref (maps w) (Headers (config w))).
  set (w1 := {| config := config w; maps := <[l := ∅]> (maps w); wire := wire w |}).
  assert (Hl : maps w !! l = None).
  { apply not_elem_of_dom, is_fresh. }
  assert (Hcopy : range source (map_assign l) w1 =
    (tt, {| config := config w; maps := <[l := source]> (maps w); wire := wire w |})).
  { rewrite (range_map_assign w1 l ∅ source) by apply lookup_insert_eq.
    subst w1; simpl. by rewrite insert_insert_eq, (right_id_L ∅ (∪)). }
  pose proof (setAuthentication_exact
                {| config := config w; maps := <[l := source]> (maps w);
                   wire := wire w |} l source (lookup_insert_eq _ _ _)) as Hauth.
  change (headers_after_auth _ source) with (headers_after_auth w source) in Hauth.
  cbn [config maps wire] in Hauth.
  exists body.
  assert (Hrun : ∃ headers st,
    headers = (if bool_decide (AuthType (config w) ≠ "")
               then headers_after_auth w source else source) ∧
    send title message w =
      attempt (Z.to_nat (if 0 <? Retries (config w) then Retries (config w) else 0))
        {| req_url := if bool_decide (URL (config w) = "")
                      then Getenv world "WEBHOOK_URL" else URL (config w);
           req_method := if bool_decide (Method (config w) ≠ "")
                         then strings_ToUpper (Method (config w)) else "POST";
           req_body := body;
           req_contentType := contentType;
           req_headers := headers;
           req_maxRetries := if 0 <? Retries (config w) then Retries (config w) else 0;
           req_timeout := if 0 <? Timeout (config w) then Timeout (config w) else 30;
           req_skipTLSVerify := SkipTLSVerify (config w) |} st ∧
    wire st = wire w).
  { unfold Send, mbind, M_bind, read, mret, M_ret.
    rewrite (url_known world w Hknown), Hbuild. unfold make_map.
    fold l. fold w1. simpl.
    assert (Hsrc : deref (<[l := ∅]> (maps w)) (Headers (config w)) = source).
    { subst source. unfold deref. destruct (Headers (config w)) as [l'|]; [|done].
      destruct (decide (l = l')) as [<-|Hne].
      - by rewrite lookup_insert_eq, Hl.
      - by rewrite lookup_insert_ne. }
    rewrite Hsrc, Hcopy. simpl.
    case_bool_decide as Hty.
    - rewrite Hauth; simpl.
      unfold sendWithRetry, mbind, M_bind, read, mret, M_ret,
        sendHTTPRequestWithCustomBody; simpl.
      rewrite Hbody. cbn [maps config wire].
      rewrite lookup_insert_eq. simpl. eauto.
    - unfold sendWithRetry, mbind, M_bind, read, mret, M_ret,
        sendHTTPRequestWithCustomBody; simpl.
      rewrite Hbody. cbn [maps config wire].
      rewrite lookup_insert_eq. simpl. eauto. }
  destruct Hrun as (headers & st & -> & Hrun & Hst).
  match type of Hrun with
  | _ = attempt ?n ?req ?st =>
      destruct (attempt_frame world retryable_status failure_message n req st)
        as (_ & _ & k & Hk & Hwire)
  end.
  exists k. rewrite <- Hrun in Hwire. split; [done|]. split.
  { destruct (Z.ltb_spec 0 (Retries (config w))); lia. }
  unfold sent_by. rewrite Hwire, Hst. by rewrite drop_app_length.
Qed.

End Authentication.

Section AuthenticationModes.
Context `{lib : GoLib}.

Lemma headers_after_auth_bearer (w : State) (headers : gmap string string) :
  strings_ToLower (AuthType (config w)) = "bearer" ->
  AuthToken (config w) ≠ "" ->
  headers_after_auth w headers =
    <["Authorization" := "Bearer " +:+ AuthToken (config w)]> headers.
Proof.
  intros Hty Htoken.
  unfold headers_after_auth, setAuthentication, mbind, M_bind, read, mret,
    M_ret, map_assign.
  cbn [config maps wire]. rewrite Hty.
  rewrite (bool_decide_eq_true_2 ("bearer" = "bearer")) by done.
  rewrite (bool_decide_eq_true_2 _ Htoken).
  cbn [config maps wire fst snd].
  by rewrite lookup_insert_eq, lookup_singleton_eq.
Qed.

Lemma headers_after_auth_basic (w : State) (headers : gmap string string) :
  strings_ToLower (AuthType (config w)) = "basic" ->
  AuthUsername (config w) ≠ "" ->
  AuthPassword (config w) ≠ "" ->
  headers_after_auth w headers =
    <["Authorization" :=
        "Basic " +:+ base64Encode (AuthUsername (config w) +:+ ":" +:+
                                   AuthPassword (config w))]> headers.
Proof.
  intros Hty Huser Hpassword.
  unfold headers_after_auth, setAuthentication, mbind, M_bind, read, mret,
    M_ret, map_assign.
  cbn [config maps wire]. rewrite Hty.
  rewrite (bool_decide_eq_false_2 ("basic" = "bearer")) by done.
  rewrite (bool_decide_eq_true_2 ("basic" = "basic")) by done.
  rewrite (bool_decide_eq_true_2 _ Huser), (bool_decide_eq_true_2 _ Hpassword).
  cbn [andb config maps wire fst snd].
  by rewrite lookup_insert_eq, lookup_singleton_eq.
Qed.

Lemma headers_after_auth_apikey (w : State) (headers : gmap string string) :
  strings_ToLower (AuthType (config w)) = "apikey" ->
  AuthToken (config w) ≠ "" ->
  headers_after_auth w headers =
    <[(if bool_decide (AuthHeader (config w) ≠ "") then AuthHeader (config w)
       else "X-API-Key") := AuthToken (config w)]> headers.
Proof.
  intros Hty Htoken.
  unfold headers_after_auth, setAuthentication, mbind, M_bind, read, mret,
    M_ret, map_assign.
  cbn [config maps wire]. rewrite Hty.
  rewrite (bool_decide_eq_false_2 ("apikey" = "bearer")) by done.
  rewrite (bool_decide_eq_false_2 ("apikey" = "basic")) by done.
  rewrite (bool_decide_eq_true_2 ("apikey" = "apikey")) by done.
  rewrite (bool_decide_eq_true_2 _ Htoken).
  case_bool_decide; cbn [config maps wire fst snd];
    by rewrite lookup_insert_eq, lookup_singleton_eq.
Qed.

Lemma headers_after_auth_none (w : State) (headers : gmap string string) :
  (strings_ToLower (AuthType (config w)) = "bearer" ∧ AuthToken (config w) = "")
  ∨ (strings_ToLower (AuthType (config w)) = "basic" ∧
     (AuthUsername (config w) = "" ∨ AuthPassword (config w) = ""))
  ∨ (strings_ToLower (AuthType (config w)) = "apikey" ∧ AuthToken (config w) = "")
  ∨ (strings_ToLower (AuthType (config w)) ≠ "bearer" ∧
     strings_ToLower (AuthType (config w)) ≠ "basic" ∧
     strings_ToLower (AuthType (config w)) ≠ "apikey") ->
  headers_after_auth w headers = headers.
Proof.
  intros Hnone.
  unfold headers_after_auth, setAuthentication, mbind, M_bind, read, mret,
    M_ret, map_assign.
  cbn [config maps wire].
  destruct Hnone as [[Hty Ht]|[[Hty Hc]|[[Hty Ht]|(Hb & Hc & Ha)]]].
  - rewrite Hty, Ht. simpl. by rewrite lookup_singleton_eq.
  - rewrite Hty.
    rewrite (bool_decide_eq_false_2 ("basic" = "bearer")) by done.
    rewrite (bool_decide_eq_true_2 ("basic" = "basic")) by done.
    destruct Hc as [Hc|Hc]; rewrite Hc; rewrite ?andb_false_r; simpl;
      by rewrite lookup_singleton_eq.
  - rewrite Hty, Ht. simpl. by rewrite lookup_singleton_eq.
  - rewrite !bool_decide_eq_false_2 by done. simpl.
    by rewrite lookup_singleton_eq.
Qed.

End AuthenticationModes.

Lemma ToLower_of_empty `{lib : GoLib} (name : string) :
  name ≠ "" -> strings_ToLower "" ≠ name.
Proof. intros Hname Heq. by vm_compute in Heq. Qed.

(** X1. Bearer mode, whatever the case of the configured type: the headers
    of every request are the configured headers with [Authorization] set
    to [Bearer] and the token, replacing a configured [Authorization]. *)
Theorem Send_bearer_headers `{lib : GoLib} (world : World)
    (retryable_status : Z -> bool) (failure_message : Response -> string)
    (w : State) (title message : string) (payload : value)
    (contentType : string) :
  URL (config w) ≠ "" ∨ Getenv world "WEBHOOK_URL" ≠ "" ->
  buildPayload world w title message = Ok (payload, contentType) ->
  strings_ToLower (AuthType (config w)) = "bearer" ->
  AuthToken (config w) ≠ "" ->
  ∃ k, (1 <= k)%nat ∧
    req_headers <$>
      sent_by w (Send world retryable_status failure_message title message w) =
    replicate k (<["Authorization" := "Bearer " +:+ AuthToken (config w)]>
                   (deref (maps w) (Headers (config w)))).
Proof.
  intros Hknown Hbuild Hty Htoken.
  destruct (Send_requests_exact world retryable_status failure_message
              w title message payload contentType Hknown Hbuild)
    as (body & k & _ & Hk & Hsent).
  exists k. split; [lia|]. rewrite Hsent, fmap_replicate. simpl. f_equal.
  rewrite bool_decide_eq_true_2.
  - by apply headers_after_auth_bearer.
  - intros Hempty. rewrite Hempty in Hty. by apply ToLower_of_empty in Hty.
Qed.

Lemma Send_bearer_headers_witness :
  let w := with_headers (auth_config "Bearer" "test-token-123" "" "" "")
             {[ "Authorization" := "Basic b2xk"; "X-Source" := "ponghub" ]} in
  let run := Send (lib := literal_lib) (scripted "" []) status_5xx status_text
               "Test" "Test message" w in
  ∃ k, (1 <= k)%nat ∧
    req_headers <$> sent_by w run =
    replicate k (<["Authorization" := "Bearer test-token-123"]>
                   ({[ "Authorization" := "Basic b2xk";
                       "X-Source" := "ponghub" ]} : gmap string string)).
Proof.
  intros w run.
  assert (Hbuild : buildPayload (lib := literal_lib) (scripted "" []) w
                     "Test" "Test message" =
                   Ok (VMap (payload_data (scripted "" []) "Test" "Test message"),
                       "application/json"))
    by (vm_compute; reflexivity).
  assert (Hty : @strings_ToLower literal_lib (AuthType (config w)) = "bearer")
    by (vm_compute; reflexivity).
  assert (Htoken : AuthToken (config w) ≠ "") by (vm_compute; discriminate).
  assert (Hurl : URL (config w) ≠ "") by (vm_compute; discriminate).
  destruct (Send_bearer_headers (lib := literal_lib) (scripted "" []) status_5xx
              status_text w "Test" "Test message" _ _
              (or_introl Hurl) Hbuild Hty Htoken) as (k & Hk & Hsent).
  exists k. split; [exact Hk|]. subst run. rewrite Hsent.
  apply (f_equal (replicate k)). vm_compute. reflexivity.
Defined.

(** X2. Basic mode with a user name and a password: the headers of every
    request are the configured headers with [Authorization] set to [Basic]
    and the base64 encoding of [username:password]. *)
Theorem Send_basic_headers `{lib : GoLib} (world : World)
    (retryable_status : Z -> bool) (failure_message : Response -> string)
    (w : State) (title message : string) (payload : value)
    (contentType : string) :
  URL (config w) ≠ "" ∨ Getenv world "WEBHOOK_URL" ≠ "" ->
  buildPayload world w title message = Ok (payload, contentType) ->
  strings_ToLower (AuthType (config w)) = "basic" ->
  AuthUsername (config w) ≠ "" ->
  AuthPassword (config w) ≠ "" ->
  ∃ k, (1 <= k)%nat ∧
    req_headers <$>
      sent_by w (Send world retryable_status failure_message title message w) =
    replicate k
      (<["Authorization" :=
           "Basic " +:+ base64_EncodeToString
                          (AuthUsername (config w) +:+ ":" +:+
                           AuthPassword (config w))]>
         (deref (maps w) (Headers (config w)))).
Proof.
  intros Hknown Hbuild Hty Huser Hpassword.
  destruct (Send_requests_exact world retryable_status failure_message
              w title message payload contentType Hknown Hbuild)
    as (body & k & _ & Hk & Hsent).
  exists k. split; [lia|]. rewrite Hsent, fmap_replicate. simpl. f_equal.
  rewrite bool_decide_eq_true_2.
  - by apply headers_after_auth_basic.
  - intros Hempty. rewrite Hempty in Hty. by apply ToLower_of_empty in Hty.
Qed.

Lemma Send_basic_headers_witness :
  let w := with_headers (auth_config "basic" "" "user" "pass" "")
             {[ "X-Source" := "ponghub" ]} in
  let run := Send (lib := literal_lib) (scripted "" []) status_5xx status_text
               "Test" "Test message" w in
  ∃ k, (1 <= k)%nat ∧
    req_headers <$> sent_by w run =
    replicate k (<["Authorization" := "Basic dXNlcjpwYXNz"]>
                   ({[ "X-Source" := "ponghub" ]} : gmap string string)).
Proof.
  intros w run.
  assert (Hbuild : buildPayload (lib := literal_lib) (scripted "" []) w
                     "Test" "Test message" =
                   Ok (VMap (payload_data (scripted "" []) "Test" "Test message"),
                       "application/json"))
    by (vm_compute; reflexivity).
  assert (Hty : @strings_ToLower literal_lib (AuthType (config w)) = "basic")
    by (vm_compute; reflexivity).
  assert (Huser : AuthUsername (config w) ≠ "") by (vm_compute; discriminate).
  assert (Hpassword : AuthPassword (config w) ≠ "") by (vm_compute; discriminate).
  assert (Hurl : URL (config w) ≠ "") by (vm_compute; discriminate).
  destruct (Send_basic_headers (lib := literal_lib) (scripted "" []) status_5xx
              status_text w "Test" "Test message" _ _
              (or_introl Hurl) Hbuild Hty Huser Hpassword) as (k & Hk & Hsent).
  exists k. split; [exact Hk|]. subst run. rewrite Hsent.
  apply (f_equal (replicate k)). vm_compute. reflexivity.
Defined.

(** X3. API-key mode with a token: the headers of every request are the
    configured headers with the token under the configured header name, or
    under [X-API-Key] when no name is configured. *)
Theorem Send_apikey_headers `{lib : GoLib} (world : World)
    (retryable_status : Z -> bool) (failure_message : Response -> string)
    (w : State) (title message : string) (payload : value)
    (contentType : string) :
  URL (config w) ≠ "" ∨ Getenv world "WEBHOOK_URL" ≠ "" ->
  buildPayload world w title message = Ok (payload, contentType) ->
  strings_ToLower (AuthType (config w)) = "apikey" ->
  AuthToken (config w) ≠ "" ->
  ∃ k, (1 <= k)%nat ∧
    req_headers <$>
      sent_by w (Send world retryable_status failure_message title message w) =
    replicate k
      (<[(if bool_decide (AuthHeader (config w) = "") then "X-API-Key"
          else AuthHeader (config w)) := AuthToken (config w)]>
         (deref (maps w) (Headers (config w)))).
Proof.
  intros Hknown Hbuild Hty Htoken.
  destruct (Send_requests_exact world retryable_status failure_message
              w title message payload contentType Hknown Hbuild)
    as (body & k & _ & Hk & Hsent).
  exists k. split; [lia|]. rewrite Hsent, fmap_replicate. simpl. f_equal.
  rewrite bool_decide_eq_true_2.
  - rewrite headers_after_auth_apikey by done. by repeat case_bool_decide.
  - intros Hempty. rewrite Hempty in Hty. by apply ToLower_of_empty in Hty.
Qed.

Lemma Send_apikey_headers_witness :
  let w := with_headers (auth_config "ApiKey" "secret" "" "" "X-Auth-Token")
             {[ "X-Source" := "ponghub" ]} in
  let run := Send (lib := literal_lib) (scripted "" []) status_5xx status_text
               "Test" "Test message" w in
  ∃ k, (1 <= k)%nat ∧
    req_headers <$> sent_by w run =
    replicate k (<["X-Auth-Token" := "secret"]>
                   ({[ "X-Source" := "ponghub" ]} : gmap string string)).
Proof.
  intros w run.
  assert (Hbuild : buildPayload (lib := literal_lib) (scripted "" []) w
                     "Test" "Test message" =
                   Ok (VMap (payload_data (scripted "" []) "Test" "Test message"),
                       "application/json"))
    by (vm_compute; reflexivity).
  assert (Hty : @strings_ToLower literal_lib (AuthType (config w)) = "apikey")
    by (vm_compute; reflexivity).
  assert (Htoken : AuthToken (config w) ≠ "") by (vm_compute; discriminate).
  assert (Hurl : URL (config w) ≠ "") by (vm_compute; discriminate).
  destruct (Send_apikey_headers (lib := literal_lib) (scripted "" []) status_5xx
              status_text w "Test" "Test message" _ _
              (or_introl Hurl) Hbuild Hty Htoken) as (k & Hk & Hsent).
  exists k. split; [exact Hk|]. subst run. rewrite Hsent.
  apply (f_equal (replicate k)). vm_compute. reflexivity.
Defined.

(** X4. No header is injected when the credentials of the configured mode
    are missing (bearer or API key without token, basic without user name
    or without password) or when the type, lower-cased, is none of
    [bearer], [basic], [apikey] (the empty type among them): the headers of
    every request are exactly the configured headers. *)
Theorem Send_headers_without_credentials `{lib : GoLib} (world : World)
    (retryable_status : Z -> bool) (failure_message : Response -> string)
    (w : State) (title message : string) (payload : value)
    (contentType : string) :
  URL (config w) ≠ "" ∨ Getenv world "WEBHOOK_URL" ≠ "" ->
  buildPayload world w title message = Ok (payload, contentType) ->
  (strings_ToLower (AuthType (config w)) = "bearer" ∧ AuthToken (config w) = "")
  ∨ (strings_ToLower (AuthType (config w)) = "basic" ∧
     (AuthUsername (config w) = "" ∨ AuthPassword (config w) = ""))
  ∨ (strings_ToLower (AuthType (config w)) = "apikey" ∧ AuthToken (config w) = "")
  ∨ (strings_ToLower (AuthType (config w)) ≠ "bearer" ∧
     strings_ToLower (AuthType (config w)) ≠ "basic" ∧
     strings_ToLower (AuthType (config w)) ≠ "apikey") ->
  ∃ k, (1 <= k)%nat ∧
    req_headers <$>
      sent_by w (Send world retryable_status failure_message title message w) =
    replicate k (deref (maps w) (Headers (config w))).
Proof.
  intros Hknown Hbuild Hnone.
  destruct (Send_requests_exact world retryable_status failure_message
              w title message payload contentType Hknown Hbuild)
    as (body & k & _ & Hk & Hsent).
  exists k. split; [lia|]. rewrite Hsent, fmap_replicate. simpl. f_equal.
  destruct (bool_decide (AuthType (config w) ≠ "")); [|done].
  by apply headers_after_auth_none.
Qed.

Lemma Send_headers_without_credentials_witness :
  let w := with_headers (auth_config "basic" "" "user" "" "")
             {[ "X-Source" := "ponghub" ]} in
  let run := Send (lib := literal_lib) (scripted "" []) status_5xx status_text
               "Test" "Test message" w in
  ∃ k, (1 <= k)%nat ∧
    req_headers <$> sent_by w run =
    replicate k ({[ "X-Source" := "ponghub" ]} : gmap string string).
Proof.
  intros w run.
  assert (Hbuild : buildPayload (lib := literal_lib) (scripted "" []) w
                     "Test" "Test message" =
                   Ok (VMap (payload_data (scripted "" []) "Test" "Test message"),
                       "application/json"))
    by (vm_compute; reflexivity).
  assert (Hty : @strings_ToLower literal_lib (AuthType (config w)) = "basic")
    by (vm_compute; reflexivity).
  assert (Hpassword : AuthPassword (config w) = "") by (vm_compute; reflexivity).
  assert (Hurl : URL (config w) ≠ "") by (vm_compute; discriminate).
  destruct (Send_headers_without_credentials (lib := literal_lib)
              (scripted "" []) status_5xx status_text w "Test" "Test message"
              _ _ (or_introl Hurl) Hbuild
              (or_intror (or_introl (conj Hty (or_intror Hpassword)))))
    as (k & Hk & Hsent).
  exists k. split; [exact Hk|]. subst run. rewrite Hsent.
  apply (f_equal (replicate k)). vm_compute. reflexivity.
Defined.

(** *** Timeout and retry count *)

(** X5. The timeout handed to the HTTP helper is always positive: the
    configured one when that is positive, 30 otherwise; the retry count is
    never negative: the configured one when positive, 0 otherwise; and the
    TLS flag is the configured one. *)
Theorem Send_timeout_and_retries `{lib : GoLib} (world : World)
    (retryable_status : Z -> bool) (failure_message : Response -> string)
    (w : State) (title message : string) :
  Forall (fun req =>
            req_timeout req =
              (if 0 <? Timeout (config w) then Timeout (config w) else 30) ∧
            0 < req_timeout req ∧
            req_maxRetries req = Z.max 0 (Retries (config w)) ∧
            req_skipTLSVerify req = SkipTLSVerify (config w))
    (sent_by w (Send world retryable_status failure_message title message w)).
Proof.
  apply Forall_forall. intros req Hreq.
  destruct (Send_sent world retryable_status failure_message w title message)
    as [Hnone|(payload & contentType & Hknown & Hbuild)].
  { rewrite Hnone in Hreq. by apply elem_of_nil in Hreq. }
  destruct (Send_requests world retryable_status failure_message
              w title message payload contentType Hknown Hbuild)
    as (body & headers & k & _ & _ & _ & _ & Hsent).
  rewrite Hsent in Hreq. apply elem_of_replicate in Hreq as [-> _].
  simpl. rewrite retries_max.
  destruct (Z.ltb_spec 0 (Timeout (config w))); repeat split; lia.
Qed.

(** *** Errors of the template engine *)

(** X6. When the raw template does not parse, or parses and fails to
    execute on the data, [Send] returns the error of the template engine
    behind the prefixes [failed to build webhook payload: ] and
    [failed to parse template: ] (or [failed to execute template: ]), and
    issues no request. *)
Theorem Send_template_error `{lib : GoLib} (world : World)
    (retryable_status : Z -> bool) (failure_message : Response -> string)
    (w : State) (title message : string) :
  URL (config w) ≠ "" ∨ Getenv world "WEBHOOK_URL" ≠ "" ->
  CustomPayload (config w) = None ->
  Template (config w) ≠ "" ->
  (∀ err,
     template_Parse template_funcs (Template (config w)) = Err err ->
     Send world retryable_status failure_message title message w =
       (Some (errorString ("failed to build webhook payload: " +:+
                           "failed to parse template: " +:+ Error err)), w)) ∧
  (∀ tmpl err,
     template_Parse template_funcs (Template (config w)) = Ok tmpl ->
     template_Execute tmpl (payload_data world title message) = Err err ->
     Send world retryable_status failure_message title message w =
       (Some (errorString ("failed to build webhook payload: " +:+
                           "failed to execute template: " +:+ Error err)), w)).
Proof.
  intros Hknown Hcustom Htemplate.
  assert (Hbuild : buildPayload world w title message =
                   buildTemplatePayload w (payload_data world title message)).
  { unfold buildPayload. rewrite Hcustom. by rewrite bool_decide_eq_true_2. }
  split.
  - intros err Hparse.
    rewrite (Send_no_payload world retryable_status failure_message w title
               message (Errorf_w "failed to parse template: " err) Hknown).
    + done.
    + rewrite Hbuild. unfold buildTemplatePayload. by rewrite Hparse.
  - intros tmpl err Hparse Hexec.
    rewrite (Send_no_payload world retryable_status failure_message w title
               message (Errorf_w "failed to execute template: " err) Hknown).
    + done.
    + rewrite Hbuild. unfold buildTemplatePayload. by rewrite Hparse, Hexec.
Qed.

Lemma Send_template_error_witness :
  let w := NewWebhookNotifier (template_config "{{" "") in
  Send (lib := literal_lib) (scripted "" []) status_5xx status_text
    "Test" "Test message" w =
    (Some (errorString
             ("failed to build webhook payload: " +:+
              "failed to parse template: " +:+
              "template: webhook: actions are outside this instance")), w).
Proof.
  intros w.
  assert (Hurl : URL (config w) ≠ "") by (vm_compute; discriminate).
  assert (Htemplate : Template (config w) ≠ "") by (vm_compute; discriminate).
  exact (proj1 (Send_template_error (lib := literal_lib) (scripted "" [])
                  status_5xx status_text w "Test" "Test message"
                  (or_introl Hurl) eq_refl Htemplate)
           (libError "template: webhook: actions are outside this instance")
           eq_refl).
Defined.

(** *** The custom payload, further *)

Lemma lookup_enhanced_unmapped (customPayload : CustomPayloadConfig.t)
    (w : State) (data : gmap string value) (k : string) :
  CustomPayloadConfig.TitleField customPayload ≠ k ->
  CustomPayloadConfig.MessageField customPayload ≠ k ->
  enhanced customPayload w data !! k =
    match deref (maps w) (CustomPayloadConfig.Fields customPayload) !! k with
    | Some v => Some (VString v)
    | None => data !! k
    end.
Proof.
  intros Htitle Hmessage. rewrite lookup_enhanced.
  rewrite (bool_decide_eq_false_2 _ Htitle), (bool_decide_eq_false_2 _ Hmessage).
  by rewrite !andb_false_r.
Qed.

(** X7. A custom payload without template sends the merged data, in which
    each key takes its value, in this order of precedence, from the message
    mapping ([MessageField], when set and included), from the title mapping
    ([TitleField], when set and included), from the custom fields, and from
    the six keys of the base data. *)
Theorem custom_payload_merge_precedence `{lib : GoLib} (world : World)
    (w : State) (customPayload : CustomPayloadConfig.t)
    (title message : string) :
  CustomPayload (config w) = Some customPayload ->
  CustomPayloadConfig.Template customPayload = "" ->
  ∃ m,
    buildPayload world w title message =
      Ok (VMap m,
          if bool_decide (CustomPayloadConfig.ContentType customPayload = "")
          then "application/json"
          else CustomPayloadConfig.ContentType customPayload) ∧
    ∀ k,
      m !! k =
        if bool_decide (CustomPayloadConfig.MessageField customPayload ≠ "")
           && CustomPayloadConfig.IncludeMessage customPayload
           && bool_decide (CustomPayloadConfig.MessageField customPayload = k)
        then Some (VString message)
        else if bool_decide (CustomPayloadConfig.TitleField customPayload ≠ "")
                && CustomPayloadConfig.IncludeTitle customPayload
                && bool_decide (CustomPayloadConfig.TitleField customPayload = k)
        then Some (VString title)
        else match deref (maps w) (CustomPayloadConfig.Fields customPayload) !! k with
             | Some v => Some (VString v)
             | None => payload_data world title message !! k
             end.
Proof.
  intros Hcustom Htemplate.
  exists (enhanced customPayload w (payload_data world title message)). split.
  - unfold buildPayload. rewrite Hcustom. unfold buildCustomPayload.
    rewrite Htemplate.
    rewrite (bool_decide_eq_false_2 ("" ≠ "")) by (by intros []).
    f_equal. f_equal. by repeat case_bool_decide.
  - intros k. rewrite lookup_enhanced.
    destruct (index_payload_data world title message) as (-> & -> & _).
    done.
Qed.

Lemma custom_payload_merge_precedence_witness :
  let customPayload := mapped "subject" "subject" 0%nat in
  let w := {| config := custom_config customPayload;
              maps := {[ 0%nat := {[ "subject" := "from the fields";
                                     "team" := "operations" ]} ]};
              wire := [] |} in
  ∃ m,
    buildPayload (lib := literal_lib) (scripted "" []) w "Service Down" "DB failed" =
      Ok (VMap m, "application/json") ∧
    m !! "subject" = Some (VString "DB failed") ∧
    m !! "team" = Some (VString "operations") ∧
    m !! "service" = Some (VString "ponghub").
Proof.
  intros customPayload w.
  destruct (custom_payload_merge_precedence (lib := literal_lib) (scripted "" [])
              w customPayload "Service Down" "DB failed" eq_refl eq_refl)
    as (m & Hbuild & Hlookup).
  exists m. split; [exact Hbuild|].
  rewrite !Hlookup. repeat split; vm_compute; reflexivity.
Defined.

(** X8. On the custom-payload path a configured custom content type always
    wins, also when a rendered template parses as JSON; without one the
    content type is [application/json], or [text/plain] for a rendered
    template that is sent as text.  The content type of the webhook
    configuration itself plays no part. *)
Theorem custom_content_type `{lib : GoLib} (world : World) (w : State)
    (customPayload : CustomPayloadConfig.t) (title message : string)
    (payload : value) (contentType : string) :
  CustomPayload (config w) = Some customPayload ->
  buildPayload world w title message = Ok (payload, contentType) ->
  (CustomPayloadConfig.ContentType customPayload ≠ "" ->
   contentType = CustomPayloadConfig.ContentType customPayload) ∧
  (CustomPayloadConfig.ContentType customPayload = "" ->
   contentType = "application/json"
   ∨ (contentType = "text/plain" ∧ ∃ text, payload = VString text)).
Proof.
  intros Hcustom. unfold buildPayload. rewrite Hcustom.
  unfold buildCustomPayload, buildTemplatePayloadWithData.
  set (data := enhanced customPayload w (payload_data world title message)).
  set (template := CustomPayloadConfig.Template customPayload).
  destruct (bool_decide (template ≠ ""));
    [destruct (strings_Contains template (quoted "alert")
               && strings_Contains template (quoted "details"))|].
  - intros [= <- <-]. split.
    + intros Hct. by rewrite bool_decide_eq_true_2.
    + intros ->. by left.
  - destruct (template_Parse template_funcs template) as [tmpl|]; [|done].
    destruct (template_Execute tmpl data) as [buf|]; [|done].
    destruct (json_Unmarshal buf) as [jsonData|]; intros [= <- <-]; split.
    + intros Hct. by rewrite bool_decide_eq_true_2.
    + intros ->. by left.
    + intros Hct. by rewrite bool_decide_eq_true_2.
    + intros ->. right. eauto.
  - intros [= <- <-]. split.
    + intros Hct. by rewrite bool_decide_eq_true_2.
    + intros ->. by left.
Qed.

Lemma custom_content_type_witness :
  let customPayload := content_typed "true" "application/cloudevents+json" in
  let w := NewWebhookNotifier (custom_config customPayload) in
  buildPayload (lib := literal_lib) (scripted "" []) w "Service Down" "DB failed"
    = Ok (VBool true, "application/cloudevents+json").
Proof.
  intros customPayload w.
  assert (Hbuild : ∃ contentType,
            buildPayload (lib := literal_lib) (scripted "" []) w
              "Service Down" "DB failed" = Ok (VBool true, contentType))
    by (eexists; vm_compute; reflexivity).
  destruct Hbuild as [contentType Hbuild].
  assert (Hct : CustomPayloadConfig.ContentType customPayload ≠ "")
    by (vm_compute; discriminate).
  rewrite Hbuild. do 2 f_equal.
  exact (proj1 (custom_content_type (lib := literal_lib) (scripted "" []) w
                  customPayload "Service Down" "DB failed" (VBool true)
                  contentType eq_refl Hbuild) Hct).
Defined.

(** X9. A custom template that contains [alert] and [details] in double
    quotes is never handed to the template engine, so the payload is built
    whatever the rest of the template is; it is an object that always has
    the members [alert] and [details], and whose other members are [env] or
    [svc] (when the template names them) or keys of the merged data whose
    quoted name occurs in the template. *)
Theorem structured_payload_members `{lib : GoLib} (world : World) (w : State)
    (customPayload : CustomPayloadConfig.t) (title message : string) :
  let template := CustomPayloadConfig.Template customPayload in
  let data := enhanced customPayload w (payload_data world title message) in
  CustomPayload (config w) = Some customPayload ->
  strings_Contains template (quoted "alert") = true ->
  strings_Contains template (quoted "details") = true ->
  ∃ m contentType,
    buildPayload world w title message = Ok (VMap m, contentType) ∧
    is_Some (m !! "alert") ∧ is_Some (m !! "details") ∧
    ∀ k, is_Some (m !! k) ->
      k = "alert" ∨ k = "details"
      ∨ (k = "env" ∧ strings_Contains template (quoted "env") = true)
      ∨ (k = "svc" ∧ strings_Contains template (quoted "svc") = true)
      ∨ (template_names_key template k = true ∧ is_Some (data !! k)).
Proof.
  intros template data Hcustom Halert Hdetails.
  destruct (buildCustomPayload_structured customPayload w
              (payload_data world title message) Halert Hdetails)
    as (m & Hbuild & Hlookup).
  fold template in Hlookup. fold data in Hlookup.
  exists m. eexists. split.
  { unfold buildPayload. rewrite Hcustom. exact Hbuild. }
  assert (Hmember : ∀ k, k = "alert" ∨ k = "details" -> is_Some (m !! k)).
  { intros k Hk. rewrite Hlookup.
    destruct (template_names_key template k && bool_decide (is_Some (data !! k)))
      eqn:Hfirst.
    - apply andb_prop in Hfirst as [_ Hsome].
      by apply bool_decide_eq_true_1 in Hsome.
    - destruct Hk as [-> | ->]; simpl;
        repeat (destruct (strings_Contains template _)); simpl; eauto. }
  split; [apply Hmember; by left|]. split; [apply Hmember; by right|].
  intros k. rewrite Hlookup.
  destruct (template_names_key template k) eqn:Hnames; simpl.
  - destruct (bool_decide (is_Some (data !! k))) eqn:Hsome.
    + apply bool_decide_eq_true_1 in Hsome. intros _. do 4 right. done.
    + destruct (strings_Contains template (quoted "svc")),
               (strings_Contains template (quoted "env"));
        rewrite ?andb_true_r, ?andb_false_r;
        repeat case_bool_decide; intros [? Hval]; subst;
        first [ discriminate Hval | by left | by right; left
              | by right; right; left | by right; right; right; left ].
  - destruct (strings_Contains template (quoted "svc")),
             (strings_Contains template (quoted "env"));
      rewrite ?andb_true_r, ?andb_false_r;
      repeat case_bool_decide; intros [? Hval]; subst;
      first [ discriminate Hval | by left | by right; left
            | by right; right; left | by right; right; right; left ].
Qed.

(** A template the engine of the examples refuses is accepted on this
    path. *)
Lemma structured_payload_members_witness :
  let customPayload := content_typed open_action_template "" in
  let w := NewWebhookNotifier (custom_config customPayload) in
  template_Parse (GoLib := literal_lib) template_funcs open_action_template =
    Err (libError "template: webhook: actions are outside this instance") ∧
  ∃ m contentType,
    buildPayload (lib := literal_lib) (scripted "" []) w "Service Down" "DB failed"
      = Ok (VMap m, contentType) ∧
    is_Some (m !! "alert") ∧ is_Some (m !! "details").
Proof.
  intros customPayload w.
  split; [vm_compute; reflexivity|].
  assert (Halert : strings_Contains (CustomPayloadConfig.Template customPayload)
                     (quoted "alert") = true)
    by (vm_compute; reflexivity).
  assert (Hdetails : strings_Contains (CustomPayloadConfig.Template customPayload)
                       (quoted "details") = true)
    by (vm_compute; reflexivity).
  destruct (structured_payload_members (lib := literal_lib) (scripted "" []) w
              customPayload "Service Down" "DB failed" eq_refl Halert Hdetails)
    as (m & contentType & Hbuild & Ha & Hd & _).
  exists m, contentType. split; [exact Hbuild|]. split; [exact Ha|exact Hd].
Defined.

(** X10. In that branch, when the template names [env] and [svc] and
    neither the custom fields nor the title and message mappings use the
    names [env], [environment], [svc] and [service] except as said here:
    [env] carries the custom field [environment], and is null when no such
    field is declared; [svc] carries the custom field [service] when one is
    declared, and [ponghub] otherwise. *)
Theorem structured_env_and_svc `{lib : GoLib} (world : World) (w : State)
    (customPayload : CustomPayloadConfig.t) (title message : string) :
  let template := CustomPayloadConfig.Template customPayload in
  let fields := deref (maps w) (CustomPayloadConfig.Fields customPayload) in
  CustomPayload (config w) = Some customPayload ->
  strings_Contains template (quoted "alert") = true ->
  strings_Contains template (quoted "details") = true ->
  strings_Contains template (quoted "env") = true ->
  strings_Contains template (quoted "svc") = true ->
  (∀ name, name = "env" ∨ name = "environment" ∨ name = "svc" ∨ name = "service" ->
     CustomPayloadConfig.TitleField customPayload ≠ name ∧
     CustomPayloadConfig.MessageField customPayload ≠ name) ->
  fields !! "env" = None ->
  fields !! "svc" = None ->
  ∃ m contentType,
    buildPayload world w title message = Ok (VMap m, contentType) ∧
    m !! "env" = Some (match fields !! "environment" with
                       | Some v => VString v
                       | None => VNil
                       end) ∧
    m !! "svc" = Some (match fields !! "service" with
                       | Some v => VString v
                       | None => VString "ponghub"
                       end).
Proof.
  intros template fields Hcustom Halert Hdetails Henv Hsvc Hnames Hfenv Hfsvc.
  set (data := payload_data world title message).
  destruct (buildCustomPayload_structured customPayload w data Halert Hdetails)
    as (m & Hbuild & Hlookup).
  fold template in Hlookup.
  exists m. eexists. split.
  { unfold buildPayload. rewrite Hcustom. exact Hbuild. }
  assert (Hunmapped : ∀ name,
            name = "env" ∨ name = "environment" ∨ name = "svc" ∨ name = "service" ->
            enhanced customPayload w data !! name =
              match fields !! name with
              | Some v => Some (VString v)
              | None => data !! name
              end).
  { intros name Hname. destruct (Hnames name Hname).
    by apply lookup_enhanced_unmapped. }
  assert (Henv_none : enhanced customPayload w data !! "env" = None).
  { rewrite Hunmapped by auto. rewrite Hfenv.
    by apply lookup_payload_data_other. }
  assert (Hsvc_none : enhanced customPayload w data !! "svc" = None).
  { rewrite Hunmapped by auto. rewrite Hfsvc.
    by apply lookup_payload_data_other. }
  assert (Hservice : data !! "service" = Some (VString "ponghub")).
  { subst data. unfold payload_data.
    rewrite !lookup_insert_ne by done. by rewrite lookup_singleton_eq. }
  assert (Henvironment : data !! "environment" = None).
  { by apply lookup_payload_data_other. }
  split.
  - rewrite Hlookup, Henv_none, Henv, Hsvc. unfold index.
    rewrite (Hunmapped "environment") by auto. rewrite Henvironment.
    rewrite andb_false_r. simpl.
    by destruct (fields !! "environment").
  - rewrite Hlookup, Hsvc_none, Hsvc. unfold index.
    rewrite (Hunmapped "service") by auto. rewrite Hservice.
    rewrite andb_false_r. simpl.
    by destruct (fields !! "service").
Qed.

Lemma structured_env_and_svc_witness :
  let customPayload := with_fields env_svc_template 0%nat in
  let w := {| config := custom_config customPayload;
              maps := {[ 0%nat := {[ "team" := "operations" ]} ]};
              wire := [] |} in
  ∃ m contentType,
    buildPayload (lib := literal_lib) (scripted "" []) w "Service Down" "DB failed"
      = Ok (VMap m, contentType) ∧
    m !! "env" = Some VNil ∧ m !! "svc" = Some (VString "ponghub").
Proof.
  intros customPayload w.
  assert (Halert : strings_Contains (CustomPayloadConfig.Template customPayload)
                     (quoted "alert") = true) by (vm_compute; reflexivity).
  assert (Hdetails : strings_Contains (CustomPayloadConfig.Template customPayload)
                       (quoted "details") = true) by (vm_compute; reflexivity).
  assert (Henv : strings_Contains (CustomPayloadConfig.Template customPayload)
                   (quoted "env") = true) by (vm_compute; reflexivity).
  assert (Hsvc : strings_Contains (CustomPayloadConfig.Template customPayload)
                   (quoted "svc") = true) by (vm_compute; reflexivity).
  assert (Hnames : ∀ name,
            name = "env" ∨ name = "environment" ∨ name = "svc" ∨ name = "service" ->
            CustomPayloadConfig.TitleField customPayload ≠ name ∧
            CustomPayloadConfig.MessageField customPayload ≠ name).
  { intros name [-> | [-> | [-> | ->]]]; split; vm_compute; discriminate. }
  assert (Hfenv : deref (maps w) (CustomPayloadConfig.Fields customPayload)
                    !! "env" = None) by (vm_compute; reflexivity).
  assert (Hfsvc : deref (maps w) (CustomPayloadConfig.Fields customPayload)
                    !! "svc" = None) by (vm_compute; reflexivity).
  destruct (structured_env_and_svc (lib := literal_lib) (scripted "" []) w
              customPayload "Service Down" "DB failed" eq_refl
              Halert Hdetails Henv Hsvc Hnames Hfenv Hfsvc)
    as (m & contentType & Hbuild & Hmenv & Hmsvc).
  exists m, contentType. split; [exact Hbuild|].
  rewrite Hmenv, Hmsvc. split; vm_compute; reflexivity.
Defined.

(** *** Preset formats *)

Section Presets.
Context `{lib : GoLib} (world : World).

(** With no custom payload and no raw template, a format whose lower-case
    form is [name] reaches the switch of [buildFormattedPayload]. *)
Lemma buildPayload_formatted (w : State) (title message name : string) :
  CustomPayload (config w) = None ->
  Template (config w) = "" ->
  strings_ToLower (Format (config w)) = name ->
  name ≠ "" ->
  buildPayload world w title message =
    buildFormattedPayload world w (payload_data world title message).
Proof.
  intros Hcustom Htemplate Hformat Hname.
  unfold buildPayload. rewrite Hcustom, Htemplate.
  rewrite (bool_decide_eq_false_2 ("" ≠ "")) by (by intros []).
  rewrite bool_decide_eq_true_2; [done|].
  intros Hempty. rewrite Hempty in Hformat. by apply ToLower_of_empty in Hformat.
Qed.

(** X11. The Slack preset, whatever the case of the configured name: the
    text is the title between asterisks, and the one attachment carries the
    message, the Unix time of a second reading of the clock, and the
    service name. *)
Theorem slack_payload (w : State) (title message : string) :
  CustomPayload (config w) = None ->
  Template (config w) = "" ->
  strings_ToLower (Format (config w)) = "slack" ->
  buildPayload world w title message =
    Ok (VMap {[ "text" := VString ("*" +:+ title +:+ "*");
                "attachments" :=
                  VList [ VMap {[ "color" := VString "danger";
                                  "text" := VString message;
                                  "timestamp" := VInt (Unix (Now world 1));
                                  "fields" :=
                                    VList [ VMap {[ "title" := VString "Service";
                                                    "value" := VString "ponghub";
                                                    "short" := VBool true ]} ] ]} ] ]},
        "application/json").
Proof.
  intros Hcustom Htemplate Hformat.
  rewrite (buildPayload_formatted w title message "slack") by done.
  unfold buildFormattedPayload. rewrite Hformat.
  rewrite (bool_decide_eq_true_2 ("slack" = "slack")) by done.
  unfold buildSlackFormat.
  destruct (index_payload_data world title message)
    as (-> & -> & _ & _ & _ & ->).
  done.
Qed.

(** X12. The Discord preset: one embed with the title, the message as
    description, the colour red, the RFC 3339 timestamp of the data and the
    service name. *)
Theorem discord_payload (w : State) (title message : string) :
  CustomPayload (config w) = None ->
  Template (config w) = "" ->
  strings_ToLower (Format (config w)) = "discord" ->
  buildPayload world w title message =
    Ok (VMap {[ "embeds" :=
                  VList [ VMap {[ "title" := VString title;
                                  "description" := VString message;
                                  "color" := VInt 16711680;
                                  "timestamp" :=
                                    VString (Format_RFC3339 (Now world 0));
                                  "fields" :=
                                    VList [ VMap {[ "name" := VString "Service";
                                                    "value" := VString "ponghub";
                                                    "inline" := VBool true ]} ] ]} ] ]},
        "application/json").
Proof.
  intros Hcustom Htemplate Hformat.
  rewrite (buildPayload_formatted w title message "discord") by done.
  unfold buildFormattedPayload. rewrite Hformat.
  rewrite (bool_decide_eq_false_2 ("discord" = "slack")) by done.
  rewrite (bool_decide_eq_true_2 ("discord" = "discord")) by done.
  unfold buildDiscordFormat.
  destruct (index_payload_data world title message)
    as (-> & -> & _ & _ & -> & ->).
  done.
Qed.

(** X13. The Teams preset: a message card whose summary and activity title
    are the title, whose activity text is the message, and whose facts are
    the service name and the RFC 3339 timestamp of the data. *)
Theorem teams_payload (w : State) (title message : string) :
  CustomPayload (config w) = None ->
  Template (config w) = "" ->
  strings_ToLower (Format (config w)) = "teams" ->
  buildPayload world w title message =
    Ok (VMap {[ "@type" := VString "MessageCard";
                "@context" := VString "http://schema.org/extensions";
                "themeColor" := VString "FF0000";
                "summary" := VString title;
                "sections" :=
                  VList [ VMap {[ "activityTitle" := VString title;
                                  "activityText" := VString message;
                                  "facts" :=
                                    VList [ VMap {[ "name" := VString "Service";
                                                    "value" := VString "ponghub" ]};
                                            VMap {[ "name" := VString "Timestamp";
                                                    "value" :=
                                                      VString (Format_RFC3339
                                                                 (Now world 0)) ]} ] ]} ] ]},
        "application/json").
Proof.
  intros Hcustom Htemplate Hformat.
  rewrite (buildPayload_formatted w title message "teams") by done.
  unfold buildFormattedPayload. rewrite Hformat.
  rewrite (bool_decide_eq_false_2 ("teams" = "slack")) by done.
  rewrite (bool_decide_eq_false_2 ("teams" = "discord")) by done.
  rewrite (bool_decide_eq_true_2 ("teams" = "teams")) by done.
  unfold buildTeamsFormat.
  destruct (index_payload_data world title message)
    as (-> & -> & _ & _ & -> & ->).
  done.
Qed.

(** X14. The Mattermost preset: a single text, the title as a second-level
    heading, the message, and the lines for service and time. *)
Theorem mattermost_payload (w : State) (title message : string) :
  CustomPayload (config w) = None ->
  Template (config w) = "" ->
  strings_ToLower (Format (config w)) = "mattermost" ->
  buildPayload world w title message =
    Ok (VMap {[ "text" :=
                  VString ("## " +:+ title +:+ newline +:+ newline +:+
                           message +:+ newline +:+ newline +:+
                           "**Service:** " +:+ "ponghub" +:+ newline +:+
                           "**Time:** " +:+ Format_RFC3339 (Now world 0)) ]},
        "application/json").
Proof.
  intros Hcustom Htemplate Hformat.
  rewrite (buildPayload_formatted w title message "mattermost") by done.
  unfold buildFormattedPayload. rewrite Hformat.
  rewrite (bool_decide_eq_false_2 ("mattermost" = "slack")) by done.
  rewrite (bool_decide_eq_false_2 ("mattermost" = "discord")) by done.
  rewrite (bool_decide_eq_false_2 ("mattermost" = "teams")) by done.
  rewrite (bool_decide_eq_true_2 ("mattermost" = "mattermost")) by done.
  unfold buildMattermostFormat.
  destruct (index_payload_data world title message)
    as (-> & -> & _ & _ & -> & ->).
  done.
Qed.

(** X15. A format that is not empty and whose lower-case form is none of
    the four preset names falls back to the default payload: the data map
    with its six keys. *)
Theorem unknown_format_payload (w : State) (title message : string) :
  CustomPayload (config w) = None ->
  Template (config w) = "" ->
  Format (config w) ≠ "" ->
  strings_ToLower (Format (config w)) ≠ "slack" ->
  strings_ToLower (Format (config w)) ≠ "discord" ->
  strings_ToLower (Format (config w)) ≠ "teams" ->
  strings_ToLower (Format (config w)) ≠ "mattermost" ->
  buildPayload world w title message =
    Ok (VMap (payload_data world title message), "application/json").
Proof.
  intros Hcustom Htemplate Hformat Hslack Hdiscord Hteams Hmattermost.
  unfold buildPayload. rewrite Hcustom, Htemplate.
  rewrite (bool_decide_eq_false_2 ("" ≠ "")) by (by intros []).
  rewrite (bool_decide_eq_true_2 _ Hformat).
  unfold buildFormattedPayload.
  by rewrite !bool_decide_eq_false_2 by done.
Qed.

End Presets.

(** The preset test of the package. *)
Lemma slack_payload_witness :
  let w := NewWebhookNotifier (format_config "Slack") in
  ∃ m,
    buildPayload (lib := literal_lib) (scripted "" []) w
      "Service Alert" "Service is down" = Ok (VMap m, "application/json") ∧
    m !! "text" = Some (VString "*Service Alert*").
Proof.
  intros w.
  assert (Hformat : @strings_ToLower literal_lib (Format (config w)) = "slack")
    by (vm_compute; reflexivity).
  eexists. split.
  - exact (slack_payload (lib := literal_lib) (scripted "" []) w
             "Service Alert" "Service is down" eq_refl eq_refl Hformat).
  - vm_compute. reflexivity.
Defined.

Lemma discord_payload_witness :
  let w := NewWebhookNotifier (format_config "discord") in
  ∃ m,
    buildPayload (lib := literal_lib) (scripted "" []) w
      "Service Alert" "Service is down" = Ok (VMap m, "application/json") ∧
    dom m = ({[ "embeds" ]} : gset string).
Proof.
  intros w.
  assert (Hformat : @strings_ToLower literal_lib (Format (config w)) = "discord")
    by (vm_compute; reflexivity).
  eexists. split.
  - exact (discord_payload (lib := literal_lib) (scripted "" []) w
             "Service Alert" "Service is down" eq_refl eq_refl Hformat).
  - apply dom_singleton_L.
Defined.

Lemma teams_payload_witness :
  let w := NewWebhookNotifier (format_config "TEAMS") in
  ∃ m,
    buildPayload (lib := literal_lib) (scripted "" []) w
      "Service Alert" "Service is down" = Ok (VMap m, "application/json") ∧
    m !! "summary" = Some (VString "Service Alert").
Proof.
  intros w.
  assert (Hformat : @strings_ToLower literal_lib (Format (config w)) = "teams")
    by (vm_compute; reflexivity).
  eexists. split.
  - exact (teams_payload (lib := literal_lib) (scripted "" []) w
             "Service Alert" "Service is down" eq_refl eq_refl Hformat).
  - vm_compute. reflexivity.
Defined.

Lemma mattermost_payload_witness :
  let w := NewWebhookNotifier (format_config "Mattermost") in
  buildPayload (lib := literal_lib) (scripted "" []) w
    "Service Alert" "Service is down" =
    Ok (VMap {[ "text" :=
                  VString ("## Service Alert" +:+ newline +:+ newline +:+
                           "Service is down" +:+ newline +:+ newline +:+
                           "**Service:** ponghub" +:+ newline +:+
                           "**Time:** 2025-10-12T10:00:00Z") ]},
        "application/json").
Proof.
  intros w.
  assert (Hformat : @strings_ToLower literal_lib (Format (config w)) = "mattermost")
    by (vm_compute; reflexivity).
  rewrite (mattermost_payload (lib := literal_lib) (scripted "" []) w
             "Service Alert" "Service is down" eq_refl eq_refl Hformat).
  vm_compute. reflexivity.
Defined.

Lemma unknown_format_payload_witness :
  let w := NewWebhookNotifier (format_config "pagerduty") in
  buildPayload (lib := literal_lib) (scripted "" []) w
    "Service Alert" "Service is down" =
    Ok (VMap (payload_data (scripted "" []) "Service Alert" "Service is down"),
        "application/json").
Proof.
  intros w.
  assert (Hformat : Format (config w) ≠ "") by (vm_compute; discriminate).
  assert (Hslack : @strings_ToLower literal_lib (Format (config w)) ≠ "slack")
    by (vm_compute; discriminate).
  assert (Hdiscord : @strings_ToLower literal_lib (Format (config w)) ≠ "discord")
    by (vm_compute; discriminate).
  assert (Hteams : @strings_ToLower literal_lib (Format (config w)) ≠ "teams")
    by (vm_compute; discriminate).
  assert (Hmattermost : @strings_ToLower literal_lib (Format (config w)) ≠ "mattermost")
    by (vm_compute; discriminate).
  exact (unknown_format_payload (lib := literal_lib) (scripted "" []) w
           "Service Alert" "Service is down" eq_refl eq_refl
           Hformat Hslack Hdiscord Hteams Hmattermost).
Defined.

(** *** Rendered templates on the wire *)

(** X16. [buildPayload] fails only where a template is rendered: with a
    raw template, or with a custom template that does not contain both
    [alert] and [details] in double quotes; and the error it returns is the
    error of the template engine, wrapped behind [failed to parse
    template: ] or [failed to execute template: ]. *)
Theorem buildPayload_fails_only_in_template `{lib : GoLib} (world : World)
    (w : State) (title message : string) (err : error) :
  buildPayload world w title message = Err err ->
  ((CustomPayload (config w) = None ∧ Template (config w) ≠ "")
   ∨ ∃ customPayload,
       CustomPayload (config w) = Some customPayload ∧
       CustomPayloadConfig.Template customPayload ≠ "" ∧
       strings_Contains (CustomPayloadConfig.Template customPayload) (quoted "alert")
         && strings_Contains (CustomPayloadConfig.Template customPayload)
              (quoted "details") = false) ∧
  ∃ inner,
    err = wrapError ("failed to parse template: " +:+ Error inner) inner
    ∨ err = wrapError ("failed to execute template: " +:+ Error inner) inner.
Proof.
  unfold buildPayload.
  destruct (CustomPayload (config w)) as [customPayload|] eqn:Hcustom.
  - unfold buildCustomPayload, buildTemplatePayloadWithData.
    set (data := enhanced customPayload w (payload_data world title message)).
    set (template := CustomPayloadConfig.Template customPayload).
    case_bool_decide as Htemplate; [|done].
    destruct (strings_Contains template (quoted "alert")
              && strings_Contains template (quoted "details")) eqn:Hboth; [done|].
    intros Herr. split; [right; eauto|].
    destruct (template_Parse template_funcs template) as [tmpl|inner].
    + destruct (template_Execute tmpl data) as [buf|inner].
      * by destruct (json_Unmarshal buf).
      * injection Herr as <-. exists inner. by right.
    + injection Herr as <-. exists inner. by left.
  - case_bool_decide as Htemplate.
    + unfold buildTemplatePayload. intros Herr. split; [by left|].
      destruct (template_Parse template_funcs (Template (config w)))
        as [tmpl|inner].
      * destruct (template_Execute tmpl _) as [buf|inner].
        -- by destruct (json_Unmarshal buf).
        -- injection Herr as <-. exists inner. by right.
      * injection Herr as <-. exists inner. by left.
    + case_bool_decide; [|done].
      unfold buildFormattedPayload. by repeat case_bool_decide.
Qed.

Lemma buildPayload_fails_only_in_template_witness :
  let w := NewWebhookNotifier (template_config "{{" "") in
  ∃ inner,
    Errorf_w "failed to parse template: "
      (libError "template: webhook: actions are outside this instance") =
      wrapError ("failed to parse template: " +:+ Error inner) inner
    ∨ Errorf_w "failed to parse template: "
        (libError "template: webhook: actions are outside this instance") =
      wrapError ("failed to execute template: " +:+ Error inner) inner.
Proof.
  intros w.
  assert (Hbuild : buildPayload (lib := literal_lib) (scripted "" []) w
                     "Test" "Test message" =
                   Err (Errorf_w "failed to parse template: "
                          (libError "template: webhook: actions are outside this instance")))
    by (vm_compute; reflexivity).
  exact (proj2 (buildPayload_fails_only_in_template (lib := literal_lib)
                  (scripted "" []) w "Test" "Test message" _ Hbuild)).
Defined.

Section RenderedTemplates.
Context `{lib : GoLib} (world : World) (retryable_status : Z -> bool)
  (failure_message : Response -> string).

(** X17. A raw template whose rendering is not valid JSON is sent as it
    is: the body of every request is the rendered text, byte for byte, and
    its content type is the configured one, or [text/plain] when none is
    configured. *)
Theorem Send_template_text (w : State) (title message : string)
    (tmpl : template_t) (buf : string) :
  URL (config w) ≠ "" ∨ Getenv world "WEBHOOK_URL" ≠ "" ->
  CustomPayload (config w) = None ->
  Template (config w) ≠ "" ->
  template_Parse template_funcs (Template (config w)) = Ok tmpl ->
  template_Execute tmpl (payload_data world title message) = Ok buf ->
  json_Unmarshal buf = None ->
  ∃ k, (1 <= k)%nat ∧
    (fun req => (req_body req, req_contentType req)) <$>
      sent_by w (Send world retryable_status failure_message title message w) =
    replicate k
      (Some buf,
       if bool_decide (ContentType (config w) = "") then "text/plain"
       else ContentType (config w)).
Proof.
  intros Hknown Hcustom Htemplate Hparse Hexec Hjson.
  assert (Hbuild : buildPayload world w title message =
            Ok (VString buf,
                if bool_decide (ContentType (config w) = "") then "text/plain"
                else ContentType (config w))).
  { unfold buildPayload. rewrite Hcustom.
    rewrite (bool_decide_eq_true_2 _ Htemplate).
    unfold buildTemplatePayload. rewrite Hparse, Hexec, Hjson.
    by repeat case_bool_decide. }
  destruct (Send_requests world retryable_status failure_message
              w title message _ _ Hknown Hbuild)
    as (body & headers & k & Hbody & _ & _ & Hk & Hsent).
  exists k. split; [lia|]. rewrite Hsent, fmap_replicate. simpl.
  injection Hbody as <-. done.
Qed.

(** X18. A raw template whose rendering is valid JSON is not sent as
    rendered: the body is made from the parsed value, with content type
    [application/json] whatever content type is configured.  A rendering
    that parses to null gives a request without body, one that parses to a
    JSON string gives the string itself, without quotes, and any other
    value is encoded again by [json.Marshal]. *)
Theorem Send_template_json (w : State) (title message : string)
    (tmpl : template_t) (buf : string) (jsonData : value) :
  URL (config w) ≠ "" ∨ Getenv world "WEBHOOK_URL" ≠ "" ->
  CustomPayload (config w) = None ->
  Template (config w) ≠ "" ->
  template_Parse template_funcs (Template (config w)) = Ok tmpl ->
  template_Execute tmpl (payload_data world title message) = Ok buf ->
  json_Unmarshal buf = Some jsonData ->
  ∃ k, (1 <= k)%nat ∧
    (fun req => (req_body req, req_contentType req)) <$>
      sent_by w (Send world retryable_status failure_message title message w) =
    replicate k
      (match jsonData with
       | VNil => None
       | VString text => Some text
       | _ => Some (json_encode jsonData)
       end,
       "application/json").
Proof.
  intros Hknown Hcustom Htemplate Hparse Hexec Hjson.
  assert (Hbuild : buildPayload world w title message =
            Ok (jsonData, "application/json")).
  { unfold buildPayload. rewrite Hcustom.
    rewrite (bool_decide_eq_true_2 _ Htemplate).
    unfold buildTemplatePayload. by rewrite Hparse, Hexec, Hjson. }
  destruct (Send_requests world retryable_status failure_message
              w title message _ _ Hknown Hbuild)
    as (body & headers & k & Hbody & _ & _ & Hk & Hsent).
  exists k. split; [lia|]. rewrite Hsent, fmap_replicate. simpl.
  do 2 f_equal. by destruct jsonData; injection Hbody as <-.
Qed.

End RenderedTemplates.

Lemma Send_template_text_witness :
  let w := NewWebhookNotifier (template_config "service down" "text/markdown") in
  let run := Send (lib := literal_lib) (scripted "" []) status_5xx status_text
               "Test" "Test message" w in
  ∃ k, (1 <= k)%nat ∧
    (fun req => (req_body req, req_contentType req)) <$> sent_by w run =
    replicate k (Some "service down", "text/markdown").
Proof.
  intros w run.
  assert (Hurl : URL (config w) ≠ "") by (vm_compute; discriminate).
  assert (Htemplate : Template (config w) ≠ "") by (vm_compute; discriminate).
  destruct (Send_template_text (lib := literal_lib) (scripted "" []) status_5xx
              status_text w "Test" "Test message" "service down" "service down"
              (or_introl Hurl) eq_refl Htemplate eq_refl eq_refl eq_refl)
    as (k & Hk & Hsent).
  exists k. split; [exact Hk|]. subst run. rewrite Hsent.
  apply (f_equal (replicate k)). vm_compute. reflexivity.
Defined.

Lemma Send_template_json_witness :
  let w := NewWebhookNotifier (template_config "null" "text/markdown") in
  let run := Send (lib := literal_lib) (scripted "" []) status_5xx status_text
               "Test" "Test message" w in
  ∃ k, (1 <= k)%nat ∧
    (fun req => (req_body req, req_contentType req)) <$> sent_by w run =
    replicate k (None, "application/json").
Proof.
  intros w run.
  assert (Hurl : URL (config w) ≠ "") by (vm_compute; discriminate).
  assert (Htemplate : Template (config w) ≠ "") by (vm_compute; discriminate).
  destruct (Send_template_json (lib := literal_lib) (scripted "" []) status_5xx
              status_text w "Test" "Test message" "null" "null" VNil
              (or_introl Hurl) eq_refl Htemplate eq_refl eq_refl eq_refl)
    as (k & Hk & Hsent).
  exists k. split; [exact Hk|]. subst run. rewrite Hsent. reflexivity.
Defined.

(** *** The [jsonEscape] template function *)

Lemma append_assoc (a b c : string) : (a +:+ b) +:+ c = a +:+ (b +:+ c).
Proof.
  induction a as [|x a IH]; [done|].
  change (String x ((a +:+ b) +:+ c) = String x (a +:+ (b +:+ c))).
  by rewrite IH.
Qed.

Lemma list_of_append (a b : string) :
  String.list_ascii_of_string (a +:+ b) =
    String.list_ascii_of_string a ++ String.list_ascii_of_string b.
Proof.
  induction a as [|x a IH]; [done|].
  change (x :: String.list_ascii_of_string (a +:+ b) =
          x :: (String.list_ascii_of_string a ++ String.list_ascii_of_string b)).
  by rewrite IH.
Qed.

Lemma json_escape_byte_plain (c : ascii) :
  forallb plain_byte (String.list_ascii_of_string (json_escape_byte c)) = true.
Proof. destruct c as [[] [] [] [] [] [] [] []]; reflexivity. Qed.

Lemma json_escape_byte_closed (c : ascii) (rest : string) :
  escapes_closed (json_escape_byte c +:+ rest) = escapes_closed rest.
Proof. destruct c as [[] [] [] [] [] [] [] []]; reflexivity. Qed.

Lemma json_unescape_byte (c : ascii) (rest : string) :
  json_unescape (json_escape_byte c +:+ rest) = String c <$> json_unescape rest.
Proof. destruct c as [[] [] [] [] [] [] [] []]; reflexivity. Qed.

(** The equation of [json_escape] at a string that is not empty. *)
Lemma json_escape_cons (b : ascii) (rest : string) :
  json_escape (String b rest) =
    if (Ascii.N_of_ascii b <? 0x80)%N then json_escape_byte b +:+ json_escape rest
    else
      let n := Nat.min (String.length (String b rest)) 4 in
      let '(c, size) :=
        utf8_DecodeRuneInString (String.substring 0 n (String b rest)) in
      if (c =? utf8_RuneError)%N && (size =? 1)%nat then
        escape_u "fffd" +:+ json_escape rest
      else if ((c =? 0x2028) || (c =? 0x2029))%N then
        escape_u (String "2" (String "0" (String "2"
                   (String (hex_digit (N.land c 0xF)) "")))) +:+
        json_escape (string_drop (size - 1) rest)
      else
        String.substring 0 size (String b rest) +:+
        json_escape (string_drop (size - 1) rest).
Proof. reflexivity. Qed.

Lemma json_escape_cons_ascii (b : ascii) (rest : string) :
  (Ascii.N_of_ascii b <? 0x80)%N = true ->
  json_escape (String b rest) = json_escape_byte b +:+ json_escape rest.
Proof. intros Hb. by rewrite json_escape_cons, Hb. Qed.

Lemma isASCII_cons (c : ascii) (s : string) :
  isASCII (String c s) = true ->
  (Ascii.N_of_ascii c <? 0x80)%N = true ∧ isASCII s = true.
Proof. intros Hascii. apply andb_prop in Hascii. exact Hascii. Qed.

Lemma json_unescape_escape (s : string) :
  isASCII s = true -> json_unescape (json_escape s) = Some s.
Proof.
  induction s as [|c s IH]; [done|].
  intros [Hc Hs]%isASCII_cons.
  by rewrite json_escape_cons_ascii, json_unescape_byte, IH.
Qed.

(** **** The decoder *)

Lemma utf8_first_cases (b : N) :
  (b <? 0x80)%N = false ->
  utf8_first b ∈ [0xF1; 0x02; 0x13; 0x03; 0x23; 0x34; 0x04; 0x44]%N.
Proof.
  intros Hb. unfold utf8_first. rewrite Hb.
  repeat (match goal with |- context [if ?c then _ else _] => destruct c end);
    set_solver.
Qed.

Lemma byte_in_range (b lo hi : N) :
  ((b <? lo) || (hi <? b))%N = false -> (0x80 <= lo)%N -> (b <? 0x80)%N = false.
Proof.
  intros [Hlo _]%orb_false_elim Hle.
  apply N.ltb_ge in Hlo. apply N.ltb_ge. lia.
Qed.

(** From a byte that is not ASCII on, [utf8.DecodeRuneInString] either
    reports one malformed byte, or it takes two to four bytes of the
    string, none of them ASCII. *)
Lemma utf8_DecodeRuneInString_sequence (s : string) (c : N) (size : nat) :
  (byte_at s 0 <? 0x80)%N = false ->
  utf8_DecodeRuneInString s = (c, size) ->
  (c = utf8_RuneError ∧ size = 1%nat) ∨
  ((2 <= size <= 4)%nat ∧ (size <= String.length s)%nat ∧
   ∀ i, (i < size)%nat -> (byte_at s i <? 0x80)%N = false).
Proof.
  intros Hb0 Hdec. unfold utf8_DecodeRuneInString in Hdec.
  destruct (String.length s <? 1)%nat eqn:Hlen.
  { apply Nat.ltb_lt in Hlen. destruct s; [discriminate Hb0|simpl in Hlen; lia]. }
  pose proof (utf8_first_cases _ Hb0) as Hx.
  set (x := utf8_first (byte_at s 0)) in *.
  repeat (apply elem_of_cons in Hx as [Hx|Hx]); [..|by apply elem_of_nil in Hx];
    rewrite Hx in Hdec; simpl in Hdec;
    repeat match type of Hdec with
      | context [N.to_nat ?n] =>
          let v := eval vm_compute in (N.to_nat n) in
          change (N.to_nat n) with v in Hdec
      end;
    try (left; by inversion Hdec);
    repeat match type of Hdec with
      | context [if ?b then _ else _] =>
          let H := fresh "Hc" in destruct b eqn:H
      end;
    inversion Hdec; subst c size;
    try (by left);
    right;
    repeat match goal with
      | H : (_ <? _)%nat = false |- _ => apply Nat.ltb_ge in H
      | H : (_ <=? _)%nat = false |- _ => apply Nat.leb_gt in H
      | H : (_ <=? _)%nat = true |- _ => apply Nat.leb_le in H
      | H : ((_ <? _) || (_ <? _))%N = false |- _ =>
          apply byte_in_range in H; [|lia]
      end;
    (split; [lia|split; [lia|]]);
    intros [|[|[|[|i]]]] Hi; first [assumption | lia].
Qed.

Lemma string_drop_length (k : nat) (s : string) :
  (String.length (string_drop k s) <= String.length s)%nat.
Proof.
  revert k. induction s as [|b s IH]; intros [|k]; simpl; try lia.
  specialize (IH k). lia.
Qed.

Lemma substring_length_le (m : nat) (s : string) :
  (String.length (String.substring 0 m s) <= m)%nat.
Proof.
  revert s. induction m as [|m IH]; intros [|b s]; simpl; try lia.
  specialize (IH s). lia.
Qed.

Lemma substring_substring (k m : nat) (s : string) :
  (k <= m)%nat ->
  String.substring 0 k (String.substring 0 m s) = String.substring 0 k s.
Proof.
  revert m s. induction k as [|k IH]; intros [|m] [|b s] Hle; simpl; try done; try lia.
  by rewrite IH by lia.
Qed.

Lemma high_byte_plain (c : ascii) :
  (Ascii.N_of_ascii c <? 0x80)%N = false ->
  plain_byte c = true ∧ Ascii.eqb c "\" = false ∧ Ascii.eqb c "034" = false.
Proof.
  destruct c as [[] [] [] [] [] [] [] []]; intros Hc;
    first [discriminate Hc | done].
Qed.

(** The bytes of a sequence the decoder takes need no escape. *)
Lemma substring_high (size : nat) (s rest : string) :
  (size <= String.length s)%nat ->
  (∀ i, (i < size)%nat -> (byte_at s i <? 0x80)%N = false) ->
  forallb plain_byte (String.list_ascii_of_string (String.substring 0 size s)) = true ∧
  escapes_closed (String.substring 0 size s +:+ rest) = escapes_closed rest.
Proof.
  revert s. induction size as [|size IH]; intros [|b s] Hlen Hhigh.
  - done.
  - done.
  - simpl in Hlen. lia.
  - destruct (IH s) as [IHplain IHclosed].
    { simpl in Hlen. lia. }
    { intros i Hi. apply (Hhigh (S i)). lia. }
    destruct (high_byte_plain b) as (Hplain & Hbackslash & Hquote).
    { apply (Hhigh 0%nat). lia. }
    change (String.substring 0 (S size) (String b s))
      with (String b (String.substring 0 size s)).
    split.
    + change (plain_byte b &&
              forallb plain_byte
                (String.list_ascii_of_string (String.substring 0 size s)) = true).
      by rewrite Hplain, IHplain.
    + change (escapes_closed (String b (String.substring 0 size s +:+ rest)) =
              escapes_closed rest).
      cbn [escapes_closed]. by rewrite Hbackslash, Hquote.
Qed.

Lemma json_escape_output_bounded (n : nat) (s : string) :
  (String.length s <= n)%nat ->
  forallb plain_byte (String.list_ascii_of_string (json_escape s)) = true ∧
  escapes_closed (json_escape s) = true.
Proof.
  revert s. induction n as [|n IH]; intros [|b rest] Hlen; try done.
  { simpl in Hlen. lia. }
  assert (Hrest : (String.length rest <= n)%nat) by (simpl in Hlen; lia).
  rewrite json_escape_cons.
  destruct (Ascii.N_of_ascii b <? 0x80)%N eqn:Hb.
  { destruct (IH rest Hrest) as [IHplain IHclosed]. split.
    - by rewrite list_of_append, forallb_app, json_escape_byte_plain.
    - by rewrite json_escape_byte_closed. }
  cbv zeta.
  destruct (utf8_DecodeRuneInString _) as [c size] eqn:Hdec.
  destruct ((c =? utf8_RuneError)%N && (size =? 1)%nat) eqn:Herror.
  { destruct (IH rest Hrest) as [IHplain IHclosed]. split.
    - by rewrite list_of_append, forallb_app, IHplain.
    - exact IHclosed. }
  destruct (IH (string_drop (size - 1) rest)) as [IHplain IHclosed].
  { pose proof (string_drop_length (size - 1) rest). lia. }
  destruct ((c =? 0x2028) || (c =? 0x2029))%N eqn:Hseparator.
  { apply orb_true_iff in Hseparator as [->%N.eqb_eq | ->%N.eqb_eq].
    - split; [by rewrite list_of_append, forallb_app, IHplain|exact IHclosed].
    - split; [by rewrite list_of_append, forallb_app, IHplain|exact IHclosed]. }
  apply utf8_DecodeRuneInString_sequence in Hdec as [[-> ->]|(Hsize & Hin & Hhigh)];
    [discriminate Herror| |exact Hb].
  pose proof (substring_length_le (Nat.min (String.length (String b rest)) 4)
                (String b rest)) as Hmin.
  rewrite <- (substring_substring size
                (Nat.min (String.length (String b rest)) 4)) by lia.
  destruct (substring_high size _ (json_escape (string_drop (size - 1) rest))
              Hin Hhigh) as [Hplain Hclosed].
  split.
  - by rewrite list_of_append, forallb_app, Hplain, IHplain.
  - by rewrite Hclosed.
Qed.

(** What [json.Marshal] writes outside ASCII: the two separators and each
    byte of a malformed sequence (a stray byte, an overlong form, a
    surrogate, a sequence cut short) as escapes, any other character as it
    is, the replacement character included. *)
Lemma json_escape_outside_ascii :
  json_escape ("a" +:+ line_separator +:+ "b" +:+ String "255" "c") =
    "a" +:+ escape_u "2028" +:+ "b" +:+ escape_u "fffd" +:+ "c" ∧
  json_escape (paragraph_separator +:+ "!") = escape_u "2029" +:+ "!" ∧
  json_escape e_acute = e_acute ∧
  json_escape grinning_face = grinning_face ∧
  json_escape replacement_character = replacement_character ∧
  json_escape (String "192" (String "128" "")) =
    escape_u "fffd" +:+ escape_u "fffd" ∧
  json_escape (String "237" (String "160" (String "128" ""))) =
    escape_u "fffd" +:+ escape_u "fffd" +:+ escape_u "fffd" ∧
  json_escape (String "226" (String "128" "")) =
    escape_u "fffd" +:+ escape_u "fffd".
Proof. repeat split; vm_compute; reflexivity. Qed.

(** X19. The text [jsonEscape] returns can stand between double quotes in
    a JSON document: it has no control character and none of [<], [>] and
    [&], no double quote outside an escape sequence, and no backslash at
    its end. *)
Theorem jsonEscape_output (s : string) :
  forallb plain_byte (String.list_ascii_of_string (jsonEscape s)) = true ∧
  escapes_closed (jsonEscape s) = true.
Proof.
  unfold jsonEscape.
  exact (json_escape_output_bounded (String.length s) s (le_n _)).
Qed.

(** X20. [jsonEscape] loses nothing of an ASCII text: two ASCII strings
    with the same escaped form are the same string.  (Outside ASCII it
    does lose: every byte that starts no well-formed sequence is written
    as the same escape.) *)
Theorem jsonEscape_injective (s1 s2 : string) :
  isASCII s1 = true -> isASCII s2 = true ->
  jsonEscape s1 = jsonEscape s2 -> s1 = s2.
Proof.
  unfold jsonEscape. intros Hascii1 Hascii2 Heq.
  pose proof (json_unescape_escape s1 Hascii1) as H1.
  rewrite Heq, json_unescape_escape in H1 by exact Hascii2. congruence.
Qed.

Lemma jsonEscape_injective_witness : "a<b" = "a<b".
Proof.
  exact (jsonEscape_injective "a<b" "a<b" eq_refl eq_refl eq_refl).
Defined.

Lemma json_escape_byte_unchanged (c : ascii) :
  plain_byte c = true -> Ascii.eqb c "034" = false -> Ascii.eqb c "\" = false ->
  json_escape_byte c = String c "".
Proof.
  destruct c as [[] [] [] [] [] [] [] []]; intros Hplain Hquote Hbackslash;
    first [discriminate Hplain | discriminate Hquote | discriminate Hbackslash
          | reflexivity].
Qed.

(** X21. An ASCII text without control characters and without any of the
    double quote, the backslash, [<], [>] and [&] passes through
    [jsonEscape] unchanged. *)
Theorem jsonEscape_plain_text (s : string) :
  isASCII s = true ->
  forallb (fun c => plain_byte c && negb (Ascii.eqb c "034")
                    && negb (Ascii.eqb c "\"))
    (String.list_ascii_of_string s) = true ->
  jsonEscape s = s.
Proof.
  unfold jsonEscape.
  induction s as [|c s IH]; [done|].
  intros [Hascii Hrest]%isASCII_cons.
  change (String.list_ascii_of_string (String c s))
    with (c :: String.list_ascii_of_string s).
  cbn [forallb]. intros [Hc Hs]%andb_prop.
  apply andb_prop in Hc as [Hc Hbackslash]. apply andb_prop in Hc as [Hplain Hquote].
  apply negb_true_iff in Hquote, Hbackslash.
  rewrite json_escape_cons_ascii, (json_escape_byte_unchanged c) by done.
  rewrite IH by done. done.
Qed.

Lemma jsonEscape_plain_text_witness :
  jsonEscape "Service Down: DB failed" = "Service Down: DB failed".
Proof.
  exact (jsonEscape_plain_text "Service Down: DB failed" eq_refl eq_refl).
Defined.

(** *** The URL, once more *)

(** X22. A configured URL takes precedence over the environment: when it
    is not empty, every request goes to it, whatever [WEBHOOK_URL] holds,
    and a request is issued as soon as the payload is built. *)
Theorem Send_configured_url `{lib : GoLib} (world : World)
    (retryable_status : Z -> bool) (failure_message : Response -> string)
    (w : State) (title message : string) (payload : value)
    (contentType : string) :
  URL (config w) ≠ "" ->
  buildPayload world w title message = Ok (payload, contentType) ->
  ∃ k, (1 <= k)%nat ∧
    req_url <$>
      sent_by w (Send world retryable_status failure_message title message w) =
    replicate k (URL (config w)).
Proof.
  intros Hurl Hbuild.
  destruct (Send_requests world retryable_status failure_message
              w title message payload contentType (or_introl Hurl) Hbuild)
    as (body & headers & k & _ & _ & _ & Hk & Hsent).
  exists k. split; [lia|]. rewrite Hsent, fmap_replicate. simpl.
  by rewrite bool_decide_eq_false_2.
Qed.

Lemma Send_configured_url_witness :
  let w := NewWebhookNotifier basic_config in
  let run := Send (lib := literal_lib) (scripted "http://env.example/hook" [])
               status_5xx status_text "Test" "Test message" w in
  ∃ k, (1 <= k)%nat ∧
    req_url <$> sent_by w run = replicate k "http://hooks.example/notify".
Proof.
  intros w run.
  assert (Hurl : URL (config w) ≠ "") by (vm_compute; discriminate).
  assert (Hbuild : buildPayload (lib := literal_lib)
                     (scripted "http://env.example/hook" []) w
                     "Test" "Test message" =
                   Ok (VMap (payload_data (scripted "http://env.example/hook" [])
                               "Test" "Test message"),
                       "application/json"))
    by (vm_compute; reflexivity).
  exact (Send_configured_url (lib := literal_lib)
           (scripted "http://env.example/hook" []) status_5xx status_text
           w "Test" "Test message" _ _ Hurl Hbuild).
Defined.

(** *** Reserved names in the structured branch *)

(** X23. The payload of the structured branch never holds any of the
    names [Title], [Message], [title], [message], [timestamp], [service]
    and [environment]: the keys of the base data do not travel under their
    own names, and neither does a custom field called by one of them. *)
Theorem structured_payload_reserved_names `{lib : GoLib} (world : World)
    (w : State) (customPayload : CustomPayloadConfig.t)
    (title message : string) :
  let template := CustomPayloadConfig.Template customPayload in
  CustomPayload (config w) = Some customPayload ->
  strings_Contains template (quoted "alert") = true ->
  strings_Contains template (quoted "details") = true ->
  ∃ m contentType,
    buildPayload world w title message = Ok (VMap m, contentType) ∧
    Forall (fun k => m !! k = None)
      ["Title"; "Message"; "title"; "message"; "timestamp"; "service";
       "environment"].
Proof.
  intros template Hcustom Halert Hdetails.
  destruct (buildCustomPayload_structured customPayload w
              (payload_data world title message) Halert Hdetails)
    as (m & Hbuild & Hlookup).
  fold template in Hlookup.
  exists m. eexists. split.
  { unfold buildPayload. rewrite Hcustom. exact Hbuild. }
  assert (Hreserved : ∀ k,
            template_names_key template k = false ->
            k ≠ "svc" -> k ≠ "env" -> k ≠ "details" -> k ≠ "alert" ->
            m !! k = None).
  { intros k Hnames ? ? ? ?. rewrite Hlookup, Hnames. simpl.
    by rewrite !bool_decide_eq_false_2 by done. }
  repeat (constructor; [by apply Hreserved|]).
  constructor.
Qed.

Lemma structured_payload_reserved_names_witness :
  let customPayload := with_fields environment_template 0%nat in
  let w := {| config := custom_config customPayload;
              maps := {[ 0%nat := {[ "environment" := "production";
                                     "service" := "billing" ]} ]};
              wire := [] |} in
  ∃ m contentType,
    buildPayload (lib := literal_lib) (scripted "" []) w
      "Service Down" "Database connection failed" = Ok (VMap m, contentType) ∧
    Forall (fun k => m !! k = None)
      ["Title"; "Message"; "title"; "message"; "timestamp"; "service";
       "environment"].
Proof.
  intros customPayload w.
  assert (Halert : strings_Contains (CustomPayloadConfig.Template customPayload)
                     (quoted "alert") = true) by (vm_compute; reflexivity).
  assert (Hdetails : strings_Contains (CustomPayloadConfig.Template customPayload)
                       (quoted "details") = true) by (vm_compute; reflexivity).
  exact (structured_payload_reserved_names (lib := literal_lib) (scripted "" [])
           w customPayload "Service Down" "Database connection failed"
           eq_refl Halert Hdetails).
Defined.

(** *** One call after another *)

Section Consecutive.
Context `{lib : GoLib} (world : World) (retryable_status : Z -> bool)
  (failure_message : Response -> string).

#[local] Abbreviation send := (Send world retryable_status failure_message).

(** What a run leaves of the state it started from. *)
Lemma Send_state_after (w : State) (title message : string) :
  config (send title message w).2 = config w ∧
  ∀ r, allocated w r ->
    deref (maps (send title message w).2) r = deref (maps w) r.
Proof.
  assert (Hlocal : config (send title message w).2 = config w ∧
    ∀ l, l ≠ fresh (dom (maps w)) ->
      maps (send title message w).2 !! l = maps w !! l).
  { destruct (decide (URL (config w) = "" ∧ Getenv world "WEBHOOK_URL" = ""))
      as [[Hu He]|Hurl].
    { by rewrite Send_no_url. }
    assert (Hknown : URL (config w) ≠ "" ∨ Getenv world "WEBHOOK_URL" ≠ "").
    { destruct (decide (URL (config w) = "")); [right|left]; naive_solver. }
    destruct (buildPayload world w title message) as [[payload contentType]|err]
      eqn:Hbuild.
    - destruct (Send_issues world retryable_status failure_message
                  w title message payload contentType Hknown Hbuild)
        as (body & headers & _ & _ & _ & Hrun).
      rewrite Hrun.
      match goal with
      | |- context [attempt _ _ _ ?n ?req ?st] =>
          destruct (attempt_frame world retryable_status failure_message n req st)
            as (Hc & Hm & _)
      end.
      rewrite Hc, Hm. cbn [config maps]. split; [done|].
      intros l Hl. by rewrite lookup_insert_ne.
    - by rewrite (Send_no_payload world retryable_status failure_message
                    w title message err). }
  destruct Hlocal as [Hconfig Hmaps]. split; [done|].
  intros [l|] Hr; [|done]. unfold deref. rewrite Hmaps; [done|].
  intros ->. destruct Hr as [m Hm].
  apply (is_fresh (dom (maps w))), elem_of_dom. eauto.
Qed.

(** [buildPayload] reads the state through the configuration and the
    custom fields only. *)
Lemma buildPayload_same_store (w w' : State) (title message : string) :
  config w' = config w ->
  (∀ customPayload,
     CustomPayload (config w) = Some customPayload ->
     deref (maps w') (CustomPayloadConfig.Fields customPayload) =
       deref (maps w) (CustomPayloadConfig.Fields customPayload)) ->
  buildPayload world w' title message = buildPayload world w title message.
Proof.
  intros Hconfig Hfields. unfold buildPayload. rewrite Hconfig.
  destruct (CustomPayload (config w)) as [customPayload|] eqn:Hcustom.
  - specialize (Hfields customPayload eq_refl).
    unfold buildCustomPayload, enhanced.
    destruct (CustomPayloadConfig.Fields customPayload) as [l|]; [|done].
    by rewrite Hfields.
  - unfold buildTemplatePayload, buildFormattedPayload. by rewrite Hconfig.
Qed.

Lemma headers_after_auth_config (w w' : State) (headers : gmap string string) :
  config w' = config w ->
  headers_after_auth w' headers = headers_after_auth w headers.
Proof. intros Hconfig. unfold headers_after_auth. by rewrite Hconfig. Qed.

(** X24. A call of [Send] leaves nothing behind that changes a later
    call: on a notifier whose map references are allocated, the request a
    second call issues (URL, method, body, content type, headers, timeout,
    retry count) is the request it would have issued had the first call
    not taken place. *)
Theorem Send_after_Send (w : State) (title1 message1 title2 message2 : string)
    (payload : value) (contentType : string) :
  allocated w (Headers (config w)) ->
  (∀ customPayload,
     CustomPayload (config w) = Some customPayload ->
     allocated w (CustomPayloadConfig.Fields customPayload)) ->
  URL (config w) ≠ "" ∨ Getenv world "WEBHOOK_URL" ≠ "" ->
  buildPayload world w title2 message2 = Ok (payload, contentType) ->
  let w1 := (send title1 message1 w).2 in
  ∃ req k k1,
    (1 <= k)%nat ∧ (1 <= k1)%nat ∧
    sent_by w (send title2 message2 w) = replicate k req ∧
    sent_by w1 (send title2 message2 w1) = replicate k1 req.
Proof.
  intros Hheaders Hfields Hknown Hbuild w1.
  destruct (Send_state_after w title1 message1) as [Hconfig Hderef].
  fold w1 in Hconfig, Hderef.
  assert (Hbuild1 : buildPayload world w1 title2 message2 = Ok (payload, contentType)).
  { rewrite <- Hbuild. apply buildPayload_same_store; [done|].
    intros customPayload Hcustom. apply Hderef. by apply Hfields. }
  assert (Hknown1 : URL (config w1) ≠ "" ∨ Getenv world "WEBHOOK_URL" ≠ "").
  { by rewrite Hconfig. }
  destruct (Send_requests_exact world retryable_status failure_message
              w title2 message2 payload contentType Hknown Hbuild)
    as (body & k & Hbody & Hk & Hsent).
  destruct (Send_requests_exact world retryable_status failure_message
              w1 title2 message2 payload contentType Hknown1 Hbuild1)
    as (body1 & k1 & Hbody1 & Hk1 & Hsent1).
  rewrite Hbody in Hbody1. injection Hbody1 as <-.
  rewrite Hconfig in Hsent1.
  rewrite (Hderef _ Hheaders) in Hsent1.
  rewrite (headers_after_auth_config w w1 _ Hconfig) in Hsent1.
  eexists _, k, k1. split; [lia|]. split; [lia|]. split; [exact Hsent|exact Hsent1].
Qed.

End Consecutive.

Lemma Send_after_Send_witness :
  let w := with_headers (auth_config "bearer" "test-token-123" "" "" "")
             {[ "X-Source" := "ponghub" ]} in
  let world := scripted "" [500] in
  let w1 := (Send (lib := literal_lib) world status_5xx status_text
               "First" "first message" w).2 in
  ∃ req k k1,
    (1 <= k)%nat ∧ (1 <= k1)%nat ∧
    sent_by w (Send (lib := literal_lib) world status_5xx status_text
                 "Second" "second message" w) = replicate k req ∧
    sent_by w1 (Send (lib := literal_lib) world status_5xx status_text
                  "Second" "second message" w1) = replicate k1 req.
Proof.
  intros w world w1.
  assert (Hheaders : allocated w (Headers (config w))).
  { exists ({[ "X-Source" := "ponghub" ]}). vm_compute. reflexivity. }
  assert (Hfields : ∀ customPayload,
            CustomPayload (config w) = Some customPayload ->
            allocated w (CustomPayloadConfig.Fields customPayload)).
  { intros customPayload Hcustom. vm_compute in Hcustom. discriminate Hcustom. }
  assert (Hurl : URL (config w) ≠ "") by (vm_compute; discriminate).
  assert (Hbuild : buildPayload (lib := literal_lib) world w
                     "Second" "second message" =
                   Ok (VMap (payload_data world "Second" "second message"),
                       "application/json"))
    by (vm_compute; reflexivity).
  exact (Send_after_Send (lib := literal_lib) world status_5xx status_text
           w "First" "first message" "Second" "second message" _ _
           Hheaders Hfields (or_introl Hurl) Hbuild).
Defined.
